(** * Tenant lifecycle of the EKS SaaS platform: embedding and properties

    The development follows the sources of the repository:
    - the landing client's [RegisterComponent]: [getTenantUrl] (tenant
      slug) and [onSubmit],
    - the CDK constructs [ApplicationService], [TenantOnboarding],
      [ServicesStack], [CommonResourcesStack] and [EKSClusterStack]
      (CodeBuild projects, their build specifications, the ingress
      manifests, the tenant table and the IAM policy statements),
    - the CDK constructs [StaticSite] and [StaticSitesStack] (the three
      client sites),
    - the application client's [AuthInterceptor] and
      [OrdersDetailComponent].

    Part I holds the embedding, Part II the properties. *)

From Stdlib Require Import ZArith NArith Ascii String List Bool Lia.
From Stdlib Require Import SpecFloat.
From stdpp Require Import base gmap strings list fin_maps.

Import ListNotations.

(* ===================================================================== *)
(** * Part I. Embedding                                                   *)
(* ===================================================================== *)

(** ** JavaScript strings

    A JavaScript string is a sequence of UTF-16 code units; the regular
    expressions of the sources carry no [u] flag, so they work on code
    units. *)

Module Js.

Abbreviation code_unit := N.
Abbreviation js_string := (list N).

Definition of_string (s : string) : js_string :=
  List.map N_of_ascii (list_ascii_of_string s).

Definition between (lo hi c : N) : bool := ((lo <=? c) && (c <=? hi))%N.

Definition is_digit (c : code_unit) : bool := between 48 57 c.
Definition is_upper (c : code_unit) : bool := between 65 90 c.
Definition is_lower (c : code_unit) : bool := between 97 122 c.
Definition is_alnum (c : code_unit) : bool :=
  is_digit c || is_upper c || is_lower c.

(** The class [\w] is [[A-Za-z0-9_]]; [\W] is its complement. *)
Definition is_word (c : code_unit) : bool := is_alnum c || (c =? 95)%N.

(** The class [\s]: ECMAScript white space and line terminators. *)
Definition is_space (c : code_unit) : bool :=
  between 9 13 c || (c =? 32)%N || (c =? 160)%N || (c =? 5760)%N
  || between 8192 8202 c || (c =? 8232)%N || (c =? 8233)%N
  || (c =? 8239)%N || (c =? 8287)%N || (c =? 12288)%N || (c =? 65279)%N.

(** [s.replace(/[cls]+/g, repl)]: every maximal run of code units of the
    class is replaced by one copy of [repl].  [in_run] tells whether the
    previous code unit already belonged to the current match. *)
Fixpoint replace_runs (cls : code_unit -> bool) (repl : js_string)
    (in_run : bool) (s : js_string) : js_string :=
  match s with
  | [] => []
  | c :: s' =>
      if cls c
      then (if in_run then [] else repl) ++ replace_runs cls repl true s'
      else c :: replace_runs cls repl false s'
  end.

Definition replace_class (cls : code_unit -> bool) (repl s : js_string)
    : js_string :=
  replace_runs cls repl false s.

(** [String.prototype.toLowerCase] on the code units [replace] leaves in
    [getTenantUrl], which are all ASCII (lemma [tenantId_chars] below):
    [A-Z] moves to [a-z], every other ASCII code unit stays.  Code units
    above 127 never reach this function there and are left alone. *)
Definition lower_unit (c : code_unit) : code_unit :=
  if is_upper c then (c + 32)%N else c.

Definition toLowerCase (s : js_string) : js_string := List.map lower_unit s.

(** The code units of a slug: lower-case letters, digits and the
    underscore. *)
Definition slug_unit (c : code_unit) : bool :=
  is_lower c || is_digit c || (c =? 95)%N.

End Js.

(** ** [RegisterComponent] (landing client) *)

Module RegisterComponent.
Import Js.

(** [src/environments/environment] is configuration generated at
    deployment time; the two fields [getTenantUrl] reads. *)
Record environment := {
  domain : js_string;
  usingCustomDomain : bool
}.

(** [const re = /[\W\s]+/g] *)
Definition re (c : code_unit) : bool := negb (is_word c) || is_space c.

(** [const tenantId = companyName.replace(re, '').toLowerCase()] *)
Definition tenantId (companyName : js_string) : js_string :=
  toLowerCase (replace_class re [] companyName).

Definition getTenantUrl (env : environment) (companyName : js_string)
    : js_string :=
  if usingCustomDomain env
  then of_string "https://" ++ tenantId companyName ++ of_string "."
         ++ domain env ++ of_string "/"
  else of_string "https://" ++ domain env ++ of_string "/"
         ++ tenantId companyName ++ of_string "/".

(** The data model's wording of the slug, "lower-cased, non-alphanumeric
    stripped", kept apart from the code for comparison. *)
Definition slug_as_worded (companyName : js_string) : js_string :=
  toLowerCase (List.filter is_alnum companyName).

(** The component's three flags and the requests it has posted, each an
    URL and a body.  A body is an object: its keys and their values, a
    string or [null]. *)
Record component := {
  submitting : bool;
  error : bool;
  success : bool;
  posted : list (js_string * gmap string (option js_string))
}.

(** The field initialisers of the class. *)
Definition created : component :=
  {| submitting := false; error := false; success := false; posted := [] |}.

(** [onSubmit()] up to the subscription: [apiUrl] is [environment.apiUrl]
    and [value] is [this.form.value].  The spread copies the form's value
    and [customDomain] is written after it. *)
Definition onSubmit (apiUrl : js_string) (env : environment)
    (value : gmap string (option js_string)) (c : component) : component :=
  let API_URL := apiUrl ++ of_string "/register" in
  let user := <[ "customDomain" := Some (domain env) ]> value in
  {| submitting := true; error := error c; success := success c;
     posted := posted c ++ [(API_URL, user)] |}.

(** The two callbacks handed to [subscribe]. *)
Definition on_value (c : component) : component :=
  {| submitting := false; error := false; success := true;
     posted := posted c |}.

Definition on_error (c : component) : component :=
  {| submitting := false; error := true; success := false;
     posted := posted c |}.

(** What happens to the component: the user submits the form, or a posted
    request is answered or fails. *)
Inductive event :=
| Submit (value : gmap string (option js_string))
| Answered
| Errored.

Definition react (apiUrl : js_string) (env : environment) (c : component)
    (e : event) : component :=
  match e with
  | Submit value => onSubmit apiUrl env value c
  | Answered => on_value c
  | Errored => on_error c
  end.

Definition after (apiUrl : js_string) (env : environment)
    (es : list event) : component :=
  List.fold_left (react apiUrl env) es created.

Definition is_submit (e : event) : bool :=
  match e with
  | Submit _ => true
  | _ => false
  end.

End RegisterComponent.

(** ** Shell commands of the build specifications

    The CDK constructs hand CodeBuild lists of shell command texts.  The
    commands are kept as a small syntax tree; [render] gives back the text
    the TypeScript source writes (compared in Part II), [exec] below gives
    the effect. *)

Module Shell.

Definition dquote : string := String (ascii_of_nat 34) EmptyString.
Definition squote : string := String (ascii_of_nat 39) EmptyString.

(** A double-quoted or bare word: literal text and [$NAME] references. *)
Inductive part :=
| Lit (text : string)
| Var (name : string).

Abbreviation word := (list part).

Abbreviation env := (gmap string string).

Definition render_part (p : part) : string :=
  match p with
  | Lit s => s
  | Var x => "$" +:+ x
  end.

Definition render_word (w : word) : string :=
  List.fold_right (fun p acc => render_part p +:+ acc) "" w.

(** Parameter expansion; an unset variable expands to the empty text. *)
Definition expand_part (e : env) (p : part) : string :=
  match p with
  | Lit s => s
  | Var x => default "" (e !! x)
  end.

Definition expand (e : env) (w : word) : string :=
  List.fold_right (fun p acc => expand_part e p +:+ acc) "" w.

Definition is_ifs (c : ascii) : bool :=
  (c =? " ")%char || (c =? "009")%char || (c =? "010")%char.

Fixpoint no_ifs (s : string) : bool :=
  match s with
  | EmptyString => true
  | String c s' => negb (is_ifs c) && no_ifs s'
  end.

(** An unquoted expansion undergoes field splitting: it is one argument
    exactly when it is non-empty and free of blanks.  (Pathname expansion
    is not modelled.) *)
Definition single_field (s : string) : bool :=
  negb (String.eqb s "") && no_ifs s.

Definition lower_ascii (c : ascii) : ascii :=
  let n := nat_of_ascii c in
  if (65 <=? n)%nat && (n <=? 90)%nat then ascii_of_nat (n + 32) else c.

(** [awk '{print tolower($0)}'] on one line of ASCII text. *)
Fixpoint tolower (s : string) : string :=
  match s with
  | EmptyString => EmptyString
  | String c s' => String (lower_ascii c) (tolower s')
  end.

Inductive command :=
(** [export X=$(echo 'text' | awk '{print tolower($0)}')] *)
| ExportLower (x : string) (text : string)
(** [echo "w" >> file] *)
| EchoAppend (w : word) (file : string)
(** [cp src dst] *)
| Cp (src dst : string)
(** [kubectl apply -k dir -n ns], [ns] unquoted *)
| KubectlApply (dir : string) (ns : word)
(** [aws codebuild start-build --project-name p
     --environment-variables-override name=X,value="w",type=PLAINTEXT] *)
| StartBuild (project : string) (x : string) (w : word)
(** [npm run cdk deploy stack -- --require-approval=never params] *)
| CdkDeploy (stack : word) (params : string)
(** [npm run cdk destroy stack -- --require-approval=never -f] *)
| CdkDestroy (stack : word)
(** any other command: tool installation, logins, kubeconfig *)
| Run (text : string).

Definition render (c : command) : string :=
  match c with
  | ExportLower x text =>
      "export " +:+ x +:+ "=$(echo " +:+ squote +:+ text +:+ squote
      +:+ " | awk " +:+ squote +:+ "{print tolower($0)}" +:+ squote +:+ ")"
  | EchoAppend w file =>
      "echo " +:+ dquote +:+ render_word w +:+ dquote +:+ " >> " +:+ file
  | Cp src dst => "cp " +:+ src +:+ " " +:+ dst
  | KubectlApply dir ns =>
      "kubectl apply -k " +:+ dir +:+ " -n " +:+ render_word ns
  | StartBuild project x w =>
      "aws codebuild start-build --project-name " +:+ project
      +:+ " --environment-variables-override name=" +:+ x +:+ ",value="
      +:+ dquote +:+ render_word w +:+ dquote +:+ ",type=PLAINTEXT"
  | CdkDeploy stack params =>
      "npm run cdk deploy " +:+ render_word stack
      +:+ " -- --require-approval=never " +:+ params
  | CdkDestroy stack =>
      "npm run cdk destroy " +:+ render_word stack
      +:+ " -- --require-approval=never -f"
  | Run text => text
  end.

End Shell.

(** ** Kubernetes objects and the cluster *)

Module K8s.

Inductive merge_type := master | minion.

Record http_path := {
  path : string;
  backend_service : string;
  backend_port : Z
}.

(** An [Ingress] with one rule: the annotation
    [nginx.org/mergeable-ingress-type], the rule's host and its paths. *)
Record ingress := {
  mergeable_ingress_type : merge_type;
  host : string;
  paths : list http_path
}.

Inductive object :=
| Deployment (serviceAccountName image : string) (containerPort : Z)
| Service (selector : string) (port targetPort : Z)
| Ingress (i : ingress).

(** Objects are addressed by namespace, kind and name. *)
Abbreviation key := (string * (string * string))%type.

Abbreviation cluster := (gmap (string * (string * string)) object).

Definition namespace_of (k : key) : string := k.1.

(** [kubectl apply]: create the object or bring it to the applied
    content. *)
Definition apply (ns kind name : string) (o : object) (c : cluster)
    : cluster :=
  <[ (ns, (kind, name)) := o ]> c.

(** A list of writes, applied in order. *)
Definition insert_all (kvs : list (key * object)) (c : cluster) : cluster :=
  List.fold_left (fun c kv => <[ kv.1 := kv.2 ]> c) kvs c.

End K8s.

(** ** CodeBuild projects and their execution *)

Module CodeBuild.
Import Shell.

(** The [kubernetes/] directory of a service repository.  The Deployment,
    Service and Ingress of the manifest are among the sources; the
    kustomization and the patch files are not, and are kept as arbitrary
    lists of lines. *)
Record assets := {
  kustomization : list string;
  host_patch : list string;
  path_patch_template : list string;
  svc_acc_patch_template : list string;
  app : string;
  containerPort : Z;
  service_name : string;
  service_port : Z;
  ingress_name : string
}.

Record project := {
  projectName : string;
  environmentVariables : list (string * string);
  install : list command;
  pre_build : list command;
  build : list command;
  post_build : list command
}.

Inductive cdk_request :=
| Deploy (stack : string)
| Destroy (stack : string).

(** What one build works on: its variables and working copy, the cluster,
    and the requests it sends to CodeBuild and to the CDK. *)
Record state := {
  vars : env;
  files : gmap string (list string);
  cluster : K8s.cluster;
  started : list (string * (string * string));
  cdk : list cdk_request
}.

Definition set_vars (f : env -> env) (s : state) : state :=
  {| vars := f (vars s); files := files s; cluster := cluster s;
     started := started s; cdk := cdk s |}.
Definition set_files (f : gmap string (list string) -> gmap string (list string))
    (s : state) : state :=
  {| vars := vars s; files := f (files s); cluster := cluster s;
     started := started s; cdk := cdk s |}.
Definition set_cluster (c : K8s.cluster) (s : state) : state :=
  {| vars := vars s; files := files s; cluster := c;
     started := started s; cdk := cdk s |}.
Definition add_started (b : string * (string * string)) (s : state) : state :=
  {| vars := vars s; files := files s; cluster := cluster s;
     started := started s ++ [b]; cdk := cdk s |}.
Definition add_cdk (r : cdk_request) (s : state) : state :=
  {| vars := vars s; files := files s; cluster := cluster s;
     started := started s; cdk := cdk s ++ [r] |}.

Fixpoint strip_prefix (p s : string) : option string :=
  match p with
  | EmptyString => Some s
  | String a p' =>
      match s with
      | EmptyString => None
      | String b s' => if (a =? b)%char then strip_prefix p' s' else None
      end
  end.

(** The value of the last line [  k: v] of a YAML fragment. *)
Definition yaml_field (k : string) (lines : list string) : option string :=
  last (omap (strip_prefix ("  " +:+ k +:+ ": ")) lines).

(** Modelled from the spec: the kustomize overlay of an application service
    ([kustomization.yaml] and the patch templates are not among the
    sources).  After the build's [echo] lines each patch file ends in
    [  value: v]; the overlay puts the host patch in the Ingress rule's
    host, the path patch in its path, the service account patch in the
    Deployment, and [newName:newTag] in the container image. *)
Definition kustomize (a : assets) (fs : gmap string (list string))
    : option (list (string * string * K8s.object)) :=
  h ← fs !! "kubernetes/host-patch.yaml" ≫= yaml_field "value";
  p ← fs !! "kubernetes/path-patch.yaml" ≫= yaml_field "value";
  sa ← fs !! "kubernetes/svc-acc-patch.yaml" ≫= yaml_field "value";
  name ← fs !! "kubernetes/kustomization.yaml" ≫= yaml_field "newName";
  tag ← fs !! "kubernetes/kustomization.yaml" ≫= yaml_field "newTag";
  Some [ ("Deployment", app a,
           K8s.Deployment sa (name +:+ ":" +:+ tag) (containerPort a));
         ("Service", service_name a,
           K8s.Service (app a) (service_port a) (containerPort a));
         ("Ingress", ingress_name a,
           K8s.Ingress
             {| K8s.mergeable_ingress_type := K8s.minion;
                K8s.host := h;
                K8s.paths :=
                  [ {| K8s.path := p;
                       K8s.backend_service := service_name a;
                       K8s.backend_port := service_port a |} ] |}) ].

Definition apply_all (ns : string) (os : list (string * string * K8s.object))
    (c : K8s.cluster) : K8s.cluster :=
  List.fold_left (fun c o => K8s.apply ns o.1.1 o.1.2 o.2 c) os c.

(** The cluster keys of a list of objects applied in a namespace. *)
Definition keys_in (ns : string) (os : list (string * string * K8s.object))
    : list K8s.key :=
  List.map (fun o => (ns, (o.1.1, o.1.2))) os.

(** One command; [None] when the command exits with an error.  [kubectl
    apply] is simplified here: it succeeds for every expansion of one word,
    as if the cluster had each namespace asked for, and fails for every
    other expansion.  [Kubectl.exec_in] below drops both simplifications;
    the two agree for a tenant id that names a namespace of the cluster
    (lemma [tenant_deploy_in_agrees] of Part II). *)
Definition exec (a : assets) (c : command) (s : state) : option state :=
  match c with
  | ExportLower x text => Some (set_vars <[ x := tolower text ]> s)
  | EchoAppend w file =>
      Some (set_files
              <[ file := default [] (files s !! file) ++ [expand (vars s) w] ]> s)
  | Cp src dst =>
      ls ← files s !! src; Some (set_files <[ dst := ls ]> s)
  | KubectlApply dir ns =>
      let n := expand (vars s) ns in
      if single_field n && String.eqb dir "kubernetes/"
      then os ← kustomize a (files s);
           Some (set_cluster (apply_all n os (cluster s)) s)
      else None
  | StartBuild p x w => Some (add_started (p, (x, expand (vars s) w)) s)
  | CdkDeploy stack _ => Some (add_cdk (Deploy (expand (vars s) stack)) s)
  | CdkDestroy stack => Some (add_cdk (Destroy (expand (vars s) stack)) s)
  | Run _ => Some s
  end.

(** The commands of a phase run in order; the first failing command ends
    the phase.  The flag tells whether the phase succeeded. *)
Fixpoint run_phase (a : assets) (cs : list command) (s : state)
    : bool * state :=
  match cs with
  | [] => (true, s)
  | c :: cs' =>
      match exec a c s with
      | Some s' => run_phase a cs' s'
      | None => (false, s)
      end
  end.

(** A failed [install] or [pre_build] ends the build; [post_build] runs
    whether or not [build] succeeded. *)
Definition run_phases (a : assets) (p : project) (s : state) : bool * state :=
  let (ok1, s1) := run_phase a (install p) s in
  if negb ok1 then (false, s1) else
  let (ok2, s2) := run_phase a (pre_build p) s1 in
  if negb ok2 then (false, s2) else
  let (ok3, s3) := run_phase a (build p) s2 in
  let (ok4, s4) := run_phase a (post_build p) s3 in
  (ok3 && ok4, s4).

(** The working copy a build starts from. *)
Definition checkout (a : assets) : gmap string (list string) :=
  <[ "kubernetes/kustomization.yaml" := kustomization a ]>
  (<[ "kubernetes/host-patch.yaml" := host_patch a ]>
  (<[ "kubernetes/path-patch-template.yaml" := path_patch_template a ]>
  (<[ "kubernetes/svc-acc-patch-template.yaml" := svc_acc_patch_template a ]>
   ∅))).

Definition override (ov : list (string * string)) (e : env) : env :=
  List.fold_left (fun e kv => <[ kv.1 := kv.2 ]> e) ov e.

(** [start-build] of a project with variable overrides, on a fresh working
    copy, against the cluster [c]. *)
Definition start_build (a : assets) (p : project)
    (ov : list (string * string)) (c : K8s.cluster) : bool * state :=
  run_phases a p
    {| vars := override ov (override (environmentVariables p) ∅);
       files := checkout a;
       cluster := c;
       started := [];
       cdk := [] |}.

End CodeBuild.

(** ** The CDK constructs *)

Module Cdk.
Import Shell CodeBuild.

(** Values the CDK resolves at deployment: the stack's region and account
    and the URI of a container repository. *)
Record tokens := {
  region : string;
  account : string;
  repositoryUri : string -> string
}.

(** *** [ApplicationService] *)

(** [assetDirectory] stands for the content of the directory of that name;
    [codebuildKubectlRole] grants permissions only and is left out. *)
Record ApplicationServiceProps := {
  name : string;
  assetDirectory : assets;
  ecrImageName : string;
  eksClusterName : string;
  internalApiDomain : string;
  serviceUrlPrefix : string
}.

Definition install_kubectl : list command :=
  [ Run ("curl -LO " +:+ dquote
         +:+ "https://dl.k8s.io/release/$(curl -L -s https://dl.k8s.io/release/stable.txt)/bin/linux/amd64/kubectl"
         +:+ dquote);
    Run "chmod +x ./kubectl" ].

(** [tenantDeployProject]: the project that deploys the service into one
    tenant namespace. *)
Definition tenantDeployProject (tk : tokens) (props : ApplicationServiceProps)
    : project :=
  {| projectName := name props +:+ "TenantDeploy";
     environmentVariables :=
       [ ("CLUSTER_NAME", eksClusterName props);
         ("ECR_REPO_URI", repositoryUri tk (ecrImageName props));
         ("AWS_REGION", region tk);
         ("AWS_ACCOUNT", account tk);
         ("SEVICE_IMAGE_NAME", ecrImageName props);
         ("SERVICE_URL_PREFIX", serviceUrlPrefix props);
         ("TENANT_ID", "") ];
     install :=
       ExportLower "API_HOST" (internalApiDomain props) :: install_kubectl;
     pre_build := [];
     build :=
       [ Run "aws eks --region $AWS_REGION update-kubeconfig --name $CLUSTER_NAME";
         EchoAppend [Lit "  newName: "; Var "ECR_REPO_URI"]
           "kubernetes/kustomization.yaml";
         EchoAppend [Lit "  newTag: latest"] "kubernetes/kustomization.yaml";
         EchoAppend [Lit "  value: "; Var "API_HOST"]
           "kubernetes/host-patch.yaml";
         Cp "kubernetes/path-patch-template.yaml" "kubernetes/path-patch.yaml";
         EchoAppend
           [Lit "  value: /"; Var "TENANT_ID"; Lit "/"; Var "SERVICE_URL_PREFIX"]
           "kubernetes/path-patch.yaml";
         Cp "kubernetes/svc-acc-patch-template.yaml"
           "kubernetes/svc-acc-patch.yaml";
         EchoAppend [Lit "  value: "; Var "TENANT_ID"; Lit "-service-account"]
           "kubernetes/svc-acc-patch.yaml";
         KubectlApply "kubernetes/" [Var "TENANT_ID"] ];
     post_build := [] |}.

(** *** [TenantOnboarding] *)

(** [onboarding_eksClusterName] is the property [eksClusterName] and
    [kubectlRoleArn] is [codebuildKubectlRole.roleArn]; [assetDirectory] and
    [defaultBranchName] only name the repository and are left out. *)
Record TenantOnboardingProps := {
  onboardingProjectName : string;
  deletionProjectName : string;
  onboarding_eksClusterName : string;
  kubectlRoleArn : string;
  eksClusterOIDCProviderArn : string;
  applicationServiceBuildProjectNames : list string;
  appSiteDistributionId : string;
  appSiteCloudFrontDomain : string;
  appSiteCustomDomain : option string;
  appSiteHostedZoneId : option string
}.

Definition quoted (s : string) : string := dquote +:+ s +:+ dquote.

Definition onboardingCfnParams (props : TenantOnboardingProps)
    : list (string * string) :=
  [ ("TenantId", "$TENANT_ID");
    ("CompanyName", quoted "$COMPANY_NAME");
    ("TenantAdminEmail", quoted "$ADMIN_EMAIL");
    ("AppDistributionId", quoted (appSiteDistributionId props));
    ("DistributionDomain", quoted (appSiteCloudFrontDomain props));
    ("EKSClusterName", quoted (onboarding_eksClusterName props));
    ("KubectlRoleArn", quoted (kubectlRoleArn props));
    ("OIDCProviderArn", quoted (eksClusterOIDCProviderArn props)) ].

Fixpoint join (sep : string) (l : list string) : string :=
  match l with
  | [] => ""
  | [x] => x
  | x :: l' => x +:+ sep +:+ join sep l'
  end.

Definition cfnParamString (props : TenantOnboardingProps) : string :=
  join " "
    (List.map (fun x => "--parameters " +:+ x.1 +:+ "=" +:+ x.2)
       (onboardingCfnParams props)).

Definition onboardingProject (tk : tokens) (props : TenantOnboardingProps)
    : project :=
  {| projectName := onboardingProjectName props;
     environmentVariables :=
       [ ("TENANT_ID", ""); ("COMPANY_NAME", ""); ("ADMIN_EMAIL", "");
         ("PLAN", ""); ("AWS_ACCOUNT", account tk);
         ("AWS_REGION", region tk);
         ("APP_SITE_CUSTOM_DOMAIN", default "" (appSiteCustomDomain props));
         ("APP_SITE_HOSTED_ZONE", default "" (appSiteHostedZoneId props)) ];
     install := [ Run "npm i" ];
     pre_build := [];
     build :=
       [ Run "npm run cdk bootstrap";
         CdkDeploy [Lit "TenantStack-"; Var "TENANT_ID"] (cfnParamString props) ];
     post_build :=
       List.map (fun x => StartBuild (x +:+ "TenantDeploy") "TENANT_ID"
                            [Var "TENANT_ID"])
         (applicationServiceBuildProjectNames props) |}.

Definition tenantDeletionProject (tk : tokens) (props : TenantOnboardingProps)
    : project :=
  {| projectName := deletionProjectName props;
     environmentVariables :=
       [ ("TENANT_ID", ""); ("AWS_ACCOUNT", account tk);
         ("AWS_REGION", region tk) ];
     install := [ Run "npm i" ];
     pre_build := [];
     build :=
       [ Run "npm run cdk bootstrap";
         CdkDestroy [Lit "TenantStack-"; Var "TENANT_ID"] ];
     post_build := [] |}.

(** The onboarding repository holds no service manifest. *)
Definition no_assets : assets :=
  {| kustomization := []; host_patch := []; path_patch_template := [];
     svc_acc_patch_template := []; app := ""; containerPort := 0;
     service_name := ""; service_port := 0; ingress_name := "" |}.

(** *** [ServicesStack] *)

(** The fields [stack_...] are the properties of the same name without the
    prefix. *)
Record ServicesStackProps := {
  internalNLBApiDomain : string;
  stack_eksClusterName : string;
  stack_eksClusterOIDCProviderArn : string;
  codebuildKubectlRoleArn : string;
  stack_appSiteDistributionId : string;
  stack_appSiteCloudFrontDomain : string;
  sharedServiceAccountName : string;
  appHostedZoneId : option string;
  customDomain : option string
}.

(** The four files of a service's [kubernetes/] directory that are not
    among the sources. *)
Record overlay_files := {
  ov_kustomization : list string;
  ov_host_patch : list string;
  ov_path_patch_template : list string;
  ov_svc_acc_patch_template : list string
}.

(** [services/application-services/product-service]: Deployment
    [product] on port 5000, Service [product-service] on port 80, Ingress
    [product-service-ingress]. *)
Definition product_assets (o : overlay_files) : assets :=
  {| kustomization := ov_kustomization o;
     host_patch := ov_host_patch o;
     path_patch_template := ov_path_patch_template o;
     svc_acc_patch_template := ov_svc_acc_patch_template o;
     app := "product"; containerPort := 5000;
     service_name := "product-service"; service_port := 80;
     ingress_name := "product-service-ingress" |}.

(** [services/application-services/order-service]: Deployment [order] on
    port 5001, Service [order-service] on port 80, Ingress
    [order-service-ingress]. *)
Definition order_assets (o : overlay_files) : assets :=
  {| kustomization := ov_kustomization o;
     host_patch := ov_host_patch o;
     path_patch_template := ov_path_patch_template o;
     svc_acc_patch_template := ov_svc_acc_patch_template o;
     app := "order"; containerPort := 5001;
     service_name := "order-service"; service_port := 80;
     ingress_name := "order-service-ingress" |}.

Definition productSvc (po : overlay_files) (props : ServicesStackProps)
    : ApplicationServiceProps :=
  {| name := "ProductService";
     assetDirectory := product_assets po;
     ecrImageName := "product-svc";
     eksClusterName := stack_eksClusterName props;
     internalApiDomain := internalNLBApiDomain props;
     serviceUrlPrefix := "products" |}.

Definition orderSvc (oo : overlay_files) (props : ServicesStackProps)
    : ApplicationServiceProps :=
  {| name := "OrderService";
     assetDirectory := order_assets oo;
     ecrImageName := "order-svc";
     eksClusterName := stack_eksClusterName props;
     internalApiDomain := internalNLBApiDomain props;
     serviceUrlPrefix := "orders" |}.

Definition applicationServices (po oo : overlay_files)
    (props : ServicesStackProps) : list ApplicationServiceProps :=
  [ productSvc po props; orderSvc oo props ].

Definition onboardingSvc (props : ServicesStackProps) : TenantOnboardingProps :=
  {| onboardingProjectName := "TenantOnboardingProject";
     deletionProjectName := "TenantDeletionProject";
     onboarding_eksClusterName := stack_eksClusterName props;
     kubectlRoleArn := codebuildKubectlRoleArn props;
     eksClusterOIDCProviderArn := stack_eksClusterOIDCProviderArn props;
     applicationServiceBuildProjectNames := ["ProductService"; "OrderService"];
     appSiteDistributionId := stack_appSiteDistributionId props;
     appSiteCloudFrontDomain := stack_appSiteCloudFrontDomain props;
     appSiteCustomDomain :=
       match customDomain props with
       | Some d => if String.eqb d "" then None else Some ("app." +:+ d)
       | None => None
       end;
     appSiteHostedZoneId := appHostedZoneId props |}.

(** The tenant-deploy project CodeBuild finds under a project name. *)
Definition find_tenant_deploy (tk : tokens)
    (svcs : list ApplicationServiceProps) (pname : string)
    : option ApplicationServiceProps :=
  List.find
    (fun s => String.eqb (projectName (tenantDeployProject tk s)) pname) svcs.

(** One tenant-deploy build of a service for [TENANT_ID = tenantId]. *)
Definition tenant_deploy (tk : tokens) (svc : ApplicationServiceProps)
    (tenantId : string) (c : K8s.cluster) : bool * state :=
  start_build (assetDirectory svc) (tenantDeployProject tk svc)
    [("TENANT_ID", tenantId)] c.

(** The builds a finished onboarding build has requested, run one after
    the other against the cluster; a request for an unknown project or a
    failed build leaves the cluster as the build left it.  CodeBuild runs
    the builds side by side; those of [ServicesStack] write different
    objects, so their order does not matter (lemma [stack_deploys_commute]
    of Part II). *)
Fixpoint run_started (tk : tokens) (svcs : list ApplicationServiceProps)
    (reqs : list (string * (string * string))) (c : K8s.cluster)
    : K8s.cluster :=
  match reqs with
  | [] => c
  | (p, ov) :: reqs' =>
      match find_tenant_deploy tk svcs p with
      | Some svc =>
          run_started tk svcs reqs'
            (cluster (start_build (assetDirectory svc)
                        (tenantDeployProject tk svc) [ov] c).2)
      | None => run_started tk svcs reqs' c
      end
  end.

(** The onboarding build [TenantOnboarding] defines, started with the four
    variables the registration service overrides. *)
Definition onboarding_build (tk : tokens) (props : TenantOnboardingProps)
    (tenantId companyName adminEmail plan : string) (c : K8s.cluster)
    : bool * state :=
  start_build no_assets (onboardingProject tk props)
    [ ("TENANT_ID", tenantId); ("COMPANY_NAME", companyName);
      ("ADMIN_EMAIL", adminEmail); ("PLAN", plan) ] c.

(** The tenant-deploy builds an onboarding build requests in its
    [post_build] phase, run against the cluster. *)
Definition fan_out (tk : tokens) (props : TenantOnboardingProps)
    (svcs : list ApplicationServiceProps)
    (tenantId companyName adminEmail plan : string) (c : K8s.cluster)
    : K8s.cluster :=
  let b := (onboarding_build tk props tenantId companyName adminEmail plan c).2 in
  run_started tk svcs (started b) (cluster b).


(** The objects of a service in a tenant namespace, as the overlay of its
    tenant-deploy build describes them. *)
Definition tenant_objects (tk : tokens) (svc : ApplicationServiceProps)
    (tenantId : string) : list (string * string * K8s.object) :=
  let a := assetDirectory svc in
  [ ("Deployment", app a,
      K8s.Deployment (tenantId +:+ "-service-account")
        (repositoryUri tk (ecrImageName svc) +:+ ":latest") (containerPort a));
    ("Service", service_name a,
      K8s.Service (app a) (service_port a) (containerPort a));
    ("Ingress", ingress_name a,
      K8s.Ingress
        {| K8s.mergeable_ingress_type := K8s.minion;
           K8s.host := tolower (internalApiDomain svc);
           K8s.paths :=
             [ {| K8s.path := "/" +:+ tenantId +:+ "/" +:+ serviceUrlPrefix svc;
                  K8s.backend_service := service_name a;
                  K8s.backend_port := service_port a |} ] |}) ].

(** What a tenant-deploy build writes, whatever the cluster: the objects
    above under their keys, or nothing when the build fails. *)
Definition writes (tk : tokens) (svc : ApplicationServiceProps)
    (tenantId : string) : list (K8s.key * K8s.object) :=
  if single_field tenantId
  then List.map (fun o => ((tenantId, (o.1.1, o.1.2)), o.2))
         (tenant_objects tk svc tenantId)
  else [].

(** *** [EKSClusterStack]: the primary mergeable ingress *)

Definition master_key : K8s.key :=
  ("default", ("Ingress", "default-primary-mergable-ingress")).

Definition PrimarySameHostMergableIngress (nlbDomain : string) : K8s.object :=
  K8s.Ingress
    {| K8s.mergeable_ingress_type := K8s.master;
       K8s.host := nlbDomain;
       K8s.paths := [] |}.

(** *** [CommonResourcesStack]: the tenant table *)

Record Table := {
  tableName : string;
  partitionKey : string;
  sortKey : option string
}.

Definition tenantTable : Table :=
  {| tableName := "Tenant"; partitionKey := "TENANT_ID"; sortKey := None |}.

End Cdk.

(** ** The on-commit build of [ApplicationService]

    Besides the tenant-deploy project an [ApplicationService] has the
    project that CodeBuild runs on every commit to the service's
    repository: it builds the image and rolls it out to every tenant
    namespace with a shell loop.  The commands that [Shell.command] lacks
    are added here. *)

Module OnCommit.
Import Shell CodeBuild Cdk.

Inductive step :=
| Cmd (c : command)
(** [export X=w] *)
| Export (x : string) (w : word)
(** [rm file] *)
| Rm (file : string).

Inductive line :=
| Step (c : step)
(** [for x in `query`; do c1 && ... && cn; done] *)
| ForIn (x : string) (query : string) (body : list step).

Definition render_step (c : step) : string :=
  match c with
  | Cmd c => render c
  | Export x w => "export " +:+ x +:+ "=" +:+ render_word w
  | Rm file => "rm " +:+ file
  end.

(** The source breaks the line after [do] and after each [&&] but the
    last; the blanks that start its continuation lines are rendered as one
    blank. *)
Definition render_line (l : line) : string :=
  match l with
  | Step c => render_step c
  | ForIn x query body =>
      "for " +:+ x +:+ " in `" +:+ query +:+ "`; do "
      +:+ join " && " (List.map render_step body) +:+ "; done"
  end.

(** Field splitting of the output of a command substitution: the maximal
    runs of characters that are not blanks, in order. *)
Fixpoint fields (s : string) : list string :=
  match s with
  | EmptyString => []
  | String c s' =>
      if is_ifs c then fields s'
      else match s' with
           | EmptyString => [String c EmptyString]
           | String c' _ =>
               if is_ifs c' then String c EmptyString :: fields s'
               else match fields s' with
                    | w :: ws => String c w :: ws
                    | [] => [String c EmptyString]
                    end
           end
  end.

(** [rm] of a file that does not exist is an error. *)
Definition exec_step (a : assets) (c : step) (s : state) : option state :=
  match c with
  | Cmd c => exec a c s
  | Export x w => Some (set_vars <[ x := expand (vars s) w ]> s)
  | Rm file => _ ← files s !! file; Some (set_files (delete file) s)
  end.

(** [c1 && ... && cn]: the first failing command ends the list. *)
Fixpoint and_list (a : assets) (cs : list step) (s : state) : bool * state :=
  match cs with
  | [] => (true, s)
  | c :: cs' =>
      match exec_step a c s with
      | Some s' => and_list a cs' s'
      | None => (false, s)
      end
  end.

(** [for x in vals; do body; done]: the body runs once for every value,
    whether or not the round before succeeded; the loop's status is that of
    its last round, and success when there is none. *)
Fixpoint for_in (a : assets) (x : string) (body : list step)
    (vals : list string) (ok : bool) (s : state) : bool * state :=
  match vals with
  | [] => (ok, s)
  | v :: vals' =>
      let r := and_list a body (set_vars <[ x := v ]> s) in
      for_in a x body vals' r.1 r.2
  end.

(** One line of a phase.  [answer] gives what a command in back quotes
    prints. *)
Definition exec_line (a : assets) (answer : string -> string) (l : line)
    (s : state) : bool * state :=
  match l with
  | Step c =>
      match exec_step a c s with
      | Some s' => (true, s')
      | None => (false, s)
      end
  | ForIn x query body => for_in a x body (fields (answer query)) true s
  end.

Fixpoint run_lines (a : assets) (answer : string -> string) (ls : list line)
    (s : state) : bool * state :=
  match ls with
  | [] => (true, s)
  | l :: ls' =>
      let r := exec_line a answer l s in
      if r.1 then run_lines a answer ls' r.2 else (false, r.2)
  end.

Record project' := {
  projectName' : string;
  environmentVariables' : list (string * string);
  install' : list line;
  pre_build' : list line;
  build' : list line;
  post_build' : list line
}.

(** As [CodeBuild.run_phases]. *)
Definition run_phases' (a : assets) (answer : string -> string) (p : project')
    (s : state) : bool * state :=
  let (ok1, s1) := run_lines a answer (install' p) s in
  if negb ok1 then (false, s1) else
  let (ok2, s2) := run_lines a answer (pre_build' p) s1 in
  if negb ok2 then (false, s2) else
  let (ok3, s3) := run_lines a answer (build' p) s2 in
  let (ok4, s4) := run_lines a answer (post_build' p) s3 in
  (ok3 && ok4, s4).

Definition start_build' (a : assets) (answer : string -> string)
    (p : project') (ov : list (string * string)) (c : K8s.cluster)
    : bool * state :=
  run_phases' a answer p
    {| vars := override ov (override (environmentVariables' p) ∅);
       files := checkout a;
       cluster := c;
       started := [];
       cdk := [] |}.

(** The query of the loop: the names of the namespaces labelled
    [saas/tenant=true], separated by blanks. *)
Definition tenant_namespaces : string :=
  "kubectl get ns -l saas/tenant=true -o jsonpath=" +:+ squote
  +:+ "{.items[*].metadata.name}" +:+ squote.

Definition rollout_body : list step :=
  [ Cmd (Cp "kubernetes/svc-acc-patch-template.yaml"
           "kubernetes/svc-acc-patch.yaml");
    Cmd (Cp "kubernetes/path-patch-template.yaml" "kubernetes/path-patch.yaml");
    Cmd (EchoAppend [Lit "  value: "; Var "res"; Lit "-service-account"]
           "kubernetes/svc-acc-patch.yaml");
    Cmd (EchoAppend
           [Lit "  value: /"; Var "res"; Lit "/"; Var "SERVICE_URL_PREFIX"]
           "kubernetes/path-patch.yaml");
    Cmd (KubectlApply "kubernetes/" [Var "res"]);
    Rm "kubernetes/path-patch.yaml";
    Rm "kubernetes/svc-acc-patch.yaml" ].

(** [project], the construct [${id}EKSDeployProject]: the image is built,
    tagged with the commit and pushed (the [docker] commands are taken to
    succeed), then applied in every tenant namespace. *)
Definition eksDeployProject (tk : tokens) (props : ApplicationServiceProps)
    : project' :=
  {| projectName' := name props;
     environmentVariables' :=
       [ ("CLUSTER_NAME", eksClusterName props);
         ("ECR_REPO_URI", repositoryUri tk (ecrImageName props));
         ("AWS_REGION", region tk);
         ("AWS_ACCOUNT", account tk);
         ("SEVICE_IMAGE_NAME", ecrImageName props);
         ("SERVICE_URL_PREFIX", serviceUrlPrefix props) ];
     install' :=
       Step (Cmd (ExportLower "API_HOST" (internalApiDomain props)))
       :: Step (Export "IMAGE_TAG" [Var "CODEBUILD_RESOLVED_SOURCE_VERSION"])
       :: List.map (fun c => Step (Cmd c)) install_kubectl;
     pre_build' :=
       [ Step (Cmd (Run "aws ecr get-login-password --region $AWS_REGION | docker login --username AWS --password-stdin $ECR_REPO_URI"));
         Step (Cmd (Run "aws ecr-public get-login-password --region us-east-1 | docker login --username AWS --password-stdin public.ecr.aws")) ];
     build' :=
       [ Step (Cmd (Run "docker build -t $SEVICE_IMAGE_NAME:$IMAGE_TAG ."));
         Step (Cmd (Run "docker tag $SEVICE_IMAGE_NAME:$IMAGE_TAG $ECR_REPO_URI:latest"));
         Step (Cmd (Run "docker tag $SEVICE_IMAGE_NAME:$IMAGE_TAG $ECR_REPO_URI:$IMAGE_TAG"));
         Step (Cmd (Run "docker push $ECR_REPO_URI:latest"));
         Step (Cmd (Run "docker push $ECR_REPO_URI:$IMAGE_TAG")) ];
     post_build' :=
       [ Step (Cmd (Run "aws eks --region $AWS_REGION update-kubeconfig --name $CLUSTER_NAME"));
         Step (Cmd (EchoAppend [Lit "  newName: "; Var "ECR_REPO_URI"]
                      "kubernetes/kustomization.yaml"));
         Step (Cmd (EchoAppend [Lit "  newTag: "; Var "IMAGE_TAG"]
                      "kubernetes/kustomization.yaml"));
         Step (Cmd (EchoAppend [Lit "  value: "; Var "API_HOST"]
                      "kubernetes/host-patch.yaml"));
         ForIn "res" tenant_namespaces rollout_body ] |}.

(** The build CodeBuild starts for the commit [commit] of the service's
    repository; CodeBuild sets [CODEBUILD_RESOLVED_SOURCE_VERSION]. *)
Definition on_commit (tk : tokens) (answer : string -> string)
    (svc : ApplicationServiceProps) (commit : string) (c : K8s.cluster)
    : bool * state :=
  start_build' (assetDirectory svc) answer (eksDeployProject tk svc)
    [("CODEBUILD_RESOLVED_SOURCE_VERSION", commit)] c.

(** The objects of a service in the namespace [res] with the image tagged
    [tag]. *)
Definition rollout_objects (tk : tokens) (svc : ApplicationServiceProps)
    (tag res : string) : list (string * string * K8s.object) :=
  let a := assetDirectory svc in
  [ ("Deployment", app a,
      K8s.Deployment (res +:+ "-service-account")
        (repositoryUri tk (ecrImageName svc) +:+ ":" +:+ tag) (containerPort a));
    ("Service", service_name a,
      K8s.Service (app a) (service_port a) (containerPort a));
    ("Ingress", ingress_name a,
      K8s.Ingress
        {| K8s.mergeable_ingress_type := K8s.minion;
           K8s.host := tolower (internalApiDomain svc);
           K8s.paths :=
             [ {| K8s.path := "/" +:+ res +:+ "/" +:+ serviceUrlPrefix svc;
                  K8s.backend_service := service_name a;
                  K8s.backend_port := service_port a |} ] |}) ].

(** The objects applied in the namespaces [nss], one namespace after the
    other. *)
Definition rollout (tk : tokens) (svc : ApplicationServiceProps)
    (tag : string) (nss : list string) (c : K8s.cluster) : K8s.cluster :=
  List.fold_left
    (fun c res => apply_all res (rollout_objects tk svc tag res) c) nss c.

End OnCommit.

(** ** [kubectl apply] and the namespaces of the cluster

    [CodeBuild.exec] takes [kubectl apply -k dir -n $X] to succeed
    whenever [$X] expands to one word, as if every namespace asked for were
    there.  The execution below is closer to the tool.  The unquoted
    expansion is split into words.  Without a word, [-n] lacks its argument
    and the command fails.  One word that is an RFC 1123 label names a
    namespace: the objects are applied when the cluster has that namespace,
    and the command fails when it has not; no build of the sources creates
    or deletes a namespace.  One other word without pattern characters can
    name no namespace, and the command fails.  What is left -- a word with
    pattern characters, which pathname expansion may replace by file names,
    or further words, which [kubectl] reads as flags, operands or a
    subcommand -- depends on parts that are not among the sources and is
    left to [otherwise]. *)

Module Kubectl.
Import Shell CodeBuild Cdk OnCommit.

Definition label_alnum (c : ascii) : bool :=
  let n := nat_of_ascii c in
  ((97 <=? n) && (n <=? 122) || (48 <=? n) && (n <=? 57))%nat.

(** The characters after the first: letters, digits and [-], the last one
    no [-]. *)
Fixpoint label_rest (s : string) : bool :=
  match s with
  | EmptyString => true
  | String c s' =>
      match s' with
      | EmptyString => label_alnum c
      | String _ _ => (label_alnum c || (c =? "-")%char) && label_rest s'
      end
  end.

(** An RFC 1123 label, the form of a namespace name: at most 63 lower-case
    letters, digits and [-], the first and the last a letter or a digit. *)
Definition dns_label (s : string) : bool :=
  match s with
  | EmptyString => false
  | String c s' =>
      label_alnum c && label_rest s' && (String.length s <=? 63)%nat
  end.

(** The pattern characters of pathname expansion. *)
Definition is_pattern (c : ascii) : bool :=
  (c =? "*")%char || (c =? "?")%char || (c =? "[")%char.

Fixpoint ordinary (s : string) : bool :=
  match s with
  | EmptyString => true
  | String c s' => negb (is_pattern c) && ordinary s'
  end.

(** The cluster as [kubectl] meets it: the namespaces it has, and the
    outcome of the invocations described above as left open ([None] for an
    error). *)
Record kubectl := {
  namespaces : string -> bool;
  otherwise :
    list string -> list (string * string * K8s.object) -> K8s.cluster ->
    option K8s.cluster
}.

(** [kubectl apply -k dir -n words], with [os] the objects of the overlay. *)
Definition apply_k (k : kubectl) (words : list string)
    (os : list (string * string * K8s.object)) (c : K8s.cluster)
    : option K8s.cluster :=
  match words with
  | [] => None
  | [n] =>
      if dns_label n
      then if namespaces k n then Some (apply_all n os c) else None
      else if ordinary n then None else otherwise k words os c
  | _ :: _ :: _ => otherwise k words os c
  end.

(** One command; the commands other than [kubectl apply] are those of
    [CodeBuild.exec]. *)
Definition exec_in (k : kubectl) (a : assets) (c : command) (s : state)
    : option state :=
  match c with
  | KubectlApply dir ns =>
      if String.eqb dir "kubernetes/"
      then os ← kustomize a (files s);
           c' ← apply_k k (fields (expand (vars s) ns)) os (cluster s);
           Some (set_cluster c' s)
      else None
  | _ => exec a c s
  end.

(** As [CodeBuild.run_phase], [run_phases] and [start_build]. *)
Fixpoint run_phase_in (k : kubectl) (a : assets) (cs : list command)
    (s : state) : bool * state :=
  match cs with
  | [] => (true, s)
  | c :: cs' =>
      match exec_in k a c s with
      | Some s' => run_phase_in k a cs' s'
      | None => (false, s)
      end
  end.

Definition run_phases_in (k : kubectl) (a : assets) (p : project) (s : state)
    : bool * state :=
  let (ok1, s1) := run_phase_in k a (install p) s in
  if negb ok1 then (false, s1) else
  let (ok2, s2) := run_phase_in k a (pre_build p) s1 in
  if negb ok2 then (false, s2) else
  let (ok3, s3) := run_phase_in k a (build p) s2 in
  let (ok4, s4) := run_phase_in k a (post_build p) s3 in
  (ok3 && ok4, s4).

Definition start_build_in (k : kubectl) (a : assets) (p : project)
    (ov : list (string * string)) (c : K8s.cluster) : bool * state :=
  run_phases_in k a p
    {| vars := override ov (override (environmentVariables p) ∅);
       files := checkout a;
       cluster := c;
       started := [];
       cdk := [] |}.

(** One tenant-deploy build of a service for [TENANT_ID = tenantId]. *)
Definition tenant_deploy_in (k : kubectl) (tk : tokens)
    (svc : ApplicationServiceProps) (tenantId : string) (c : K8s.cluster)
    : bool * state :=
  start_build_in k (assetDirectory svc) (tenantDeployProject tk svc)
    [("TENANT_ID", tenantId)] c.

(** As [Cdk.run_started]. *)
Fixpoint run_started_in (k : kubectl) (tk : tokens)
    (svcs : list ApplicationServiceProps)
    (reqs : list (string * (string * string))) (c : K8s.cluster)
    : K8s.cluster :=
  match reqs with
  | [] => c
  | (p, ov) :: reqs' =>
      match find_tenant_deploy tk svcs p with
      | Some svc =>
          run_started_in k tk svcs reqs'
            (cluster (start_build_in k (assetDirectory svc)
                        (tenantDeployProject tk svc) [ov] c).2)
      | None => run_started_in k tk svcs reqs' c
      end
  end.

(** The tenant-deploy builds an onboarding build requests, run against the
    cluster.  The onboarding build itself runs no [kubectl]. *)
Definition fan_out_in (k : kubectl) (tk : tokens)
    (props : TenantOnboardingProps) (svcs : list ApplicationServiceProps)
    (tenantId companyName adminEmail plan : string) (c : K8s.cluster)
    : K8s.cluster :=
  let b := (onboarding_build tk props tenantId companyName adminEmail plan c).2 in
  run_started_in k tk svcs (started b) (cluster b).

End Kubectl.

(** ** [StaticSite] and [StaticSitesStack]

    The three client sites.  Of a site the model keeps its domain, the
    domain of its certificate, distribution alias and DNS record, the
    properties handed to its [Cognito] construct and the configuration its
    pipeline writes to the client's [environment]; the repository, the
    bucket and the pipeline itself are left out. *)

Module StaticSites.

Inductive exception :=
| Error (message : string)
| TypeError.

(** What a constructor gives: the construct, or what it throws. *)
Inductive construction (A : Type) :=
| Built (v : A)
| Thrown (e : exception).
Arguments Built {A} v.
Arguments Thrown {A} e.

Definition bind {A B} (c : construction A) (k : A -> construction B)
    : construction B :=
  match c with
  | Built v => k v
  | Thrown e => Thrown e
  end.

(** Truthiness of an optional string: [undefined] and the empty string
    are falsy. *)
Definition truthy (s : option string) : bool :=
  match s with
  | Some t => negb (String.eqb t "")
  | None => false
  end.

(** The values of a site configuration that occur. *)
Inductive json :=
| JString (s : string)
| JBool (b : bool).

Abbreviation site_config := (list (string * json)).

(** The two attributes of a [Cognito] construct that the sites read;
    the CDK resolves them at deployment. *)
Record Cognito := {
  appClientId : string;
  authServerUrl : string
}.

(** The properties [StaticSite] hands to [Cognito]. *)
Record CognitoProps := {
  adminUserEmailAddress : string;
  userPoolName : string;
  callbackUrl : string;
  signoutUrl : string;
  inviteEmailSubject : string;
  inviteEmailBody : string
}.

Record HostedZone := {
  zone_hostedZoneId : string;
  zoneName : string
}.

Record SiteCognitoProps := {
  adminUserEmail : string;
  emailSubjectGenerator : option (string -> string);
  emailBodyGenerator : option (string -> string)
}.

Record StaticSiteProps := {
  name : string;
  allowedMethods : list string;
  createCognitoUserPool : bool;
  siteConfigurationGenerator :
    string -> option Cognito -> construction site_config;
  customDomain : option string;
  certDomain : option string;
  hostedZone : option HostedZone;
  cognitoProps : option SiteCognitoProps
}.

Definition defaultEmailSubjectGenerator (siteName : string) : string :=
  siteName +:+ " User Created".

Definition defaultEmailBodyGenerator (siteDomain : string) : string :=
  "Your username is {username} and temporary password is {####}. Please login here: https://"
  +:+ siteDomain.

(** [aliasDomain] is the name [createStaticSite] gives the certificate, the
    distribution and the DNS record: [certDomain ?? customDomain] under a
    custom domain, nothing otherwise. *)
Record StaticSite := {
  siteDomain : string;
  aliasDomain : option string;
  methods : list string;
  cognito : option CognitoProps;
  siteConfig : site_config
}.

(** [new StaticSite(scope, id, props)]; [distributionDomainName] and
    [resources] stand for the domain name of the new distribution and the
    attributes of the new [Cognito] construct. *)
Definition new_StaticSite (distributionDomainName : string)
    (resources : Cognito) (props : StaticSiteProps)
    : construction StaticSite :=
  let useCustomDomain := truthy (customDomain props) in
  if useCustomDomain && negb (bool_decide (is_Some (hostedZone props)))
  then Thrown (Error ("HostedZone cannot be empty for the custom domain '"
                      +:+ default "undefined" (customDomain props) +:+ "'"))
  else
  if createCognitoUserPool props
     && negb (bool_decide (is_Some (cognitoProps props)))
  then Thrown (Error ("Cognito configuration is required when creating Cognito UserPool for the site '"
                      +:+ name props +:+ "'"))
  else
  let siteDomain :=
    if useCustomDomain then default "" (customDomain props)
    else distributionDomainName in
  let cognitoResources :=
    if createCognitoUserPool props then Some resources else None in
  bind (siteConfigurationGenerator props siteDomain cognitoResources)
    (fun siteConfig =>
       Built
         {| siteDomain := siteDomain;
            aliasDomain :=
              if useCustomDomain
              then match certDomain props with
                   | Some d => Some d
                   | None => customDomain props
                   end
              else None;
            methods := allowedMethods props;
            cognito :=
              if createCognitoUserPool props
              then cp ← cognitoProps props;
                   Some
                     {| adminUserEmailAddress := adminUserEmail cp;
                        userPoolName := name props +:+ "UserPool";
                        callbackUrl := "https://" +:+ siteDomain;
                        signoutUrl := "https://" +:+ siteDomain +:+ "/signout";
                        inviteEmailSubject :=
                          default defaultEmailSubjectGenerator
                            (emailSubjectGenerator cp) (name props);
                        inviteEmailBody :=
                          default defaultEmailBodyGenerator
                            (emailBodyGenerator cp) siteDomain |}
              else None;
            siteConfig := siteConfig |}).

Record StaticSitesStackProps := {
  apiUrl : string;
  saasAdminEmail : string;
  usingKubeCost : bool;
  customBaseDomain : option string;
  hostedZoneId : option string
}.

Record StaticSitesStack := {
  landingSite : StaticSite;
  adminSite : StaticSite;
  applicationSite : StaticSite
}.

(** The generator of the landing and of the application site. *)
Definition plain_config (props : StaticSitesStackProps)
    (useCustomDomain : bool) (siteDomain : string) (_ : option Cognito)
    : construction site_config :=
  Built [ ("production", JBool true);
          ("apiUrl", JString (apiUrl props));
          ("domain", JString siteDomain);
          ("usingCustomDomain", JBool useCustomDomain) ].

(** The generator of the admin site; [cognito!.appClientId] on a missing
    [cognito] is a [TypeError]. *)
Definition admin_config (props : StaticSitesStackProps)
    (useCustomDomain : bool) (siteDomain : string) (cognito : option Cognito)
    : construction site_config :=
  match cognito with
  | None => Thrown TypeError
  | Some cognito =>
      Built [ ("production", JBool true);
              ("clientId", JString (appClientId cognito));
              ("issuer", JString (authServerUrl cognito));
              ("customDomain", JString (appClientId cognito));
              ("apiUrl", JString (apiUrl props));
              ("domain", JString siteDomain);
              ("usingCustomDomain", JBool useCustomDomain);
              ("usingKubeCost", JBool (usingKubeCost props));
              ("kubecostUI",
                JString (if usingKubeCost props
                         then apiUrl props +:+ "/kubecost" else "")) ]
  end.

(** [new StaticSitesStack(scope, id, props)]; [distribution] gives the
    domain name of the distribution of the site of a given name. *)
Definition new_StaticSitesStack (distribution : string -> string)
    (resources : Cognito) (props : StaticSitesStackProps)
    : construction StaticSitesStack :=
  let useCustomDomain := truthy (customBaseDomain props) in
  if useCustomDomain && negb (truthy (hostedZoneId props))
  then Thrown (Error "HostedZoneId must be specified when using a custom domain for static sites.")
  else
  let base := default "" (customBaseDomain props) in
  let hostedZone :=
    if useCustomDomain
    then Some {| zone_hostedZoneId := default "" (hostedZoneId props);
                 zoneName := base |}
    else None in
  bind (new_StaticSite (distribution "LandingSite") resources
          {| name := "LandingSite";
             allowedMethods := ["GET"; "HEAD"; "OPTIONS"];
             createCognitoUserPool := false;
             siteConfigurationGenerator := plain_config props useCustomDomain;
             customDomain :=
               if useCustomDomain then Some ("landing." +:+ base) else None;
             certDomain := None;
             hostedZone := hostedZone;
             cognitoProps := None |})
    (fun landingSite =>
  bind (new_StaticSite (distribution "AdminSite") resources
          {| name := "AdminSite";
             allowedMethods := ["GET"; "HEAD"; "OPTIONS"];
             createCognitoUserPool := true;
             siteConfigurationGenerator := admin_config props useCustomDomain;
             customDomain :=
               if useCustomDomain then Some ("admin." +:+ base) else None;
             certDomain := None;
             hostedZone := hostedZone;
             cognitoProps :=
               Some {| adminUserEmail := saasAdminEmail props;
                       emailSubjectGenerator := None;
                       emailBodyGenerator := None |} |})
    (fun adminSite =>
  bind (new_StaticSite (distribution "ApplicationSite") resources
          {| name := "ApplicationSite";
             allowedMethods :=
               ["DELETE"; "GET"; "HEAD"; "OPTIONS"; "PATCH"; "POST"; "PUT"];
             createCognitoUserPool := false;
             siteConfigurationGenerator := plain_config props useCustomDomain;
             customDomain :=
               if useCustomDomain then Some ("app." +:+ base) else None;
             certDomain :=
               if useCustomDomain then Some ("*.app." +:+ base) else None;
             hostedZone := hostedZone;
             cognitoProps := None |})
    (fun applicationSite =>
  Built {| landingSite := landingSite;
           adminSite := adminSite;
           applicationSite := applicationSite |}))).

Fixpoint config_field (k : string) (cfg : site_config) : option json :=
  match cfg with
  | [] => None
  | (k', v) :: cfg' => if String.eqb k k' then Some v else config_field k cfg'
  end.

(** The [environment] of the landing client: the pipeline of a site writes
    the site's configuration to [src/environments/environment.ts]. *)
Definition environment_of (cfg : site_config)
    : option RegisterComponent.environment :=
  match config_field "domain" cfg, config_field "usingCustomDomain" cfg with
  | Some (JString d), Some (JBool b) =>
      Some {| RegisterComponent.domain := Js.of_string d;
              RegisterComponent.usingCustomDomain := b |}
  | _, _ => None
  end.

End StaticSites.

(** ** IAM policy statements

    The statements the constructs attach to the CodeBuild role and to the
    service account of the shared services.  All of them allow; a request
    is allowed by a list of statements when one of them names its action
    and its resource.  (Statements that grant methods of the CDK add, as
    [grantPull], are not among the sources and not listed.) *)

Module Iam.
Import Cdk.

(** Patterns of actions and resources: [*] stands for any text, [?] for
    any one character. *)
Fixpoint glob (p s : string) {struct p} : bool :=
  match p with
  | EmptyString =>
      match s with
      | EmptyString => true
      | String _ _ => false
      end
  | String c p' =>
      if (c =? "*")%char
      then (fix star (s : string) : bool :=
              glob p' s
              || match s with
                 | EmptyString => false
                 | String _ s' => star s'
                 end) s
      else match s with
           | EmptyString => false
           | String d s' => ((c =? "?")%char || (c =? d)%char) && glob p' s'
           end
  end.

(** Text without [*] and [?]. *)
Fixpoint literal (s : string) : bool :=
  match s with
  | EmptyString => true
  | String c s' => negb (c =? "*")%char && negb (c =? "?")%char && literal s'
  end.

Record PolicyStatement := {
  actions : list string;
  resources : list string
}.

(** Action names are compared without regard to case. *)
Definition action_ok (st : PolicyStatement) (action : string) : bool :=
  existsb (fun p => glob (Shell.tolower p) (Shell.tolower action)) (actions st).

Definition resource_ok (st : PolicyStatement) (resource : string) : bool :=
  existsb (fun p => glob p resource) (resources st).

Definition allows (policy : list PolicyStatement) (action resource : string)
    : bool :=
  existsb (fun st => action_ok st action && resource_ok st resource) policy.

(** [Arn.format({ service, resource, resourceName }, stack)] *)
Definition Arn_format (partition : string) (tk : tokens)
    (service resource resourceName : string) : string :=
  "arn:" +:+ partition +:+ ":" +:+ service +:+ ":" +:+ region tk +:+ ":"
  +:+ account tk +:+ ":" +:+ resource +:+ "/" +:+ resourceName.

(** [EKSClusterStack]: the statements of [codebuildKubectlRole]. *)
Definition codebuildKubectlRole (clusterArn : string) : list PolicyStatement :=
  [ {| actions := ["eks:DescribeCluster"]; resources := [clusterArn] |};
    {| actions := ["ecr-public:GetAuthorizationToken"]; resources := ["*"] |};
    {| actions := ["sts:GetServiceBearerToken"]; resources := ["*"] |} ].

(** [TenantOnboarding.addTenantOnboardingPermissions]; a missing hosted
    zone id is written into the text as [undefined]. *)
Definition addTenantOnboardingPermissions (partition : string) (tk : tokens)
    (props : TenantOnboardingProps) : list PolicyStatement :=
  [ {| actions := ["route53:*"];
       resources :=
         [ "arn:" +:+ partition +:+ ":route53:::hostedzone/"
           +:+ default "undefined" (appSiteHostedZoneId props) ] |};
    {| actions :=
         [ "route53domains:*"; "cognito-identity:*"; "cognito-idp:*";
           "cognito-sync:*"; "iam:*"; "s3:*"; "cloudformation:*";
           "codebuild:StartBuild" ];
       resources := ["*"] |};
    {| actions :=
         [ "cloudfront:AssociateAlias"; "cloudfront:GetDistribution";
           "cloudfront:GetDistributionConfig"; "cloudfront:UpdateDistribution" ];
       resources :=
         [ Arn_format partition tk "cloudfront" "distribution"
             (appSiteDistributionId props) ] |};
    {| actions := ["dynamodb:PutItem"; "dynamodb:DeleteItem"];
       resources := [ Arn_format partition tk "dynamodb" "table" "Tenant" ] |};
    {| actions := ["dynamodb:CreateTable"; "dynamodb:DeleteTable"];
       resources := [ Arn_format partition tk "dynamodb" "table" "Order-*" ] |};
    {| actions := ["ssm:GetParameter"];
       resources :=
         [ Arn_format partition tk "ssm" "parameter" "cdk-bootstrap/*" ] |} ].

(** The role of the onboarding, deletion, tenant-deploy and on-commit
    projects. *)
Definition build_role (partition : string) (tk : tokens) (clusterArn : string)
    (props : TenantOnboardingProps) : list PolicyStatement :=
  codebuildKubectlRole clusterArn
  ++ addTenantOnboardingPermissions partition tk props.

(** [EKSClusterStack.addSharedServicesPermissions]: the statements of the
    service account of the shared services. *)
Definition addSharedServicesPermissions (partition : string) (tk : tokens)
    (tenantOnboardingProjectName tenantDeletionProjectName : string)
    : list PolicyStatement :=
  [ {| actions :=
         [ "dynamodb:GetItem"; "dynamodb:BatchGetItem"; "dynamodb:Query";
           "dynamodb:Scan"; "dynamodb:PutItem"; "dynamodb:UpdateItem";
           "dynamodb:DeleteItem"; "dynamodb:BatchWriteItem" ];
       resources := [ Arn_format partition tk "dynamodb" "table" "Tenant" ] |};
    {| actions := ["codebuild:StartBuild"];
       resources :=
         [ Arn_format partition tk "codebuild" "project"
             tenantOnboardingProjectName;
           Arn_format partition tk "codebuild" "project"
             tenantDeletionProjectName ] |};
    {| actions := ["cognito-idp:ListUsers"];
       resources := [ Arn_format partition tk "cognito-idp" "userpool" "*" ] |} ].

End Iam.

(** ** The tenant lifecycle

    The registration and tenant-management services that receive the
    onboarding and deprovisioning requests, and the tenant stack the two
    CodeBuild projects deploy and destroy, are not among the sources.  The
    lifecycle below is taken from the specification and built on the parts
    that are: the slug of [RegisterComponent], the tenant table, the
    application services and their tenant-deploy builds. *)

Module Lifecycle.
Import Cdk.

Inductive Plan := pooled | silo.

Inductive Status := Provisioning | Active | Deprovisioning | Deleted | Failed.

Record Tenant := {
  tenantId : string;
  companyName : Js.js_string;
  adminEmail : string;
  plan : Plan;
  status : Status;
  createdAt : N
}.

Definition with_status (s : Status) (t : Tenant) : Tenant :=
  {| tenantId := tenantId t; companyName := companyName t;
     adminEmail := adminEmail t; plan := plan t; status := s;
     createdAt := createdAt t |}.

Inductive DeploymentStatus := Pending | Deployed | DeployFailed.

Inductive error :=
| ValidationError
| ResourceConflict
| ProvisioningFailure (stage : nat)
| NotFound
| InvalidState.

Inductive result :=
| Done (tenant : string) (deployed : list (string * DeploymentStatus))
| Error (e : error).

(** The registry is the tenant table: one item per value of the partition
    key [TENANT_ID]. *)
Record world := {
  registry : gmap string Tenant;
  cluster : K8s.cluster;
  resources : gset string;
  identities : gset string;
  deployments : gmap (string * string) DeploymentStatus
}.

Definition empty_world (c : K8s.cluster) : world :=
  {| registry := ∅; cluster := c; resources := ∅; identities := ∅;
     deployments := ∅ |}.

Record config := {
  tk : tokens;
  services : list ApplicationServiceProps;
  well_formed_email : string -> bool
}.

(** Outcomes of the external calls of one onboarding. *)
Record onboarding_outcomes := {
  data_ok : bool;
  identity_ok : bool;
  routes_ok : bool;
  deploy_ok : string -> bool
}.

(** Outcomes of the external calls of one deprovisioning. *)
Record deprovisioning_outcomes := {
  remove_routes_ok : bool;
  teardown_ok : bool
}.

Definition to_string (s : Js.js_string) : string :=
  string_of_list_ascii (List.map ascii_of_N s).

(** Modelled from the spec: [slug(companyName)] as the tenant id, computed
    by the code of [RegisterComponent.getTenantUrl]. *)
Definition slug (companyName : Js.js_string) : string :=
  to_string (RegisterComponent.tenantId companyName).

Definition parse_plan (p : string) : option Plan :=
  if String.eqb p "pooled" then Some pooled
  else if String.eqb p "silo" then Some silo
  else None.

(** Modelled from the spec: the tenant-scoped data resource of a silo
    service, named [<ResourceKind>-<TENANT_ID>]. *)
Definition resource_name (t : string) : string := "Order-" +:+ t.

Definition identity_name (t : string) : string := t +:+ "-service-account".

(** Modelled from the spec: [GenerateRoutes(tenantId, serviceList)], one
    rule [{host, path: /{tenantId}/{servicePrefix}, backend}] per service,
    as a minion fragment named after the service's ingress. *)
Definition route_rule (t : string) (s : ApplicationServiceProps)
    : K8s.ingress :=
  {| K8s.mergeable_ingress_type := K8s.minion;
     K8s.host := Shell.tolower (internalApiDomain s);
     K8s.paths :=
       [ {| K8s.path := "/" +:+ t +:+ "/" +:+ serviceUrlPrefix s;
            K8s.backend_service := CodeBuild.service_name (assetDirectory s);
            K8s.backend_port := CodeBuild.service_port (assetDirectory s) |} ] |}.

Definition fragment_key (t : string) (s : ApplicationServiceProps) : K8s.key :=
  (t, ("Ingress", CodeBuild.ingress_name (assetDirectory s))).

Definition GenerateRoutes (t : string) (svcs : list ApplicationServiceProps)
    : list (K8s.key * K8s.ingress) :=
  List.map (fun s => (fragment_key t s, route_rule t s)) svcs.

Definition publish (rules : list (K8s.key * K8s.ingress)) (c : K8s.cluster)
    : K8s.cluster :=
  List.fold_left (fun c r => <[ r.1 := K8s.Ingress r.2 ]> c) rules c.

(** Modelled from the spec: [RemoveRoutes(tenantId, serviceList)] deletes
    the fragments of that tenant. *)
Definition RemoveRoutes (t : string) (svcs : list ApplicationServiceProps)
    (c : K8s.cluster) : K8s.cluster :=
  List.fold_left (fun c s => delete (fragment_key t s) c) svcs c.

(** Modelled from the spec: [Deploy(tenantId, serviceList)].  Each target
    is the service's tenant-deploy build; a target whose trigger or build
    fails is recorded as failed and the others go on. *)
Fixpoint Deploy (cfg : config) (ok : string -> bool) (t : string)
    (svcs : list ApplicationServiceProps) (c : K8s.cluster)
    : K8s.cluster * list (string * DeploymentStatus) :=
  match svcs with
  | [] => (c, [])
  | s :: svcs' =>
      let b := tenant_deploy (tk cfg) s t c in
      if ok (name s) && b.1
      then let r := Deploy cfg ok t svcs' (CodeBuild.cluster b.2) in
           (r.1, (name s, Deployed) :: r.2)
      else let r := Deploy cfg ok t svcs' c in
           (r.1, (name s, DeployFailed) :: r.2)
  end.

Definition record_deployments (t : string)
    (rs : list (string * DeploymentStatus))
    (d : gmap (string * string) DeploymentStatus)
    : gmap (string * string) DeploymentStatus :=
  List.fold_left (fun d r => <[ (t, r.1) := r.2 ]> d) rs d.

Definition set_registry (r : gmap string Tenant) (w : world) : world :=
  {| registry := r; cluster := cluster w; resources := resources w;
     identities := identities w; deployments := deployments w |}.

Definition set_status (t : string) (s : Status) (w : world) : world :=
  set_registry (alter (with_status s) t (registry w)) w.

(** Modelled from the spec: the stages of an onboarding, run on a world
    whose registry already holds the tenant in [Provisioning]. *)
Definition onboarding_stages (cfg : config) (o : onboarding_outcomes)
    (t : string) (p : Plan) (w : world) : world * result :=
  (* 1. tenant-scoped data resources, silo tier only *)
  if match p with silo => negb (data_ok o) | pooled => false end
  then (set_status t Failed w, Error (ProvisioningFailure 1)) else
  let res := match p with
             | silo => {[ resource_name t ]} ∪ resources w
             | pooled => resources w
             end in
(* 2. the tenant's service identity *)
if negb (identity_ok o)
then (set_status t Failed
        {| registry := registry w; cluster := cluster w; resources := res;
           identities := identities w; deployments := deployments w |},
      Error (ProvisioningFailure 2)) else
let ids := {[ identity_name t ]} ∪ identities w in
(* 3. routing rules of every downstream service *)
if negb (routes_ok o)
then (set_status t Failed
        {| registry := registry w; cluster := cluster w; resources := res;
           identities := ids; deployments := deployments w |},
      Error (ProvisioningFailure 3)) else
let c3 := publish (GenerateRoutes t (services cfg)) (cluster w) in
(* 4. fan-out *)
let d := Deploy cfg (deploy_ok o) t (services cfg) c3 in
(set_status t Active
   {| registry := registry w; cluster := d.1; resources := res;
      identities := ids;
      deployments := record_deployments t d.2 (deployments w) |},
 Done t d.2).

(** Modelled from the spec: [Onboard(companyName, adminEmail, plan)]. *)
Definition Onboard (cfg : config) (o : onboarding_outcomes) (now : N)
    (company : Js.js_string) (email : string) (plan_name : string)
    (w : world) : world * result :=
  match company, well_formed_email cfg email, parse_plan plan_name with
  | _ :: _, true, Some p =>
      let t := slug company in
      let fresh :=
        {| tenantId := t; companyName := company; adminEmail := email;
           plan := p; status := Provisioning; createdAt := now |} in
      match registry w !! t with
      | Some r =>
          match status r with
          | Failed =>
              onboarding_stages cfg o t p
                (set_registry (<[ t := fresh ]> (registry w)) w)
          | _ => (w, Error ResourceConflict)
          end
      | None =>
          onboarding_stages cfg o t p
            (set_registry (<[ t := fresh ]> (registry w)) w)
      end
  | _, _, _ => (w, Error ValidationError)
  end.

(** Modelled from the spec: [Deprovision(tenantId)].  The two stages are
    attempted independently of each other's outcome. *)
Definition Deprovision (cfg : config) (o : deprovisioning_outcomes)
    (t : string) (w : world) : world * result :=
  match registry w !! t with
  | None => (w, Error NotFound)
  | Some r =>
      match status r with
      | Deleted => (w, Error InvalidState)
      | _ =>
          let w1 := set_status t Deprovisioning w in
          let c := if remove_routes_ok o
                   then RemoveRoutes t (services cfg) (cluster w1)
                   else cluster w1 in
          let res := if teardown_ok o
                     then resources w1 ∖ {[ resource_name t ]}
                     else resources w1 in
          let w2 := {| registry := registry w1; cluster := c;
                       resources := res; identities := identities w1;
                       deployments := deployments w1 |} in
          if remove_routes_ok o && teardown_ok o
          then (set_status t Deleted w2, Done t [])
          else (set_status t Failed w2, Error (ProvisioningFailure 0))
      end
  end.

(** Every record sits under its own tenant id. *)
Definition keyed_by_id (reg : gmap string Tenant) : Prop :=
  forall k r, reg !! k = Some r -> tenantId r = k.


(** The worlds the two operations reach from an empty registry. *)
Inductive reachable (cfg : config) : world -> Prop :=
| reach_empty c : reachable cfg (empty_world c)
| reach_onboard o now company email plan_name w :
    reachable cfg w ->
    reachable cfg (Onboard cfg o now company email plan_name w).1
| reach_deprovision o t w :
    reachable cfg w ->
    reachable cfg (Deprovision cfg o t w).1.

End Lifecycle.

(** ** [AuthInterceptor] (application client) *)

Module AuthInterceptor.

(** Angular's [HttpHeaders]: the values of a header are kept under its
    lower-cased name, next to the spelling the name was first given in. *)
Record HttpHeaders := {
  header_values : gmap string (list string);
  normalizedNames : gmap string string
}.

(** [headers.set(name, value)]: the header gets the single value [value]. *)
Definition set (name value : string) (h : HttpHeaders) : HttpHeaders :=
  let key := Shell.tolower name in
  {| header_values := <[ key := [value] ]> (header_values h);
     normalizedNames :=
       match normalizedNames h !! key with
       | Some _ => normalizedNames h
       | None => <[ key := name ]> (normalizedNames h)
       end |}.

(** [headers.getAll(name)] and [headers.get(name)]. *)
Definition getAll (name : string) (h : HttpHeaders) : option (list string) :=
  header_values h !! Shell.tolower name.

Definition get (name : string) (h : HttpHeaders) : option string :=
  getAll name h ≫= head.

Section Request.
Context {Body Params Context' : Type}.

Record HttpRequest := {
  method : string;
  url : string;
  body : option Body;
  headers : HttpHeaders;
  params : Params;
  context : Context';
  reportProgress : bool;
  responseType : string;
  withCredentials : bool
}.

(** [req.clone({ headers: h })] *)
Definition clone_headers (h : HttpHeaders) (req : HttpRequest)
    : HttpRequest :=
  {| method := method req; url := url req; body := body req;
     headers := h; params := params req; context := context req;
     reportProgress := reportProgress req;
     responseType := responseType req;
     withCredentials := withCredentials req |}.

(** [s.includes(sub)] *)
Fixpoint includes (s sub : string) : bool :=
  String.prefix sub s
  || match s with
     | EmptyString => false
     | String _ s' => includes s' sub
     end.

(** [!token] for the value [getIdToken()] returns: a string, or
    [null]/[undefined]. *)
Definition not_token (token : option string) : bool :=
  match token with
  | None => true
  | Some t => String.eqb t ""
  end.

(** [intercept(req, next)], with [token] the value of
    [this.oidcSecurityService.getIdToken()] and [next] standing for
    [next.handle]. *)
Definition intercept {R : Type} (token : option string)
    (req : HttpRequest) (next : HttpRequest -> R) : R :=
  if not_token token || includes (url req) "amazoncognito"
  then next req
  else
    let req :=
      clone_headers
        (set "Authorization" ("Bearer " +:+ default "" token) (headers req))
        req in
    next req.

(** Two requests that agree on everything but, possibly, the header
    [name]. *)
Definition same_but_header (name : string) (r r' : HttpRequest) : Prop :=
  method r' = method r /\ url r' = url r /\ body r' = body r
  /\ params r' = params r /\ context r' = context r
  /\ reportProgress r' = reportProgress r
  /\ responseType r' = responseType r
  /\ withCredentials r' = withCredentials r
  /\ forall other,
       Shell.tolower other <> Shell.tolower name ->
       getAll other (headers r') = getAll other (headers r).

End Request.

End AuthInterceptor.

(** ** [OrdersDetailComponent] (application client)

    JavaScript numbers are IEEE 754 binary64 values; [SpecFloat] gives
    their arithmetic (round to nearest, ties to even). *)

Module OrdersDetail.

Abbreviation number := spec_float.

Definition prec : Z := 53.
Definition emax : Z := 1024.

Definition add (x y : number) : number := SFadd prec emax x y.
Definition mul (x y : number) : number := SFmul prec emax x y.

(** The number an integer literal denotes. *)
Definition of_Z (z : Z) : number := binary_normalize prec emax z 0 false.

(** [.0899]: the binary64 value nearest to 899/10000. *)
Definition taxRate : number := S754_finite false 6477977704009721 (-56).

Record OrderProduct := {
  price : number;
  quantity : number
}.

Record Order := {
  orderProduct : list OrderProduct
}.

Inductive exception := TypeError.

Inductive completion (A : Type) :=
| Return (v : A)
| Throw (e : exception).
Arguments Return {A} v.
Arguments Throw {A} e.

Definition bind {A B} (c : completion A) (k : A -> completion B)
    : completion B :=
  match c with
  | Return v => k v
  | Throw e => Throw e
  end.

(** [Array.prototype.reduce(f)] without an initial value: the first
    element starts the accumulator; an empty array throws a [TypeError]. *)
Definition reduce {A} (f : A -> A -> A) (l : list A) : completion A :=
  match l with
  | [] => Throw TypeError
  | x :: xs => Return (List.fold_left f xs x)
  end.

Definition sum (op : OrderProduct) : number := mul (price op) (quantity op).

Definition tax (op : OrderProduct) : number := mul (sum op) taxRate.

Definition total (op : OrderProduct) : number := add (sum op) (tax op).

Definition subTotal (order : Order) : completion number :=
  reduce (fun acc curr => add acc curr)
    (List.map (fun op => mul (price op) (quantity op)) (orderProduct order)).

Definition calcTax (order : Order) : completion number :=
  bind (subTotal order) (fun s => Return (mul s taxRate)).

Definition final (order : Order) : completion number :=
  bind (subTotal order) (fun s =>
  bind (calcTax order) (fun t =>
  Return (add s t))).

(** The claim's wording of [final]: the subtotal times [(1 + 0.0899)]. *)
Definition final_as_worded (order : Order) : completion number :=
  bind (subTotal order) (fun s => Return (mul s (add (of_Z 1) taxRate))).

End OrdersDetail.

(** ** A scenario

    The onboarding of "Acme Corp!" on the pooled plan, against a cluster
    that holds the primary ingress; used to instantiate the properties of
    Part II. *)

Module Scenario.
Import Cdk Lifecycle.

Definition tokens0 : tokens :=
  {| region := "us-east-1";
     account := "111122223333";
     repositoryUri :=
       fun n => "111122223333.dkr.ecr.us-east-1.amazonaws.com/" +:+ n |}.

Definition overlay0 : overlay_files :=
  {| ov_kustomization := ["images:"; "- name: KUSTOMIZE_IMAGE"];
     ov_host_patch := ["- op: replace"; "  path: /spec/rules/0/host"];
     ov_path_patch_template :=
       ["- op: replace"; "  path: /spec/rules/0/http/paths/0/path"];
     ov_svc_acc_patch_template :=
       ["- op: replace";
        "  path: /spec/template/spec/serviceAccountName"] |}.

Definition props0 : ServicesStackProps :=
  {| internalNLBApiDomain := "API.Example.com";
     stack_eksClusterName := "eks-saas";
     stack_eksClusterOIDCProviderArn := "arn:aws:iam::111122223333:oidc-provider/eks";
     codebuildKubectlRoleArn := "arn:aws:iam::111122223333:role/kubectl";
     stack_appSiteDistributionId := "E123";
     stack_appSiteCloudFrontDomain := "d123.cloudfront.net";
     sharedServiceAccountName := "shared-service-account";
     appHostedZoneId := None;
     customDomain := None |}.

Definition cfg0 : config :=
  {| tk := tokens0;
     services := applicationServices overlay0 overlay0 props0;
     well_formed_email := fun e => AuthInterceptor.includes e "@" |}.

Definition all_ok : onboarding_outcomes :=
  {| data_ok := true; identity_ok := true; routes_ok := true;
     deploy_ok := fun _ => true |}.

Definition removal_ok : deprovisioning_outcomes :=
  {| remove_routes_ok := true; teardown_ok := true |}.

Definition cluster0 : K8s.cluster :=
  <[ master_key := PrimarySameHostMergableIngress "API.Example.com" ]> ∅.

(** A cluster with the namespaces of two tenants, whose [kubectl] refuses
    every invocation the model leaves open. *)
Definition kubectl0 : Kubectl.kubectl :=
  {| Kubectl.namespaces :=
       fun n => String.eqb n "acmecorp" || String.eqb n "globex";
     Kubectl.otherwise := fun _ _ _ => None |}.

Definition acme_onboarded : world :=
  (Onboard cfg0 all_ok 1 (Js.of_string "Acme Corp!") "a@acme.com" "pooled"
     (empty_world cluster0)).1.

End Scenario.

(* ===================================================================== *)
(** * Part II. Properties                                                 *)
(* ===================================================================== *)

(** ** The tenant slug *)

Module SlugFacts.
Import Js RegisterComponent.

(** Turns the boolean range tests on code units into arithmetic. *)
Ltac class_arith :=
  unfold re, is_word, is_alnum, is_space, is_digit, is_upper, is_lower,
    between in *;
  rewrite ?orb_true_iff, ?orb_false_iff, ?andb_true_iff, ?andb_false_iff,
    ?N.leb_le, ?N.leb_gt, ?N.eqb_eq, ?N.eqb_neq in *;
  lia.

Lemma space_is_not_word (c : code_unit) : is_space c = true -> is_word c = false.
Proof.
  intros Hs. destruct (is_word c) eqn:Hw; [exfalso|reflexivity]. class_arith.
Qed.

Lemma re_is_non_word (c : code_unit) : re c = negb (is_word c).
Proof.
  unfold re. destruct (is_space c) eqn:Hs.
  - rewrite (space_is_not_word c Hs). reflexivity.
  - apply orb_false_r.
Qed.

(** Replacing the runs of a class by the empty string deletes exactly the
    code units of the class. *)
Lemma replace_runs_empty (cls : code_unit -> bool) (s : js_string) :
  forall b, replace_runs cls [] b s = List.filter (fun c => negb (cls c)) s.
Proof.
  induction s as [|c s IH]; intros b; simpl; [reflexivity|].
  destruct (cls c); simpl.
  - destruct b; apply IH.
  - f_equal. apply IH.
Qed.

Lemma tenantId_filter (cn : js_string) :
  tenantId cn = toLowerCase (List.filter is_word cn).
Proof.
  unfold tenantId, replace_class. rewrite replace_runs_empty. f_equal.
  apply List.filter_ext. intros c. rewrite re_is_non_word. apply negb_involutive.
Qed.

Lemma lower_unit_slug (c : code_unit) :
  is_word c = true -> slug_unit (lower_unit c) = true.
Proof.
  intros Hw. unfold slug_unit, lower_unit.
  destruct (is_upper c) eqn:Hu; class_arith.
Qed.

Lemma slug_unit_fixed (c : code_unit) :
  slug_unit c = true -> is_word c = true /\ lower_unit c = c.
Proof.
  intros Hs. unfold slug_unit, lower_unit in *.
  destruct (is_upper c) eqn:Hu; (split; [|try reflexivity; exfalso]); class_arith.
Qed.

Lemma tenantId_chars (cn : js_string) :
  List.Forall (fun c => slug_unit c = true) (tenantId cn).
Proof.
  rewrite tenantId_filter. unfold toLowerCase.
  induction cn as [|c cn IH]; simpl; [constructor|].
  destruct (is_word c) eqn:Hw; simpl; [|exact IH].
  constructor; [apply lower_unit_slug; exact Hw | exact IH].
Qed.

Lemma tenantId_of_slug (s : js_string) :
  List.Forall (fun c => slug_unit c = true) s -> tenantId s = s.
Proof.
  intros H. rewrite tenantId_filter. unfold toLowerCase.
  induction H as [|c s Hc _ IH]; simpl; [reflexivity|].
  destruct (slug_unit_fixed c Hc) as [Hw Hl].
  rewrite Hw. simpl. rewrite Hl. f_equal. exact IH.
Qed.

(** Without an underscore in the name the code and the data model's wording
    agree. *)
Lemma tenantId_as_worded (cn : js_string) :
  List.Forall (fun c => c <> 95%N) cn -> tenantId cn = slug_as_worded cn.
Proof.
  intros H. rewrite tenantId_filter. unfold slug_as_worded. f_equal.
  induction H as [|c cn Hc _ IH]; simpl; [reflexivity|].
  rewrite IH. unfold is_word. destruct (N.eqb_spec c 95); [contradiction|].
  rewrite orb_false_r. reflexivity.
Qed.

Lemma tenantId_as_worded_witness :
  tenantId (of_string "Acme Corp!") = slug_as_worded (of_string "Acme Corp!").
Proof.
  apply tenantId_as_worded.
  repeat (constructor; [discriminate|]). constructor.
Defined.

(** A tenant id holds lower-case letters, digits and underscores only. *)
Lemma tenantId_alphabet (cn : js_string) (c : code_unit) :
  In c (tenantId cn) ->
  is_lower c = true \/ is_digit c = true \/ c = 95%N.
Proof.
  intros Hc. pose proof (tenantId_chars cn) as H.
  rewrite List.Forall_forall in H. specialize (H c Hc).
  unfold slug_unit in H.
  apply orb_true_iff in H as [H|H]; [apply orb_true_iff in H as [H|H]|]; auto.
  right. right. by apply N.eqb_eq.
Qed.

Lemma tenantId_alphabet_witness :
  is_lower 97 = true \/ is_digit 97 = true \/ 97%N = 95%N.
Proof.
  apply (tenantId_alphabet (of_string "Acme Corp!") 97%N).
  vm_compute. auto.
Defined.

(** C1, as amended.  The tenant id is the company name with every code unit
    outside [A-Za-z0-9_] deleted (white space and punctuation go, the
    underscore stays), lower-cased; "Acme Corp!" gives "acmecorp"; the id is a
    function of the company name alone. *)
Theorem tenantId_deletes_non_word_and_lowers :
  (forall cn, tenantId cn = toLowerCase (List.filter is_word cn))
  /\ tenantId (of_string "Acme Corp!") = of_string "acmecorp"
  /\ (forall env cn,
        getTenantUrl env cn
        = if usingCustomDomain env
          then of_string "https://" ++ toLowerCase (List.filter is_word cn)
                 ++ of_string "." ++ domain env ++ of_string "/"
          else of_string "https://" ++ domain env ++ of_string "/"
                 ++ toLowerCase (List.filter is_word cn) ++ of_string "/")
  /\ (forall cn cn', cn = cn' -> tenantId cn = tenantId cn').
Proof.
  split; [exact tenantId_filter|].
  split; [vm_compute; reflexivity|].
  split.
  - intros env cn. unfold getTenantUrl. rewrite tenantId_filter. reflexivity.
  - intros cn cn' ->. reflexivity.
Qed.

(** C1, the claim as worded fails: an underscore is not alphanumeric, yet
    the code keeps it. *)
Lemma tenantId_keeps_underscore :
  tenantId (of_string "Acme_Corp") = of_string "acme_corp"
  /\ slug_as_worded (of_string "Acme_Corp") = of_string "acmecorp"
  /\ tenantId (of_string "Acme_Corp") <> slug_as_worded (of_string "Acme_Corp").
Proof.
  split; [vm_compute; reflexivity|].
  split; [vm_compute; reflexivity|].
  vm_compute. discriminate.
Qed.

(** C8.  The slug is idempotent, and equal names give equal slugs. *)
Theorem tenantId_idempotent :
  (forall x, tenantId (tenantId x) = tenantId x)
  /\ (forall x y, x = y -> tenantId x = tenantId y).
Proof.
  split.
  - intros x. apply tenantId_of_slug, tenantId_chars.
  - intros x y ->. reflexivity.
Qed.

End SlugFacts.

(** ** The tenant-deploy build *)

Module BuildFacts.
Import Shell CodeBuild Cdk.

(** The build commands are the texts the construct writes. *)
Lemma tenantDeploy_build_text (tk : tokens) (props : ApplicationServiceProps) :
  List.map render (build (tenantDeployProject tk props))
  = [ "aws eks --region $AWS_REGION update-kubeconfig --name $CLUSTER_NAME";
      "echo " +:+ dquote +:+ "  newName: $ECR_REPO_URI" +:+ dquote
        +:+ " >> kubernetes/kustomization.yaml";
      "echo " +:+ dquote +:+ "  newTag: latest" +:+ dquote
        +:+ " >> kubernetes/kustomization.yaml";
      "echo " +:+ dquote +:+ "  value: $API_HOST" +:+ dquote
        +:+ " >> kubernetes/host-patch.yaml";
      "cp kubernetes/path-patch-template.yaml kubernetes/path-patch.yaml";
      "echo " +:+ dquote +:+ "  value: /$TENANT_ID/$SERVICE_URL_PREFIX"
        +:+ dquote +:+ " >> kubernetes/path-patch.yaml";
      "cp kubernetes/svc-acc-patch-template.yaml kubernetes/svc-acc-patch.yaml";
      "echo " +:+ dquote +:+ "  value: $TENANT_ID-service-account" +:+ dquote
        +:+ " >> kubernetes/svc-acc-patch.yaml";
      "kubectl apply -k kubernetes/ -n $TENANT_ID" ].
Proof. reflexivity. Qed.

Lemma append_assoc (a b c : string) : (a +:+ b) +:+ c = a +:+ (b +:+ c).
Proof.
  induction a as [|ch a IH]; [reflexivity|].
  change (String ch ((a +:+ b) +:+ c) = String ch (a +:+ (b +:+ c))).
  rewrite IH. reflexivity.
Qed.

Lemma onboarding_post_build_text (tk : tokens) (props : TenantOnboardingProps) :
  List.map render (post_build (onboardingProject tk props))
  = List.map
      (fun x =>
         "aws codebuild start-build --project-name " +:+ x
         +:+ "TenantDeploy --environment-variables-override name=TENANT_ID,value="
         +:+ dquote +:+ "$TENANT_ID" +:+ dquote +:+ ",type=PLAINTEXT")
      (applicationServiceBuildProjectNames props).
Proof.
  cbn [onboardingProject post_build]. rewrite List.map_map.
  apply List.map_ext. intros x. unfold render.
  rewrite append_assoc. reflexivity.
Qed.

Lemma onboarding_build_text (tk : tokens) (props : TenantOnboardingProps) :
  List.map render (build (onboardingProject tk props))
  = [ "npm run cdk bootstrap";
      "npm run cdk deploy TenantStack-$TENANT_ID -- --require-approval=never "
        +:+ cfnParamString props ]
  /\ cfnParamString (onboardingSvc Scenario.props0)
     = "--parameters TenantId=$TENANT_ID --parameters CompanyName="
       +:+ dquote +:+ "$COMPANY_NAME" +:+ dquote
       +:+ " --parameters TenantAdminEmail=" +:+ dquote +:+ "$ADMIN_EMAIL"
       +:+ dquote +:+ " --parameters AppDistributionId=" +:+ dquote +:+ "E123"
       +:+ dquote +:+ " --parameters DistributionDomain=" +:+ dquote
       +:+ "d123.cloudfront.net" +:+ dquote
       +:+ " --parameters EKSClusterName=" +:+ dquote +:+ "eks-saas" +:+ dquote
       +:+ " --parameters KubectlRoleArn=" +:+ dquote
       +:+ "arn:aws:iam::111122223333:role/kubectl" +:+ dquote
       +:+ " --parameters OIDCProviderArn=" +:+ dquote
       +:+ "arn:aws:iam::111122223333:oidc-provider/eks" +:+ dquote.
Proof. split; reflexivity. Qed.

Lemma deletion_build_text (tk : tokens) (props : TenantOnboardingProps) :
  List.map render (build (tenantDeletionProject tk props))
  = [ "npm run cdk bootstrap";
      "npm run cdk destroy TenantStack-$TENANT_ID -- --require-approval=never -f" ].
Proof. reflexivity. Qed.

Lemma append_empty_r (s : string) : s +:+ "" = s.
Proof.
  induction s as [|a s IH]; [reflexivity|].
  change (String a (s +:+ "") = String a s). rewrite IH. reflexivity.
Qed.

Lemma yaml_field_snoc_hit (k : string) (ls : list string) (l v : string) :
  strip_prefix ("  " +:+ k +:+ ": ") l = Some v ->
  yaml_field k (ls ++ [l]) = Some v.
Proof.
  unfold yaml_field. generalize ("  " +:+ k +:+ ": "). intros p H.
  rewrite omap_app. simpl. rewrite H. apply last_snoc.
Qed.

Lemma yaml_field_snoc_miss (k : string) (ls : list string) (l : string) :
  strip_prefix ("  " +:+ k +:+ ": ") l = None ->
  yaml_field k (ls ++ [l]) = yaml_field k ls.
Proof.
  unfold yaml_field. generalize ("  " +:+ k +:+ ": "). intros p H.
  rewrite omap_app. simpl. rewrite H. by rewrite app_nil_r.
Qed.

Lemma kustomize_files (a : assets) (fs : gmap string (list string))
    (hl pl sl kl : list string) (h p sa n tg : string) :
  fs !! "kubernetes/host-patch.yaml" = Some hl ->
  fs !! "kubernetes/path-patch.yaml" = Some pl ->
  fs !! "kubernetes/svc-acc-patch.yaml" = Some sl ->
  fs !! "kubernetes/kustomization.yaml" = Some kl ->
  yaml_field "value" hl = Some h ->
  yaml_field "value" pl = Some p ->
  yaml_field "value" sl = Some sa ->
  yaml_field "newName" kl = Some n ->
  yaml_field "newTag" kl = Some tg ->
  kustomize a fs =
    Some [ ("Deployment", app a,
             K8s.Deployment sa (n +:+ ":" +:+ tg) (containerPort a));
           ("Service", service_name a,
             K8s.Service (app a) (service_port a) (containerPort a));
           ("Ingress", ingress_name a,
             K8s.Ingress
               {| K8s.mergeable_ingress_type := K8s.minion;
                  K8s.host := h;
                  K8s.paths :=
                    [ {| K8s.path := p;
                         K8s.backend_service := service_name a;
                         K8s.backend_port := service_port a |} ] |}) ].
Proof.
  intros H1 H2 H3 H4 H5 H6 H7 H8 H9. unfold kustomize.
  rewrite H1, H2, H3, H4. cbn [mbind option_bind].
  rewrite H5, H6, H7, H8, H9. reflexivity.
Qed.

Ltac lookup_inserts :=
  repeat (rewrite lookup_insert_eq || rewrite lookup_insert_ne by done).

(** The [build] phase of a tenant-deploy project, from any state that has
    the variables and the working copy of a started build. *)
Lemma tenant_build_phase (tk : tokens) (svc : ApplicationServiceProps)
    (a : assets) (s : state) (t u h p : string) (kus hp ppt sat : list string) :
  vars s !! "TENANT_ID" = Some t ->
  vars s !! "ECR_REPO_URI" = Some u ->
  vars s !! "API_HOST" = Some h ->
  vars s !! "SERVICE_URL_PREFIX" = Some p ->
  files s !! "kubernetes/kustomization.yaml" = Some kus ->
  files s !! "kubernetes/host-patch.yaml" = Some hp ->
  files s !! "kubernetes/path-patch-template.yaml" = Some ppt ->
  files s !! "kubernetes/svc-acc-patch-template.yaml" = Some sat ->
  exists s',
    run_phase a (build (tenantDeployProject tk svc)) s = (single_field t, s')
    /\ started s' = started s /\ cdk s' = cdk s
    /\ cluster s' =
         if negb (single_field t) then cluster s else
         apply_all t
           [ ("Deployment", app a,
               K8s.Deployment (t +:+ "-service-account") (u +:+ ":latest")
                 (containerPort a));
             ("Service", service_name a,
               K8s.Service (app a) (service_port a) (containerPort a));
             ("Ingress", ingress_name a,
               K8s.Ingress
                 {| K8s.mergeable_ingress_type := K8s.minion;
                    K8s.host := h;
                    K8s.paths :=
                      [ {| K8s.path := "/" +:+ t +:+ "/" +:+ p;
                           K8s.backend_service := service_name a;
                           K8s.backend_port := service_port a |} ] |}) ]
           (cluster s).
Proof.
  destruct s as [v f c st k]. cbn [vars files cluster started cdk].
  intros Ht Hu Hh Hp Hkus Hhp Hppt Hsat.
  cbn [tenantDeployProject build].
  repeat (cbn [run_phase exec set_files set_cluster vars files cluster started
               cdk expand expand_part fold_right default mbind option_bind];
          rewrite ?Ht, ?Hu, ?Hh, ?Hp, ?append_empty_r;
          rewrite ?lookup_insert_eq;
          rewrite ?lookup_insert_ne by done;
          rewrite ?Hkus, ?Hhp, ?Hppt, ?Hsat).
  unfold id.
  destruct (single_field t) eqn:Hf; cbn [andb negb].
  - erewrite kustomize_files;
      [ | lookup_inserts; reflexivity ..
        | apply yaml_field_snoc_hit; reflexivity
        | apply yaml_field_snoc_hit; reflexivity
        | apply yaml_field_snoc_hit; reflexivity
        | rewrite yaml_field_snoc_miss by reflexivity;
          apply yaml_field_snoc_hit; reflexivity
        | apply yaml_field_snoc_hit; reflexivity ].
    cbn [mbind option_bind]. eexists. split; [reflexivity|].
    cbn [set_cluster set_files cluster started cdk]. auto.
  - eexists. split; [reflexivity|].
    cbn [set_cluster set_files cluster started cdk]. auto.
Qed.

(** A tenant-deploy build succeeds exactly when [TENANT_ID] is one word, and
    then applies the service's three objects in that namespace. *)
Lemma tenant_deploy_spec (tk : tokens) (svc : ApplicationServiceProps)
    (t : string) (c : K8s.cluster) :
  (tenant_deploy tk svc t c).1 = single_field t
  /\ started (tenant_deploy tk svc t c).2 = []
  /\ cdk (tenant_deploy tk svc t c).2 = []
  /\ cluster (tenant_deploy tk svc t c).2
     = if negb (single_field t) then c
       else apply_all t (tenant_objects tk svc t) c.
Proof.
  unfold tenant_deploy, start_build, run_phases.
  cbn [tenantDeployProject install pre_build post_build environmentVariables
       install_kubectl run_phase exec negb].
  match goal with
  | |- context [run_phase ?a (build ?p) ?s] =>
      destruct (tenant_build_phase tk svc a s t
                  (repositoryUri tk (ecrImageName svc))
                  (tolower (internalApiDomain svc)) (serviceUrlPrefix svc)
                  (kustomization a) (host_patch a) (path_patch_template a)
                  (svc_acc_patch_template a))
        as (s' & Hrun & Hst & Hcdk & Hcl)
  end;
    try (cbn [set_vars vars files override fold_left fst snd]; unfold checkout;
         lookup_inserts; reflexivity).
  rewrite Hrun. cbn [fst snd andb]. rewrite andb_true_r.
  repeat split; assumption.
Qed.

(** *** What a build writes *)

Lemma apply_all_other (ns : string) (os : list (string * string * K8s.object))
    (c : K8s.cluster) (k : K8s.key) :
  ~ In k (keys_in ns os) -> apply_all ns os c !! k = c !! k.
Proof.
  unfold apply_all. revert c.
  induction os as [|o os IH]; intros c Hk; simpl in *; [reflexivity|].
  rewrite IH by tauto. unfold K8s.apply.
  apply lookup_insert_ne. intros E. apply Hk. left. exact E.
Qed.

Lemma apply_all_namespace (ns : string)
    (os : list (string * string * K8s.object)) (c : K8s.cluster) (k : K8s.key) :
  K8s.namespace_of k <> ns -> apply_all ns os c !! k = c !! k.
Proof.
  intros Hns. apply apply_all_other. unfold keys_in.
  rewrite in_map_iff. intros (o & <- & _). apply Hns. reflexivity.
Qed.

Lemma tenant_deploy_cluster (tk : tokens) (svc : ApplicationServiceProps)
    (t : string) (c : K8s.cluster) :
  cluster (tenant_deploy tk svc t c).2
  = if negb (single_field t) then c else apply_all t (tenant_objects tk svc t) c.
Proof. apply tenant_deploy_spec. Qed.



(** The three objects of a service, as found after the build. *)
Lemma apply_tenant_objects (tk : tokens) (svc : ApplicationServiceProps)
    (t : string) (c : K8s.cluster) :
  let a := assetDirectory svc in
  let c' := apply_all t (tenant_objects tk svc t) c in
  c' !! (t, ("Ingress", ingress_name a))
  = Some (K8s.Ingress
            {| K8s.mergeable_ingress_type := K8s.minion;
               K8s.host := tolower (internalApiDomain svc);
               K8s.paths :=
                 [ {| K8s.path := "/" +:+ t +:+ "/" +:+ serviceUrlPrefix svc;
                      K8s.backend_service := service_name a;
                      K8s.backend_port := service_port a |} ] |})
  /\ c' !! (t, ("Service", service_name a))
     = Some (K8s.Service (app a) (service_port a) (containerPort a))
  /\ c' !! (t, ("Deployment", app a))
     = Some (K8s.Deployment (t +:+ "-service-account")
               (repositoryUri tk (ecrImageName svc) +:+ ":latest")
               (containerPort a)).
Proof.
  cbn. unfold K8s.apply. cbn.
  repeat split; lookup_inserts; reflexivity.
Qed.

Lemma ingress_keys_of_tenant_objects (tk : tokens)
    (svc : ApplicationServiceProps) (t ns name : string) :
  In (ns, ("Ingress", name)) (keys_in t (tenant_objects tk svc t)) ->
  (ns, name) = (t, ingress_name (assetDirectory svc)).
Proof.
  cbn. intros [E|[E|[E|[]]]]; inversion E; reflexivity.
Qed.

(** *** The onboarding and deletion builds *)

Lemma start_builds_phase (a : assets) (names : list string) (s : state) :
  let s' := (run_phase a
               (List.map (fun x => StartBuild (x +:+ "TenantDeploy") "TENANT_ID"
                                     [Var "TENANT_ID"]) names) s).2 in
  (run_phase a
     (List.map (fun x => StartBuild (x +:+ "TenantDeploy") "TENANT_ID"
                           [Var "TENANT_ID"]) names) s).1 = true
  /\ vars s' = vars s /\ cluster s' = cluster s /\ cdk s' = cdk s
  /\ started s'
     = started s
       ++ List.map (fun x => (x +:+ "TenantDeploy",
                              ("TENANT_ID", default "" (vars s !! "TENANT_ID"))))
            names.
Proof.
  revert s. induction names as [|x names IH]; intros s.
  - cbn. rewrite app_nil_r. auto.
  - cbn [List.map run_phase exec].
    destruct (IH (add_started
                    (x +:+ "TenantDeploy",
                     ("TENANT_ID", expand (vars s) [Var "TENANT_ID"])) s))
      as (H1 & H2 & H3 & H4 & H5).
    cbn [add_started vars cluster cdk started] in *.
    repeat split; try assumption.
    rewrite H5. rewrite <- app_assoc. cbn [expand expand_part fold_right].
    rewrite append_empty_r. reflexivity.
Qed.

(** The onboarding build asks the CDK for the tenant stack, then starts the
    tenant-deploy project of every listed service with the one variable
    [TENANT_ID]; it applies nothing to the cluster itself. *)
Lemma onboarding_build_spec (tk : tokens) (props : TenantOnboardingProps)
    (t cn e pl : string) (c : K8s.cluster) :
  let b := onboarding_build tk props t cn e pl c in
  b.1 = true
  /\ cluster b.2 = c
  /\ cdk b.2 = [Deploy ("TenantStack-" +:+ t)]
  /\ started b.2
     = List.map (fun x => (x +:+ "TenantDeploy", ("TENANT_ID", t)))
         (applicationServiceBuildProjectNames props).
Proof.
  unfold onboarding_build, start_build, run_phases.
  cbn [onboardingProject install pre_build build post_build
       environmentVariables run_phase exec negb add_cdk vars files cluster
       started cdk].
  match goal with
  | |- context [run_phase ?a (List.map ?f ?l) ?s] =>
      destruct (start_builds_phase a l s) as (H1 & H2 & H3 & H4 & H5);
      destruct (run_phase a (List.map f l) s) as [ok s'] eqn:E
  end.
  cbn [fst snd add_cdk vars files cluster started cdk andb app override
       fold_left expand expand_part fold_right] in *.
  rewrite H1, H3, H4, H5.
  revert H2; lookup_inserts; intros _.
  rewrite append_empty_r. repeat split.
Qed.


Lemma find_product_deploy (tk : tokens) (po oo : overlay_files)
    (props : ServicesStackProps) :
  find_tenant_deploy tk (applicationServices po oo props)
    "ProductServiceTenantDeploy" = Some (productSvc po props).
Proof. reflexivity. Qed.

Lemma find_order_deploy (tk : tokens) (po oo : overlay_files)
    (props : ServicesStackProps) :
  find_tenant_deploy tk (applicationServices po oo props)
    "OrderServiceTenantDeploy" = Some (orderSvc oo props).
Proof. reflexivity. Qed.

(** The fan-out of [ServicesStack]: the product build, then the order
    build. *)
Lemma fan_out_stack (tk : tokens) (po oo : overlay_files)
    (props : ServicesStackProps) (t cn e pl : string) (c : K8s.cluster) :
  fan_out tk (onboardingSvc props) (applicationServices po oo props) t cn e pl c
  = cluster (tenant_deploy tk (orderSvc oo props) t
               (cluster (tenant_deploy tk (productSvc po props) t c).2)).2.
Proof.
  unfold fan_out.
  destruct (onboarding_build_spec tk (onboardingSvc props) t cn e pl c)
    as (_ & Hc & _ & Hs).
  cbn zeta in Hc, Hs. rewrite Hc, Hs.
  cbn [onboardingSvc applicationServiceBuildProjectNames List.map].
  change ("ProductService" +:+ "TenantDeploy") with "ProductServiceTenantDeploy".
  change ("OrderService" +:+ "TenantDeploy") with "OrderServiceTenantDeploy".
  cbn [run_started]. rewrite find_product_deploy, find_order_deploy.
  unfold tenant_deploy. reflexivity.
Qed.

(** *** Writes as lists *)

Lemma lookup_insert_all (kvs : list (K8s.key * K8s.object)) (c : K8s.cluster)
    (k : K8s.key) :
  K8s.insert_all kvs c !! k
  = match K8s.insert_all kvs ∅ !! k with
    | Some o => Some o
    | None => c !! k
    end.
Proof.
  unfold K8s.insert_all. revert c.
  induction kvs as [|kv kvs IH]; intros c; simpl; [by rewrite lookup_empty|].
  rewrite IH. rewrite (IH (<[kv.1:=kv.2]> ∅)).
  destruct (fold_left _ kvs ∅ !! k); [reflexivity|].
  destruct (decide (kv.1 = k)) as [->|Hne].
  - by rewrite !lookup_insert_eq.
  - rewrite !lookup_insert_ne by done. by rewrite lookup_empty.
Qed.

Lemma insert_all_idempotent (kvs : list (K8s.key * K8s.object))
    (c : K8s.cluster) :
  K8s.insert_all kvs (K8s.insert_all kvs c) = K8s.insert_all kvs c.
Proof.
  apply map_eq. intros k.
  rewrite (lookup_insert_all kvs (K8s.insert_all kvs c)).
  rewrite (lookup_insert_all kvs c).
  destruct (K8s.insert_all kvs ∅ !! k); reflexivity.
Qed.

Lemma insert_all_app (l1 l2 : list (K8s.key * K8s.object)) (c : K8s.cluster) :
  K8s.insert_all l2 (K8s.insert_all l1 c) = K8s.insert_all (l1 ++ l2) c.
Proof. unfold K8s.insert_all. by rewrite fold_left_app. Qed.

Lemma apply_all_insert_all (ns : string)
    (os : list (string * string * K8s.object)) (c : K8s.cluster) :
  apply_all ns os c
  = K8s.insert_all (List.map (fun o => ((ns, (o.1.1, o.1.2)), o.2)) os) c.
Proof.
  unfold apply_all, K8s.insert_all, K8s.apply. revert c.
  induction os as [|o os IH]; intros c; simpl; [reflexivity|]. apply IH.
Qed.

Lemma tenant_deploy_writes (tk : tokens) (svc : ApplicationServiceProps)
    (t : string) (c : K8s.cluster) :
  cluster (tenant_deploy tk svc t c).2 = K8s.insert_all (writes tk svc t) c.
Proof.
  rewrite tenant_deploy_cluster. unfold writes.
  destruct (single_field t); cbn [negb]; [apply apply_all_insert_all|reflexivity].
Qed.

Lemma insert_all_empty_keys (kvs : list (K8s.key * K8s.object)) (k : K8s.key)
    (o : K8s.object) :
  K8s.insert_all kvs ∅ !! k = Some o -> In k (List.map fst kvs).
Proof.
  induction kvs as [|kv kvs IH];
    [unfold K8s.insert_all; simpl; by rewrite lookup_empty|].
  change (K8s.insert_all (kv :: kvs) ∅)
    with (K8s.insert_all kvs (<[kv.1:=kv.2]> ∅)).
  rewrite lookup_insert_all.
  destruct (K8s.insert_all kvs ∅ !! k) as [o'|] eqn:E.
  - intros [= <-]. right. by apply IH.
  - rewrite lookup_insert. case_decide as Hk; [|by rewrite lookup_empty].
    intros _. left. exact Hk.
Qed.

(** Writes under disjoint keys can be made in either order. *)
Lemma insert_all_commute (l1 l2 : list (K8s.key * K8s.object))
    (c : K8s.cluster) :
  (forall k, In k (List.map fst l1) -> ~ In k (List.map fst l2)) ->
  K8s.insert_all l2 (K8s.insert_all l1 c)
  = K8s.insert_all l1 (K8s.insert_all l2 c).
Proof.
  intros Hd. apply map_eq. intros k.
  rewrite (lookup_insert_all l2), (lookup_insert_all l1 c).
  rewrite (lookup_insert_all l1 (K8s.insert_all l2 c)), (lookup_insert_all l2 c).
  destruct (K8s.insert_all l2 ∅ !! k) as [o2|] eqn:E2;
    destruct (K8s.insert_all l1 ∅ !! k) as [o1|] eqn:E1; try reflexivity.
  exfalso. apply (Hd k); by eapply insert_all_empty_keys.
Qed.

(** The two builds of the fan-out of [ServicesStack] write different
    objects, so the order in which CodeBuild runs them does not matter. *)
Lemma stack_deploys_commute (tk : tokens) (po oo : overlay_files)
    (props : ServicesStackProps) (t : string) (c : K8s.cluster) :
  cluster (tenant_deploy tk (orderSvc oo props) t
             (cluster (tenant_deploy tk (productSvc po props) t c).2)).2
  = cluster (tenant_deploy tk (productSvc po props) t
               (cluster (tenant_deploy tk (orderSvc oo props) t c).2)).2.
Proof.
  rewrite !tenant_deploy_writes. apply insert_all_commute.
  unfold writes. destruct (single_field t); [|intros k []].
  cbn. intros k [<-|[<-|[<-|[]]]] [E|[E|[E|[]]]]; discriminate E.
Qed.

(** C6.  Running a service's tenant-deploy build for a tenant a second time
    leaves the cluster as the first run left it, and so does repeating the
    whole fan-out of [ServicesStack]: applying the same fragment twice is
    applying it once. *)
Theorem tenant_deploy_twice_is_once :
  forall (tk : tokens) (svc : ApplicationServiceProps) (t : string)
         (c : K8s.cluster),
    let once := tenant_deploy tk svc t c in
    let twice := tenant_deploy tk svc t (cluster once.2) in
    twice.1 = once.1
    /\ cluster twice.2 = cluster once.2
    /\ (forall po oo props cn e pl cn' e' pl',
          let onboarded :=
            fan_out tk (onboardingSvc props) (applicationServices po oo props)
              t cn e pl c in
          fan_out tk (onboardingSvc props) (applicationServices po oo props)
            t cn' e' pl' onboarded = onboarded).
Proof.
  intros tk svc t c. cbv zeta.
  split; [|split].
  - destruct (tenant_deploy_spec tk svc t c) as (H1 & _).
    destruct (tenant_deploy_spec tk svc t (cluster (tenant_deploy tk svc t c).2))
      as (H2 & _).
    congruence.
  - rewrite !tenant_deploy_writes. apply insert_all_idempotent.
  - intros po oo props cn e pl cn' e' pl'.
    rewrite !fan_out_stack, !tenant_deploy_writes.
    set (P := writes tk (productSvc po props) t).
    set (O := writes tk (orderSvc oo props) t).
    rewrite (insert_all_app P O c).
    rewrite (insert_all_app P O (K8s.insert_all (P ++ O) c)).
    apply insert_all_idempotent.
Qed.

End BuildFacts.

(** ** The tenant lifecycle *)

Module LifecycleFacts.
Import Cdk Lifecycle.

(** *** The registry *)

Lemma keyed_alter (s : Status) (t : string) (reg : gmap string Tenant) :
  keyed_by_id reg -> keyed_by_id (alter (with_status s) t reg).
Proof.
  intros H k r. rewrite lookup_alter. case_decide as E.
  - subst k. destruct (reg !! t) as [r0|] eqn:E0; simpl; [|discriminate].
    intros [= <-]. simpl. by apply H.
  - apply H.
Qed.

Lemma keyed_insert (t : string) (r : Tenant) (reg : gmap string Tenant) :
  tenantId r = t -> keyed_by_id reg -> keyed_by_id (<[t := r]> reg).
Proof.
  intros Hr H k r'. rewrite lookup_insert. case_decide as E.
  - subst k. by intros [= <-].
  - apply H.
Qed.

Lemma onboarding_stages_registry (cfg : config) (o : onboarding_outcomes)
    (t : string) (p : Plan) (w : world) :
  exists s, registry (onboarding_stages cfg o t p w).1
            = alter (with_status s) t (registry w).
Proof.
  unfold onboarding_stages.
  destruct p, (data_ok o), (identity_ok o), (routes_ok o); simpl;
    eexists; reflexivity.
Qed.

Lemma onboard_keyed (cfg : config) (o : onboarding_outcomes) (now : N)
    (company : Js.js_string) (email plan_name : string) (w : world) :
  keyed_by_id (registry w) ->
  keyed_by_id (registry (Onboard cfg o now company email plan_name w).1).
Proof.
  intros H. unfold Onboard.
  destruct company as [|c0 company]; [exact H|].
  destruct (well_formed_email cfg email); [|exact H].
  destruct (parse_plan plan_name) as [p|]; [|exact H].
  set (t := slug (c0 :: company)).
  set (fresh := {| tenantId := t |}).
  assert (Hins : keyed_by_id (<[t := fresh]> (registry w)))
    by (apply keyed_insert; [reflexivity | exact H]).
  assert (Hst : keyed_by_id
                  (registry (onboarding_stages cfg o t p
                               (set_registry (<[t := fresh]> (registry w)) w)).1)).
  { destruct (onboarding_stages_registry cfg o t p
                (set_registry (<[t := fresh]> (registry w)) w)) as [s ->].
    by apply keyed_alter. }
  destruct (registry w !! t) as [r|]; [|exact Hst].
  destruct (status r); try exact H. exact Hst.
Qed.

Lemma deprovision_keyed (cfg : config) (o : deprovisioning_outcomes)
    (t : string) (w : world) :
  keyed_by_id (registry w) ->
  keyed_by_id (registry (Deprovision cfg o t w).1).
Proof.
  intros H. unfold Deprovision.
  destruct (registry w !! t) as [r|]; [|exact H].
  destruct (status r); try exact H;
    destruct (remove_routes_ok o), (teardown_ok o); simpl;
    repeat apply keyed_alter; exact H.
Qed.

Lemma reachable_keyed (cfg : config) (w : world) :
  reachable cfg w -> keyed_by_id (registry w).
Proof.
  induction 1 as [c | o now company email plan_name w _ IH | o t w _ IH].
  - intros k r. simpl. by rewrite lookup_empty.
  - by apply onboard_keyed.
  - by apply deprovision_keyed.
Qed.

(** An onboarding request that passes validation and finds a record of its
    tenant id that is not [Failed] is refused and changes nothing. *)
Lemma onboard_conflict (cfg : config) (o : onboarding_outcomes) (now : N)
    (company : Js.js_string) (email plan_name : string) (w : world)
    (r : Tenant) :
  company <> [] ->
  well_formed_email cfg email = true ->
  is_Some (parse_plan plan_name) ->
  registry w !! slug company = Some r ->
  status r <> Failed ->
  Onboard cfg o now company email plan_name w = (w, Error ResourceConflict).
Proof.
  intros Hc He [p Hp] Hr Hs. unfold Onboard.
  destruct company as [|c0 company]; [contradiction|].
  rewrite He, Hp, Hr. destruct (status r); try reflexivity. contradiction.
Qed.

(** C2.  Two onboarding requests whose company names give the same tenant
    id: when the first leaves a record of that id that is not [Failed], the
    second, with input that passes validation, fails with [ResourceConflict]
    and returns the world unchanged; in every reachable world a record is
    stored under its own tenant id, so two records with the same tenant id
    are one. *)
Theorem second_onboard_conflicts :
  forall (cfg : config) (o1 o2 : onboarding_outcomes) (now1 now2 : N)
         (n1 n2 : Js.js_string) (e1 e2 p1 p2 : string) (w : world),
    reachable cfg w ->
    slug n1 = slug n2 ->
    n2 <> [] ->
    well_formed_email cfg e2 = true ->
    is_Some (parse_plan p2) ->
    let w1 := (Onboard cfg o1 now1 n1 e1 p1 w).1 in
    (exists r, registry w1 !! slug n1 = Some r /\ status r <> Failed) ->
    Onboard cfg o2 now2 n2 e2 p2 w1 = (w1, Error ResourceConflict)
    /\ (forall k1 k2 r1 r2,
          registry w1 !! k1 = Some r1 ->
          registry w1 !! k2 = Some r2 ->
          tenantId r1 = tenantId r2 -> k1 = k2 /\ r1 = r2).
Proof.
  intros cfg o1 o2 now1 now2 n1 n2 e1 e2 p1 p2 w Hw Hslug Hn2 He2 Hp2 w1
    (r & Hr & Hs).
  split.
  - rewrite Hslug in Hr. by eapply onboard_conflict.
  - assert (Hk : keyed_by_id (registry w1))
      by (apply (reachable_keyed cfg); by constructor).
    intros k1 k2 r1 r2 H1 H2 E.
    assert (k1 = k2) as ->
      by (rewrite <- (Hk _ _ H1), <- (Hk _ _ H2); exact E).
    split; [reflexivity | congruence].
Qed.

Lemma second_onboard_conflicts_witness :
  Onboard Scenario.cfg0 Scenario.all_ok 2 (Js.of_string "acme corp")
    "b@acme.com" "silo" Scenario.acme_onboarded
  = (Scenario.acme_onboarded, Error ResourceConflict).
Proof.
  refine (proj1 (second_onboard_conflicts Scenario.cfg0 Scenario.all_ok
                   Scenario.all_ok 1 2 (Js.of_string "Acme Corp!")
                   (Js.of_string "acme corp") "a@acme.com" "b@acme.com"
                   "pooled" "silo" (empty_world Scenario.cluster0)
                   (reach_empty _ _) _ _ _ _ _)).
  - vm_compute. reflexivity.
  - discriminate.
  - reflexivity.
  - eexists. reflexivity.
  - eexists. split; [vm_compute; reflexivity | discriminate].
Defined.

(** *** Routing fragments *)



Lemma remove_routes_other (t : string) (svcs : list ApplicationServiceProps)
    (c : K8s.cluster) (k : K8s.key) :
  ~ In k (List.map (fragment_key t) svcs) -> RemoveRoutes t svcs c !! k = c !! k.
Proof.
  unfold RemoveRoutes. revert c.
  induction svcs as [|s svcs IH]; intros c Hk; simpl in *; [reflexivity|].
  rewrite IH by tauto. apply lookup_delete_ne. tauto.
Qed.

Lemma remove_routes_gone (t : string) (svcs : list ApplicationServiceProps)
    (c : K8s.cluster) (k : K8s.key) :
  In k (List.map (fragment_key t) svcs) -> RemoveRoutes t svcs c !! k = None.
Proof.
  unfold RemoveRoutes. revert c.
  induction svcs as [|s svcs IH]; intros c Hk; simpl in *; [contradiction|].
  destruct (decide (k ∈ List.map (fragment_key t) svcs)) as [Hin|Hnin];
    rewrite list_elem_of_In in *.
  - by apply IH.
  - destruct Hk as [<-|Hin]; [|contradiction].
    fold (RemoveRoutes t svcs (delete (fragment_key t s) c)).
    rewrite remove_routes_other by exact Hnin. apply lookup_delete_eq.
Qed.








(** The fragment [GenerateRoutes] describes for a service is the ingress
    the service's tenant-deploy build leaves in the tenant's namespace. *)
Lemma deployed_fragment_is_route_rule (tk0 : tokens)
    (svc : ApplicationServiceProps) (t : string) (c : K8s.cluster) :
  Shell.single_field t = true ->
  CodeBuild.cluster (tenant_deploy tk0 svc t c).2 !! fragment_key t svc
  = Some (K8s.Ingress (route_rule t svc)).
Proof.
  intros Ht. rewrite BuildFacts.tenant_deploy_cluster, Ht. cbn [negb].
  apply (BuildFacts.apply_tenant_objects tk0 svc t c).
Qed.

Lemma publish_insert_all (rules : list (K8s.key * K8s.ingress))
    (c : K8s.cluster) :
  publish rules c
  = K8s.insert_all (List.map (fun r => (r.1, K8s.Ingress r.2)) rules) c.
Proof.
  unfold publish, K8s.insert_all. revert c.
  induction rules as [|r rules IH]; intros c; simpl; [reflexivity|]. apply IH.
Qed.

(** Publishing the fragments of a tenant a second time changes nothing. *)
Lemma publish_idempotent (t : string) (svcs : list ApplicationServiceProps)
    (c : K8s.cluster) :
  publish (GenerateRoutes t svcs) (publish (GenerateRoutes t svcs) c)
  = publish (GenerateRoutes t svcs) c.
Proof. rewrite !publish_insert_all. apply BuildFacts.insert_all_idempotent. Qed.






(** C7.  [Deprovision] of an unknown tenant fails with [NotFound], of a
    [Deleted] one with [InvalidState]; on an [Active] tenant whose two
    stages succeed it removes the fragment of every service and the
    tenant-scoped data resource and sets the status [Deleted], after which a
    further [Deprovision] fails with [InvalidState]. *)
Theorem deprovision_errors_and_effect :
  forall (cfg : config) (o : deprovisioning_outcomes) (t : string) (w : world),
    (registry w !! t = None -> Deprovision cfg o t w = (w, Error NotFound))
    /\ (forall r,
          registry w !! t = Some r -> status r = Deleted ->
          Deprovision cfg o t w = (w, Error InvalidState))
    /\ (forall r,
          registry w !! t = Some r -> status r = Active ->
          remove_routes_ok o = true -> teardown_ok o = true ->
          let w' := (Deprovision cfg o t w).1 in
          (Deprovision cfg o t w).2 = Done t []
          /\ (forall s, In s (services cfg) ->
                        cluster w' !! fragment_key t s = None)
          /\ (resource_name t ∉ resources w')
          /\ (exists r', registry w' !! t = Some r' /\ status r' = Deleted)
          /\ forall o', Deprovision cfg o' t w' = (w', Error InvalidState)).
Proof.
  intros cfg o t w. split; [|split].
  - intros Hr. unfold Deprovision. by rewrite Hr.
  - intros r Hr Hs. unfold Deprovision. by rewrite Hr, Hs.
  - intros r Hr Hs Hrr Hto w'.
    assert (Hw' : w' = set_status t Deleted
                         {| registry := registry (set_status t Deprovisioning w);
                            cluster := RemoveRoutes t (services cfg) (cluster w);
                            resources := resources w ∖ {[ resource_name t ]};
                            identities := identities w;
                            deployments := deployments w |}
                  /\ (Deprovision cfg o t w).2 = Done t []).
    { unfold w', Deprovision. rewrite Hr, Hs, Hrr, Hto. split; reflexivity. }
    destruct Hw' as [Hw' Hres].
    assert (Hreg : registry w' !! t = Some (with_status Deleted
                                             (with_status Deprovisioning r))).
    { rewrite Hw'. cbn [set_status set_registry registry].
      rewrite !lookup_alter, !decide_True by reflexivity.
      by rewrite Hr. }
    split; [exact Hres|]. split; [|split; [|split]].
    + intros s Hs'. rewrite Hw'. cbn [set_status set_registry cluster].
      apply remove_routes_gone. by apply in_map.
    + rewrite Hw'. cbn [set_status set_registry resources].
      rewrite elem_of_difference. intros [_ Hn]. apply Hn.
      by apply elem_of_singleton.
    + eexists. split; [exact Hreg | reflexivity].
    + intros o'. unfold Deprovision. by rewrite Hreg.
Qed.

Lemma deprovision_errors_and_effect_witness :
  (Deprovision Scenario.cfg0 Scenario.removal_ok "acmecorp"
     Scenario.acme_onboarded).2 = Done "acmecorp" []
  /\ cluster (Deprovision Scenario.cfg0 Scenario.removal_ok "acmecorp"
                Scenario.acme_onboarded).1
     !! ("acmecorp", ("Ingress", "product-service-ingress")) = None
  /\ cluster (Deprovision Scenario.cfg0 Scenario.removal_ok "acmecorp"
                Scenario.acme_onboarded).1
     !! ("acmecorp", ("Ingress", "order-service-ingress")) = None
  /\ Deprovision Scenario.cfg0 Scenario.removal_ok "acmecorp"
       (Deprovision Scenario.cfg0 Scenario.removal_ok "acmecorp"
          Scenario.acme_onboarded).1
     = ((Deprovision Scenario.cfg0 Scenario.removal_ok "acmecorp"
           Scenario.acme_onboarded).1, Error InvalidState).
Proof.
  pose proof (deprovision_errors_and_effect Scenario.cfg0 Scenario.removal_ok
                "acmecorp" Scenario.acme_onboarded) as (_ & _ & H).
  assert (Hr : exists r, registry Scenario.acme_onboarded !! "acmecorp" = Some r
                         /\ status r = Active)
    by (eexists; split; vm_compute; reflexivity).
  destruct Hr as (r & Hr & Hs).
  destruct (H r Hr Hs eq_refl eq_refl) as (H1 & H2 & _ & _ & H5).
  split; [exact H1|]. split; [|split].
  - apply (H2 (productSvc Scenario.overlay0 Scenario.props0)). cbn. auto.
  - apply (H2 (orderSvc Scenario.overlay0 Scenario.props0)). cbn. auto.
  - apply H5.
Defined.

End LifecycleFacts.

(** ** The auth interceptor *)

Module AuthInterceptorFacts.
Import AuthInterceptor.

Lemma getAll_set_same (name value : string) (h : HttpHeaders) :
  getAll name (set name value h) = Some [value].
Proof. unfold getAll, set. cbn. apply lookup_insert_eq. Qed.

Lemma getAll_set_other (name other value : string) (h : HttpHeaders) :
  Shell.tolower other <> Shell.tolower name ->
  getAll other (set name value h) = getAll other h.
Proof.
  intros Hne. unfold getAll, set. cbn. apply lookup_insert_ne. congruence.
Qed.

Lemma same_but_header_refl {Body Params Ctx : Type} (name : string)
    (r : @HttpRequest Body Params Ctx) :
  same_but_header name r r.
Proof. unfold same_but_header. repeat split. Qed.

(** C9.  The request handed to [next.handle] is the original one when the
    token is missing or empty or the URL contains "amazoncognito"; otherwise
    it agrees with the original in method, URL, body, parameters, context,
    flags and every header other than [Authorization], and its
    [Authorization] header is the single value "Bearer " followed by the
    token. *)
Theorem intercept_sets_only_authorization :
  forall (Body Params Ctx : Type) (token : option string)
         (req : @HttpRequest Body Params Ctx),
  exists req' : @HttpRequest Body Params Ctx,
    (forall (R : Type) (next : @HttpRequest Body Params Ctx -> R),
        intercept token req next = next req')
    /\ same_but_header "Authorization" req req'
    /\ if not_token token || includes (url req) "amazoncognito"
       then req' = req
       else exists t, token = Some t /\ t <> ""
                      /\ getAll "Authorization" (headers req')
                         = Some ["Bearer " +:+ t]
                      /\ get "Authorization" (headers req')
                         = Some ("Bearer " +:+ t).
Proof.
  intros Body Params Ctx token req. unfold intercept.
  destruct (not_token token || includes (url req) "amazoncognito") eqn:E.
  - exists req. split; [reflexivity|]. split; [apply same_but_header_refl|].
    reflexivity.
  - eexists. split; [reflexivity|]. split.
    + unfold same_but_header. cbn [clone_headers method url body headers params
                                    context reportProgress responseType
                                    withCredentials].
      repeat split. intros other Hne. by apply getAll_set_other.
    + apply orb_false_iff in E as [Ht _].
      destruct token as [t|]; [|discriminate]. exists t.
      cbn [not_token] in Ht. cbn [clone_headers headers default].
      split; [reflexivity|]. split.
      * intros ->. discriminate.
      * unfold get. rewrite getAll_set_same. split; reflexivity.
Qed.

End AuthInterceptorFacts.

(** ** The order totals *)

Module OrdersDetailFacts.
Import OrdersDetail.

(** [.0899] is the correctly rounded quotient of 899 and 10000. *)
Lemma taxRate_literal :
  taxRate = SFdiv prec emax (of_Z 899) (of_Z 10000).
Proof. vm_compute. reflexivity. Qed.

(** Appending an item to a non-empty order adds its product to the
    subtotal. *)
Lemma subTotal_snoc (ops : list OrderProduct) (op : OrderProduct) :
  ops <> [] ->
  subTotal {| orderProduct := ops ++ [op] |}
  = bind (subTotal {| orderProduct := ops |})
      (fun s => Return (add s (mul (price op) (quantity op)))).
Proof.
  intros Hne. unfold subTotal. cbn [orderProduct].
  destruct ops as [|op0 ops]; [contradiction|].
  cbn [List.map app reduce bind].
  rewrite List.map_app, fold_left_app. reflexivity.
Qed.

Lemma subTotal_snoc_witness :
  subTotal {| orderProduct :=
                [ {| price := of_Z 3; quantity := of_Z 1 |} ]
                ++ [ {| price := of_Z 2; quantity := of_Z 2 |} ] |}
  = Return (of_Z 7).
Proof.
  rewrite subTotal_snoc by discriminate. vm_compute. reflexivity.
Defined.

(** C10, as amended.  For an order with items [op :: ops] the subtotal is
    the binary64 sum, taken from the first item on, of the products price
    times quantity; the tax is that subtotal times 0.0899 and the final
    amount is the subtotal plus the tax.  For an order without items
    [subTotal], [calcTax] and [final] all throw a [TypeError]. *)
Theorem subTotal_and_final :
  forall order : Order,
    match orderProduct order with
    | [] =>
        subTotal order = Throw TypeError
        /\ calcTax order = Throw TypeError
        /\ final order = Throw TypeError
    | op :: ops =>
        let s := List.fold_left add
                   (List.map (fun p => mul (price p) (quantity p)) ops)
                   (mul (price op) (quantity op)) in
        subTotal order = Return s
        /\ calcTax order = Return (mul s taxRate)
        /\ final order = Return (add s (mul s taxRate))
    end.
Proof.
  intros [ops]. cbn [orderProduct].
  destruct ops as [|op ops]; repeat split.
Qed.

(** C10, the claim as worded fails: for one item of price 3 and quantity 1
    the final amount is 3.2696999999999998, while the subtotal times
    (1 + 0.0899) is 3.2697000000000003. *)
Lemma final_is_not_the_product :
  let order := {| orderProduct := [ {| price := of_Z 3; quantity := of_Z 1 |} ] |} in
  subTotal order = Return (of_Z 3)
  /\ final order = Return (S754_finite false 7362709850806655 (-51))
  /\ final_as_worded order = Return (S754_finite false 7362709850806656 (-51))
  /\ final order <> final_as_worded order.
Proof.
  cbv zeta. split; [vm_compute; reflexivity|].
  split; [vm_compute; reflexivity|].
  split; [vm_compute; reflexivity|].
  vm_compute. discriminate.
Qed.

End OrdersDetailFacts.

(** ** The tenant URL and the registration form *)

Module RegisterFacts.
Import Js RegisterComponent.

(** The slug works code unit by code unit. *)
Lemma tenantId_app (a b : js_string) :
  tenantId (a ++ b) = tenantId a ++ tenantId b.
Proof.
  rewrite !SlugFacts.tenantId_filter. unfold toLowerCase.
  rewrite List.filter_app, List.map_app. reflexivity.
Qed.

Lemma tenantId_nil_iff (cn : js_string) :
  tenantId cn = [] <-> List.Forall (fun c => is_word c = false) cn.
Proof.
  rewrite SlugFacts.tenantId_filter. unfold toLowerCase.
  induction cn as [|c cn IH]; simpl.
  - split; [constructor | reflexivity].
  - destruct (is_word c) eqn:Hw; simpl.
    + split; [discriminate|]. intros H. inversion H; congruence.
    + rewrite IH. split; [by constructor | by inversion 1].
Qed.

(** In one deployment two company names get the same tenant URL exactly
    when they get the same tenant id. *)
Theorem same_url_iff_same_id (env : environment) (a b : js_string) :
  getTenantUrl env a = getTenantUrl env b <-> tenantId a = tenantId b.
Proof.
  split; [|intros E; unfold getTenantUrl; rewrite E; reflexivity].
  unfold getTenantUrl. destruct (usingCustomDomain env); intros H.
  - apply List.app_inv_head in H. by apply List.app_inv_tail in H.
  - do 3 apply List.app_inv_head in H. by apply List.app_inv_tail in H.
Qed.

(** A company name without an ASCII letter, an ASCII digit or an
    underscore, and only such a name, has the empty tenant id ([\w] is
    ASCII: a name of accented letters alone has the empty id too); its URL
    has an empty host label or an empty path segment. *)
Theorem empty_id_iff_no_word_unit (env : environment) (cn : js_string) :
  (tenantId cn = [] <-> List.Forall (fun c => is_word c = false) cn)
  /\ (tenantId cn = [] ->
      getTenantUrl env cn
      = if usingCustomDomain env
        then of_string "https://." ++ domain env ++ of_string "/"
        else of_string "https://" ++ domain env ++ of_string "//").
Proof.
  split; [apply tenantId_nil_iff|].
  intros E. unfold getTenantUrl. rewrite E.
  destruct (usingCustomDomain env); reflexivity.
Qed.

(** A code unit outside [A-Za-z0-9_], put anywhere into a company name,
    does not change the tenant id. *)
Theorem tenantId_ignores_non_word (a b : js_string) (c : code_unit) :
  is_word c = false -> tenantId (a ++ c :: b) = tenantId (a ++ b).
Proof.
  intros Hc. rewrite !tenantId_app. f_equal.
  rewrite !SlugFacts.tenantId_filter. simpl. by rewrite Hc.
Qed.

Lemma tenantId_ignores_non_word_witness :
  is_word 45 = false
  /\ tenantId (of_string "Acme" ++ 45%N :: of_string "Corp")
     = tenantId (of_string "Acme" ++ of_string "Corp").
Proof.
  split; [reflexivity|].
  apply (tenantId_ignores_non_word (of_string "Acme") (of_string "Corp") 45%N).
  reflexivity.
Defined.

(** *** [onSubmit] *)

Lemma react_flags (apiUrl : js_string) (env : environment) (c : component)
    (e : event) :
  success c && error c = false ->
  success (react apiUrl env c e) && error (react apiUrl env c e) = false.
Proof. destruct e; simpl; auto. Qed.

Lemma after_snoc (apiUrl : js_string) (env : environment) (es : list event)
    (e : event) :
  after apiUrl env (es ++ [e]) = react apiUrl env (after apiUrl env es) e.
Proof. unfold after. by rewrite fold_left_app. Qed.

Lemma posted_length (apiUrl : js_string) (env : environment)
    (es : list event) :
  length (posted (after apiUrl env es)) = length (List.filter is_submit es).
Proof.
  induction es as [|e es IH] using rev_ind; [reflexivity|].
  rewrite after_snoc, List.filter_app, length_app.
  destruct e; simpl; rewrite ?length_app; simpl; lia.
Qed.

(** Whatever the order of submissions, answers and failures, the component
    never shows success and error together; [submitting] tells whether the
    last thing that happened was a submission, so an answer to one request
    clears it while a later request is still under way; every submission
    posts one request, to [apiUrl/register], whose [customDomain] is the
    deployment's domain whatever the form held under that name. *)
Theorem submit_flags (apiUrl : js_string) (env : environment)
    (es : list event) :
  let c := after apiUrl env es in
  success c && error c = false
  /\ submitting c = match last es with
                    | Some e => is_submit e
                    | None => false
                    end
  /\ (match last es with
      | Some Answered => success c = true /\ error c = false
      | Some Errored => success c = false /\ error c = true
      | _ => True
      end)
  /\ length (posted c) = length (List.filter is_submit es)
  /\ List.Forall
       (fun r => r.1 = apiUrl ++ of_string "/register"
                 /\ r.2 !! "customDomain" = Some (Some (domain env)))
       (posted c).
Proof.
  cbv zeta. split; [|split; [|split; [|split]]].
  - induction es as [|e es IH] using rev_ind; [reflexivity|].
    rewrite after_snoc. by apply react_flags.
  - destruct es as [|e0 es] using rev_ind; [reflexivity|].
    rewrite after_snoc, last_snoc. by destruct e0.
  - destruct es as [|e0 es] using rev_ind; [exact I|].
    rewrite after_snoc, last_snoc. destruct e0; simpl; auto.
  - apply posted_length.
  - induction es as [|e es IH] using rev_ind; [constructor|].
    rewrite after_snoc. destruct e; simpl; try exact IH.
    apply Forall_app. split; [exact IH|].
    constructor; [|constructor]. simpl. split; [reflexivity|].
    apply lookup_insert_eq.
Qed.

End RegisterFacts.

(** ** Order totals and [NaN] *)

Module OrderLineFacts.
Import OrdersDetail.

Lemma add_nan_r (x : number) : add x S754_nan = S754_nan.
Proof. by destruct x. Qed.

Lemma mul_nan_r (x : number) : mul x S754_nan = S754_nan.
Proof. by destruct x. Qed.

Lemma fold_add_nan (l : list number) :
  List.fold_left add l S754_nan = S754_nan.
Proof. induction l as [|x l IH]; [reflexivity|]. exact IH. Qed.

Lemma fold_add_poisoned (l : list number) (acc : number) :
  List.Exists (fun x => x = S754_nan) l ->
  List.fold_left add l acc = S754_nan.
Proof.
  intros H. revert acc. induction H as [x l Hx | x l _ IH]; intros acc; simpl.
  - rewrite Hx, add_nan_r. apply fold_add_nan.
  - apply IH.
Qed.

(** One item whose price or quantity is [NaN] makes the subtotal, the tax
    and the final amount of the whole order [NaN]. *)
Theorem nan_item_poisons_order (order : Order) :
  List.Exists (fun op => price op = S754_nan \/ quantity op = S754_nan)
    (orderProduct order) ->
  subTotal order = Return S754_nan
  /\ calcTax order = Return S754_nan
  /\ final order = Return S754_nan.
Proof.
  intros H.
  assert (Hs : subTotal order = Return S754_nan).
  { unfold subTotal.
    assert (Hm : List.Exists (fun x => x = S754_nan)
                   (List.map (fun op => mul (price op) (quantity op))
                      (orderProduct order))).
    { induction H as [op l [Hp|Hq] | op l _ IH]; simpl.
      - left. by rewrite Hp.
      - left. rewrite Hq. apply mul_nan_r.
      - right. exact IH. }
    destruct (List.map _ (orderProduct order)) as [|x l]; [inversion Hm|].
    simpl. f_equal. inversion Hm as [? ? Hx | ? ? Hl]; subst.
    + apply fold_add_nan.
    + by apply fold_add_poisoned. }
  split; [exact Hs|]. unfold final, calcTax. rewrite Hs. simpl. auto.
Qed.

Lemma nan_item_poisons_order_witness :
  final {| orderProduct :=
             [ {| price := of_Z 3; quantity := of_Z 1 |};
               {| price := S754_nan; quantity := of_Z 2 |} ] |}
  = Return S754_nan.
Proof.
  apply (nan_item_poisons_order
           {| orderProduct :=
                [ {| price := of_Z 3; quantity := of_Z 1 |};
                  {| price := S754_nan; quantity := of_Z 2 |} ] |}).
  right. left. left. reflexivity.
Defined.

End OrderLineFacts.

(** ** The on-commit build *)

Module CommitFacts.
Import Shell CodeBuild Cdk OnCommit.

(** The loop is the text the construct writes, up to the blanks of its
    continuation lines. *)
Lemma rollout_loop_text :
  render_line (ForIn "res" tenant_namespaces rollout_body)
  = "for res in `kubectl get ns -l saas/tenant=true -o jsonpath=" +:+ squote
    +:+ "{.items[*].metadata.name}" +:+ squote +:+ "`; do "
    +:+ "cp kubernetes/svc-acc-patch-template.yaml kubernetes/svc-acc-patch.yaml && "
    +:+ "cp kubernetes/path-patch-template.yaml kubernetes/path-patch.yaml && "
    +:+ "echo " +:+ dquote +:+ "  value: $res-service-account" +:+ dquote
    +:+ " >> kubernetes/svc-acc-patch.yaml && "
    +:+ "echo " +:+ dquote +:+ "  value: /$res/$SERVICE_URL_PREFIX" +:+ dquote
    +:+ " >> kubernetes/path-patch.yaml && "
    +:+ "kubectl apply -k kubernetes/ -n $res && "
    +:+ "rm kubernetes/path-patch.yaml && rm kubernetes/svc-acc-patch.yaml; done".
Proof. reflexivity. Qed.

(** *** Field splitting *)

Lemma fields_cons (c : ascii) (s' : string) :
  fields (String c s')
  = if is_ifs c then fields s'
    else match s' with
         | EmptyString => [String c EmptyString]
         | String c' _ =>
             if is_ifs c' then String c EmptyString :: fields s'
             else match fields s' with
                  | w :: ws => String c w :: ws
                  | [] => [String c EmptyString]
                  end
         end.
Proof. reflexivity. Qed.

Lemma single_field_cons (c : ascii) (w : string) :
  is_ifs c = false -> no_ifs w = true -> single_field (String c w) = true.
Proof.
  intros Hc Hw. unfold single_field. cbn [String.eqb no_ifs negb andb].
  by rewrite Hc, Hw.
Qed.

Lemma single_field_no_ifs (w : string) :
  single_field w = true -> no_ifs w = true.
Proof. unfold single_field. by intros [_ H]%andb_true_iff. Qed.

(** Every field is one word. *)
Lemma fields_words (s : string) :
  List.Forall (fun w => single_field w = true) (fields s).
Proof.
  induction s as [|c s IH]; [constructor|].
  rewrite fields_cons. destruct (is_ifs c) eqn:Hc; [exact IH|].
  destruct s as [|c' s'].
  - constructor; [by apply single_field_cons | constructor].
  - destruct (is_ifs c') eqn:Hc'.
    + constructor; [by apply single_field_cons | exact IH].
    + destruct (fields (String c' s')) as [|w ws].
      * constructor; [by apply single_field_cons | constructor].
      * inversion IH as [|? ? Hw Hws]; subst.
        constructor; [|exact Hws].
        apply single_field_cons; [exact Hc | by apply single_field_no_ifs].
Qed.

Lemma fields_word (w : string) :
  single_field w = true -> fields w = [w].
Proof.
  intros [Hne Hw]%andb_true_iff.
  destruct w as [|c w]; [discriminate|]. clear Hne.
  revert c Hw. induction w as [|c' w IH]; intros c Hw.
  - rewrite fields_cons. cbn [no_ifs] in Hw.
    apply andb_true_iff in Hw as [Hc _]. apply negb_true_iff in Hc.
    by rewrite Hc.
  - rewrite fields_cons. cbn [no_ifs] in Hw.
    apply andb_true_iff in Hw as [Hc Hw]. apply negb_true_iff in Hc.
    rewrite Hc. pose proof Hw as Hw'. cbn [no_ifs] in Hw'.
    apply andb_true_iff in Hw' as [Hc' _]. apply negb_true_iff in Hc'.
    rewrite Hc'. by rewrite (IH c' Hw).
Qed.

Lemma fields_word_blank (w rest : string) :
  single_field w = true ->
  fields (w +:+ String " " rest) = w :: fields rest.
Proof.
  intros [Hne Hw]%andb_true_iff.
  destruct w as [|c w]; [discriminate|]. clear Hne.
  revert c Hw. induction w as [|c' w IH]; intros c Hw.
  - change (String c "" +:+ String " " rest) with (String c (String " " rest)).
    rewrite fields_cons. cbn [no_ifs] in Hw.
    apply andb_true_iff in Hw as [Hc _]. apply negb_true_iff in Hc.
    rewrite Hc. change (is_ifs " ") with true. cbv iota.
    by rewrite (fields_cons " " rest).
  - change (String c (String c' w) +:+ String " " rest)
      with (String c (String c' (w +:+ String " " rest))).
    rewrite fields_cons. cbn [no_ifs] in Hw.
    apply andb_true_iff in Hw as [Hc Hw]. apply negb_true_iff in Hc.
    rewrite Hc. pose proof Hw as Hw'. cbn [no_ifs] in Hw'.
    apply andb_true_iff in Hw' as [Hc' _]. apply negb_true_iff in Hc'.
    rewrite Hc'.
    change (String c' (w +:+ String " " rest))
      with (String c' w +:+ String " " rest).
    by rewrite (IH c' Hw).
Qed.

(** The loop visits the namespaces the query prints, in their order: names
    that are single words, printed with blanks between them, are split
    into these names again. *)
Theorem fields_of_joined_names (names : list string) :
  List.Forall (fun w => single_field w = true) names ->
  fields (join " " names) = names.
Proof.
  induction 1 as [|w names Hw _ IH]; [reflexivity|].
  destruct names as [|w' names'].
  - by apply fields_word.
  - change (join " " (w :: w' :: names'))
      with (w +:+ String " " (join " " (w' :: names'))).
    rewrite fields_word_blank by exact Hw. by rewrite IH.
Qed.

Lemma fields_of_joined_names_witness :
  fields "acmecorp globex" = ["acmecorp"; "globex"].
Proof.
  apply (fields_of_joined_names ["acmecorp"; "globex"]).
  repeat constructor.
Defined.

(** *** The loop *)

Ltac lookup_files :=
  repeat first [ rewrite lookup_insert_eq
               | rewrite lookup_insert_ne by done
               | rewrite lookup_delete_ne by done ].

(** One round of the loop for a namespace that is one word, from any state
    in which the four echo lines before the loop have run. *)
Lemma rollout_round (a : assets) (s : state) (v u tag h p : string)
    (kl hl ppt sat : list string) :
  single_field v = true ->
  vars s !! "SERVICE_URL_PREFIX" = Some p ->
  files s !! "kubernetes/kustomization.yaml" = Some kl ->
  files s !! "kubernetes/host-patch.yaml" = Some hl ->
  files s !! "kubernetes/path-patch-template.yaml" = Some ppt ->
  files s !! "kubernetes/svc-acc-patch-template.yaml" = Some sat ->
  yaml_field "newName" kl = Some u ->
  yaml_field "newTag" kl = Some tag ->
  yaml_field "value" hl = Some h ->
  exists s',
    and_list a rollout_body (set_vars <[ "res" := v ]> s) = (true, s')
    /\ vars s' !! "SERVICE_URL_PREFIX" = Some p
    /\ files s' !! "kubernetes/kustomization.yaml" = Some kl
    /\ files s' !! "kubernetes/host-patch.yaml" = Some hl
    /\ files s' !! "kubernetes/path-patch-template.yaml" = Some ppt
    /\ files s' !! "kubernetes/svc-acc-patch-template.yaml" = Some sat
    /\ started s' = started s /\ cdk s' = cdk s
    /\ cluster s' =
         apply_all v
           [ ("Deployment", app a,
               K8s.Deployment (v +:+ "-service-account") (u +:+ ":" +:+ tag)
                 (containerPort a));
             ("Service", service_name a,
               K8s.Service (app a) (service_port a) (containerPort a));
             ("Ingress", ingress_name a,
               K8s.Ingress
                 {| K8s.mergeable_ingress_type := K8s.minion;
                    K8s.host := h;
                    K8s.paths :=
                      [ {| K8s.path := "/" +:+ v +:+ "/" +:+ p;
                           K8s.backend_service := service_name a;
                           K8s.backend_port := service_port a |} ] |}) ]
           (cluster s).
Proof.
  destruct s as [vs f c st k]. cbn [vars files cluster started cdk].
  intros Hv Hp Hkl Hhl Hppt Hsat Hu Htag Hh.
  unfold rollout_body.
  repeat (cbn [and_list exec_step exec set_vars set_files set_cluster vars
               files cluster started cdk expand expand_part fold_right default
               mbind option_bind];
          lookup_files;
          rewrite ?Hp, ?Hppt, ?Hsat, ?BuildFacts.append_empty_r).
  unfold id. rewrite Hv. cbn [andb String.eqb Ascii.eqb Bool.eqb].
  erewrite BuildFacts.kustomize_files;
    [ | lookup_files; first [reflexivity | eassumption] ..
      | exact Hh
      | apply BuildFacts.yaml_field_snoc_hit; reflexivity
      | apply BuildFacts.yaml_field_snoc_hit; reflexivity
      | exact Hu
      | exact Htag ].
  repeat (cbn [and_list exec_step exec set_vars set_files set_cluster vars
               files cluster started cdk mbind option_bind];
          lookup_files).
  eexists. split; [reflexivity|].
  cbn [set_cluster set_files set_vars vars files cluster started cdk].
  lookup_files. rewrite Hp, Hkl, Hhl, Hppt, Hsat. repeat split.
Qed.

Lemma rollout_loop (tk : tokens) (svc : ApplicationServiceProps) (tag : string)
    (kl hl ppt sat : list string) (vals : list string) :
  List.Forall (fun w => single_field w = true) vals ->
  yaml_field "newName" kl = Some (repositoryUri tk (ecrImageName svc)) ->
  yaml_field "newTag" kl = Some tag ->
  yaml_field "value" hl = Some (tolower (internalApiDomain svc)) ->
  forall s : state,
    vars s !! "SERVICE_URL_PREFIX" = Some (serviceUrlPrefix svc) ->
    files s !! "kubernetes/kustomization.yaml" = Some kl ->
    files s !! "kubernetes/host-patch.yaml" = Some hl ->
    files s !! "kubernetes/path-patch-template.yaml" = Some ppt ->
    files s !! "kubernetes/svc-acc-patch-template.yaml" = Some sat ->
    exists s',
      for_in (assetDirectory svc) "res" rollout_body vals true s = (true, s')
      /\ started s' = started s /\ cdk s' = cdk s
      /\ cluster s' = rollout tk svc tag vals (cluster s).
Proof.
  intros Hvals Hu Htag Hh.
  induction Hvals as [|v vals Hv _ IH]; intros s Hp Hkl Hhl Hppt Hsat.
  - exists s. repeat split.
  - destruct (rollout_round (assetDirectory svc) s v _ _ _ _ kl hl ppt sat
                Hv Hp Hkl Hhl Hppt Hsat Hu Htag Hh)
      as (s1 & Hrun & Hp1 & Hkl1 & Hhl1 & Hppt1 & Hsat1 & Hst1 & Hcdk1 & Hc1).
    destruct (IH s1 Hp1 Hkl1 Hhl1 Hppt1 Hsat1) as (s' & Hfor & Hst & Hcdk & Hc).
    exists s'. cbn [for_in]. rewrite Hrun. cbn [fst snd].
    split; [exact Hfor|]. split; [congruence|]. split; [congruence|].
    rewrite Hc, Hc1. reflexivity.
Qed.

(** The on-commit build succeeds, starts no build and asks nothing of the
    CDK; it applies the service's objects, with the image of the commit, in
    the namespaces the query prints, one after the other. *)
Lemma on_commit_spec (tk : tokens) (answer : string -> string)
    (svc : ApplicationServiceProps) (commit : string) (c : K8s.cluster) :
  (on_commit tk answer svc commit c).1 = true
  /\ started (on_commit tk answer svc commit c).2 = []
  /\ cdk (on_commit tk answer svc commit c).2 = []
  /\ cluster (on_commit tk answer svc commit c).2
     = rollout tk svc commit (fields (answer tenant_namespaces)) c.
Proof.
  unfold on_commit, start_build', run_phases'.
  cbn [eksDeployProject install' pre_build' build' post_build'
       environmentVariables' install_kubectl List.map run_lines exec_line
       exec_step exec negb fst snd set_vars set_files vars files cluster
       started cdk expand expand_part fold_right override fold_left default].
  lookup_files.
  cbn [default]. rewrite ?BuildFacts.append_empty_r. unfold checkout.
  lookup_files. cbn [default].
  match goal with
  | |- context [for_in _ "res" rollout_body ?vals true ?s] =>
      destruct (rollout_loop tk svc commit
                  ((kustomization (assetDirectory svc)
                    ++ ["  newName: " +:+ repositoryUri tk (ecrImageName svc)])
                   ++ ["  newTag: " +:+ commit])
                  (host_patch (assetDirectory svc)
                   ++ ["  value: " +:+ tolower (internalApiDomain svc)])
                  (path_patch_template (assetDirectory svc))
                  (svc_acc_patch_template (assetDirectory svc))
                  vals (fields_words _)) with s
        as (s' & Hfor & Hst & Hcdk & Hc)
  end.
  - rewrite BuildFacts.yaml_field_snoc_miss by reflexivity.
    apply BuildFacts.yaml_field_snoc_hit. reflexivity.
  - apply BuildFacts.yaml_field_snoc_hit. reflexivity.
  - apply BuildFacts.yaml_field_snoc_hit. reflexivity.
  - cbn [vars]. lookup_files. reflexivity.
  - cbn [files]. lookup_files. reflexivity.
  - cbn [files]. lookup_files. reflexivity.
  - cbn [files]. lookup_files. reflexivity.
  - cbn [files]. lookup_files. reflexivity.
  - rewrite Hfor. cbn [fst snd andb]. repeat split; assumption.
Qed.

(** *** What the build leaves in the cluster *)

Lemma rollout_snoc (tk : tokens) (svc : ApplicationServiceProps)
    (tag : string) (nss : list string) (v : string) (c : K8s.cluster) :
  rollout tk svc tag (nss ++ [v]) c
  = apply_all v (rollout_objects tk svc tag v) (rollout tk svc tag nss c).
Proof. unfold rollout. by rewrite fold_left_app. Qed.

Lemma rollout_elsewhere (tk : tokens) (svc : ApplicationServiceProps)
    (tag : string) (nss : list string) (c : K8s.cluster) (k : K8s.key) :
  ~ In (K8s.namespace_of k) nss -> rollout tk svc tag nss c !! k = c !! k.
Proof.
  induction nss as [|v nss IH] using rev_ind; intros Hk; [reflexivity|].
  rewrite rollout_snoc, BuildFacts.apply_all_namespace.
  - apply IH. intros Hin. apply Hk, in_or_app. by left.
  - intros E. apply Hk, in_or_app. right. left. by symmetry.
Qed.

Lemma apply_all_lookup (ns : string)
    (os : list (string * string * K8s.object)) (c : K8s.cluster)
    (k : K8s.key) :
  apply_all ns os c !! k
  = match apply_all ns os ∅ !! k with
    | Some o => Some o
    | None => c !! k
    end.
Proof.
  rewrite !BuildFacts.apply_all_insert_all. apply BuildFacts.lookup_insert_all.
Qed.

(** In a listed namespace the cluster holds what one round of the loop
    applies there. *)
Lemma rollout_listed (tk : tokens) (svc : ApplicationServiceProps)
    (tag : string) (nss : list string) (c : K8s.cluster) (ns : string)
    (kn : string * string) :
  In ns nss ->
  rollout tk svc tag nss c !! (ns, kn)
  = apply_all ns (rollout_objects tk svc tag ns) c !! (ns, kn).
Proof.
  induction nss as [|v nss IH] using rev_ind; intros Hin; [destruct Hin|].
  rewrite rollout_snoc.
  destruct (string_dec v ns) as [->|Hne].
  - rewrite apply_all_lookup.
    rewrite (apply_all_lookup ns (rollout_objects tk svc tag ns) c).
    destruct (apply_all ns (rollout_objects tk svc tag ns) ∅ !! (ns, kn))
      as [o|] eqn:E; [reflexivity|].
    destruct (in_dec string_dec ns nss) as [Hin'|Hnin].
    + rewrite (IH Hin'), apply_all_lookup, E. reflexivity.
    + by apply rollout_elsewhere.
  - rewrite BuildFacts.apply_all_namespace by (cbn; congruence).
    apply IH. apply in_app_or in Hin as [Hin|[E|[]]]; [exact Hin|contradiction].
Qed.

Lemma rollout_objects_found (tk : tokens) (svc : ApplicationServiceProps)
    (tag ns : string) (c : K8s.cluster) :
  let a := assetDirectory svc in
  let c' := apply_all ns (rollout_objects tk svc tag ns) c in
  c' !! (ns, ("Ingress", ingress_name a))
  = Some (K8s.Ingress
            {| K8s.mergeable_ingress_type := K8s.minion;
               K8s.host := tolower (internalApiDomain svc);
               K8s.paths :=
                 [ {| K8s.path := "/" +:+ ns +:+ "/" +:+ serviceUrlPrefix svc;
                      K8s.backend_service := service_name a;
                      K8s.backend_port := service_port a |} ] |})
  /\ c' !! (ns, ("Service", service_name a))
     = Some (K8s.Service (app a) (service_port a) (containerPort a))
  /\ c' !! (ns, ("Deployment", app a))
     = Some (K8s.Deployment (ns +:+ "-service-account")
               (repositoryUri tk (ecrImageName svc) +:+ ":" +:+ tag)
               (containerPort a)).
Proof.
  cbn. unfold K8s.apply. cbn.
  repeat split; BuildFacts.lookup_inserts; reflexivity.
Qed.


(** In every namespace the query lists, the on-commit build of a service
    leaves the service's ingress with the one path [/namespace/prefix] on
    the lower-cased API host, its Service, and its Deployment under the
    namespace's service account with the image tagged by the commit; the
    build succeeds. *)
Theorem on_commit_rolls_out (tk : tokens) (answer : string -> string)
    (svc : ApplicationServiceProps) (commit : string) (c : K8s.cluster)
    (res : string) :
  In res (fields (answer tenant_namespaces)) ->
  let a := assetDirectory svc in
  let b := on_commit tk answer svc commit c in
  b.1 = true
  /\ cluster b.2 !! (res, ("Ingress", ingress_name a))
     = Some (K8s.Ingress
               {| K8s.mergeable_ingress_type := K8s.minion;
                  K8s.host := tolower (internalApiDomain svc);
                  K8s.paths :=
                    [ {| K8s.path := "/" +:+ res +:+ "/" +:+ serviceUrlPrefix svc;
                         K8s.backend_service := service_name a;
                         K8s.backend_port := service_port a |} ] |})
  /\ cluster b.2 !! (res, ("Service", service_name a))
     = Some (K8s.Service (app a) (service_port a) (containerPort a))
  /\ cluster b.2 !! (res, ("Deployment", app a))
     = Some (K8s.Deployment (res +:+ "-service-account")
               (repositoryUri tk (ecrImageName svc) +:+ ":" +:+ commit)
               (containerPort a)).
Proof.
  intros Hin a b.
  destruct (on_commit_spec tk answer svc commit c) as (Hok & _ & _ & Hc).
  fold b in Hok, Hc. split; [exact Hok|].
  rewrite Hc, !(rollout_listed tk svc commit _ c res _ Hin).
  apply rollout_objects_found.
Qed.

Lemma on_commit_rolls_out_witness :
  In "globex" (fields "acmecorp globex")
  /\ cluster (on_commit Scenario.tokens0 (fun _ => "acmecorp globex")
                (orderSvc Scenario.overlay0 Scenario.props0) "4f2a9c1"
                Scenario.cluster0).2
     !! ("globex", ("Ingress", "order-service-ingress"))
     = Some (K8s.Ingress
               {| K8s.mergeable_ingress_type := K8s.minion;
                  K8s.host := "api.example.com";
                  K8s.paths :=
                    [ {| K8s.path := "/globex/orders";
                         K8s.backend_service := "order-service";
                         K8s.backend_port := 80 |} ] |}).
Proof.
  assert (H : In "globex" (fields "acmecorp globex"))
    by (right; left; reflexivity).
  split; [exact H|].
  exact (proj1 (proj2 (on_commit_rolls_out Scenario.tokens0
                         (fun _ => "acmecorp globex")
                         (orderSvc Scenario.overlay0 Scenario.props0)
                         "4f2a9c1" Scenario.cluster0 "globex" H))).
Defined.

(** The on-commit build changes nothing outside the namespaces the query
    lists: every object of another namespace, the primary ingress of the
    default namespace among them when that is not labelled as a tenant's,
    is as before. *)
Theorem on_commit_elsewhere (tk : tokens) (answer : string -> string)
    (svc : ApplicationServiceProps) (commit : string) (c : K8s.cluster)
    (k : K8s.key) :
  ~ In (K8s.namespace_of k) (fields (answer tenant_namespaces)) ->
  cluster (on_commit tk answer svc commit c).2 !! k = c !! k.
Proof.
  intros Hk.
  destruct (on_commit_spec tk answer svc commit c) as (_ & _ & _ & Hc).
  rewrite Hc. by apply rollout_elsewhere.
Qed.

Lemma on_commit_elsewhere_witness :
  cluster (on_commit Scenario.tokens0 (fun _ => "acmecorp globex")
             (orderSvc Scenario.overlay0 Scenario.props0) "4f2a9c1"
             Scenario.cluster0).2 !! master_key
  = Scenario.cluster0 !! master_key.
Proof.
  apply (on_commit_elsewhere Scenario.tokens0 (fun _ => "acmecorp globex")
           (orderSvc Scenario.overlay0 Scenario.props0) "4f2a9c1"
           Scenario.cluster0 master_key).
  intros [E|[E|[]]]; discriminate E.
Defined.



End CommitFacts.

(** ** The static sites *)

Module StaticSitesFacts.
Import StaticSites.

Lemma of_string_app (a b : string) :
  Js.of_string (a +:+ b) = Js.of_string a ++ Js.of_string b.
Proof.
  unfold Js.of_string. induction a as [|c a IH]; [reflexivity|].
  change (String c a +:+ b) with (String c (a +:+ b)).
  cbn [list_ascii_of_string List.map app]. by rewrite IH.
Qed.

(** The three sites of a stack whose own check passes. *)
Lemma stack_sites (distribution : string -> string) (resources : Cognito)
    (props : StaticSitesStackProps) :
  truthy (customBaseDomain props) && negb (truthy (hostedZoneId props)) = false ->
  let custom := truthy (customBaseDomain props) in
  let base := default "" (customBaseDomain props) in
  let domain_of (label site : string) :=
    if custom then label +:+ base else distribution site in
  new_StaticSitesStack distribution resources props
  = Built
      {| landingSite :=
           {| siteDomain := domain_of "landing." "LandingSite";
              aliasDomain := if custom then Some ("landing." +:+ base) else None;
              methods := ["GET"; "HEAD"; "OPTIONS"];
              cognito := None;
              siteConfig :=
                [ ("production", JBool true);
                  ("apiUrl", JString (apiUrl props));
                  ("domain", JString (domain_of "landing." "LandingSite"));
                  ("usingCustomDomain", JBool custom) ] |};
         adminSite :=
           {| siteDomain := domain_of "admin." "AdminSite";
              aliasDomain := if custom then Some ("admin." +:+ base) else None;
              methods := ["GET"; "HEAD"; "OPTIONS"];
              cognito :=
                Some
                  {| adminUserEmailAddress := saasAdminEmail props;
                     userPoolName := "AdminSiteUserPool";
                     callbackUrl := "https://" +:+ domain_of "admin." "AdminSite";
                     signoutUrl :=
                       "https://" +:+ domain_of "admin." "AdminSite"
                       +:+ "/signout";
                     inviteEmailSubject := "AdminSite User Created";
                     inviteEmailBody :=
                       defaultEmailBodyGenerator
                         (domain_of "admin." "AdminSite") |};
              siteConfig :=
                [ ("production", JBool true);
                  ("clientId", JString (appClientId resources));
                  ("issuer", JString (authServerUrl resources));
                  ("customDomain", JString (appClientId resources));
                  ("apiUrl", JString (apiUrl props));
                  ("domain", JString (domain_of "admin." "AdminSite"));
                  ("usingCustomDomain", JBool custom);
                  ("usingKubeCost", JBool (usingKubeCost props));
                  ("kubecostUI",
                    JString (if usingKubeCost props
                             then apiUrl props +:+ "/kubecost" else "")) ] |};
         applicationSite :=
           {| siteDomain := domain_of "app." "ApplicationSite";
              aliasDomain := if custom then Some ("*.app." +:+ base) else None;
              methods :=
                ["DELETE"; "GET"; "HEAD"; "OPTIONS"; "PATCH"; "POST"; "PUT"];
              cognito := None;
              siteConfig :=
                [ ("production", JBool true);
                  ("apiUrl", JString (apiUrl props));
                  ("domain", JString (domain_of "app." "ApplicationSite"));
                  ("usingCustomDomain", JBool custom) ] |} |}.
Proof.
  intros Hok. cbv zeta. unfold new_StaticSitesStack. rewrite Hok.
  destruct (truthy (customBaseDomain props)); reflexivity.
Qed.

(** The stack's constructor throws exactly when a custom base domain comes
    without a hosted zone id, and then its own [Error]; otherwise it builds
    the three sites, and neither check of [StaticSite] nor the admin
    site's reading of its [cognito] throws.  Under a custom base domain the
    sites are [landing.], [admin.] and [app.] of it and the application
    site is aliased as [*.app.]; without one each site has the domain of
    its distribution and no alias.  The admin site alone has a user pool,
    called back at the site's own domain. *)
Theorem static_sites_stack_outcome (distribution : string -> string)
    (resources : Cognito) (props : StaticSitesStackProps) :
  let custom := truthy (customBaseDomain props) in
  let base := default "" (customBaseDomain props) in
  if custom && negb (truthy (hostedZoneId props))
  then new_StaticSitesStack distribution resources props
       = Thrown (Error "HostedZoneId must be specified when using a custom domain for static sites.")
  else exists stack,
      new_StaticSitesStack distribution resources props = Built stack
      /\ siteDomain (landingSite stack)
         = (if custom then "landing." +:+ base else distribution "LandingSite")
      /\ siteDomain (adminSite stack)
         = (if custom then "admin." +:+ base else distribution "AdminSite")
      /\ siteDomain (applicationSite stack)
         = (if custom then "app." +:+ base
            else distribution "ApplicationSite")
      /\ aliasDomain (landingSite stack)
         = (if custom then Some ("landing." +:+ base) else None)
      /\ aliasDomain (adminSite stack)
         = (if custom then Some ("admin." +:+ base) else None)
      /\ aliasDomain (applicationSite stack)
         = (if custom then Some ("*.app." +:+ base) else None)
      /\ cognito (landingSite stack) = None
      /\ cognito (applicationSite stack) = None
      /\ exists cp,
           cognito (adminSite stack) = Some cp
           /\ adminUserEmailAddress cp = saasAdminEmail props
           /\ callbackUrl cp = "https://" +:+ siteDomain (adminSite stack)
           /\ signoutUrl cp
              = "https://" +:+ siteDomain (adminSite stack) +:+ "/signout".
Proof.
  cbv zeta.
  destruct (truthy (customBaseDomain props)
            && negb (truthy (hostedZoneId props))) eqn:Hok.
  - unfold new_StaticSitesStack. rewrite Hok. reflexivity.
  - eexists. split; [apply stack_sites; exact Hok|].
    cbn [landingSite adminSite applicationSite siteDomain aliasDomain cognito].
    repeat split. eexists. repeat split.
Qed.

(** The tenant URL the registration page shows lies on the landing site's
    own domain: under a custom base domain it is
    [https://tenantId.landing.base/], otherwise
    [https://d/tenantId/] with [d] the domain of the landing site's
    distribution. *)
Theorem tenant_url_on_landing_domain (distribution : string -> string)
    (resources : Cognito) (props : StaticSitesStackProps)
    (stack : StaticSitesStack) (companyName : Js.js_string) :
  new_StaticSitesStack distribution resources props = Built stack ->
  exists env,
    environment_of (siteConfig (landingSite stack)) = Some env
    /\ RegisterComponent.getTenantUrl env companyName
       = if truthy (customBaseDomain props)
         then Js.of_string "https://"
              ++ RegisterComponent.tenantId companyName
              ++ Js.of_string ".landing."
              ++ Js.of_string (default "" (customBaseDomain props))
              ++ Js.of_string "/"
         else Js.of_string "https://"
              ++ Js.of_string (distribution "LandingSite")
              ++ Js.of_string "/"
              ++ RegisterComponent.tenantId companyName
              ++ Js.of_string "/".
Proof.
  intros Hb.
  destruct (truthy (customBaseDomain props)
            && negb (truthy (hostedZoneId props))) eqn:Hok.
  - unfold new_StaticSitesStack in Hb. rewrite Hok in Hb. discriminate Hb.
  - rewrite (stack_sites distribution resources props Hok) in Hb.
    cbv zeta in Hb. injection Hb as <-.
    cbn [landingSite siteConfig]. eexists. split; [reflexivity|].
    unfold RegisterComponent.getTenantUrl.
    cbn [RegisterComponent.usingCustomDomain RegisterComponent.domain].
    destruct (truthy (customBaseDomain props)); [|reflexivity].
    rewrite of_string_app, <- !app_assoc. reflexivity.
Qed.

Lemma tenant_url_on_landing_domain_witness :
  exists stack env,
    new_StaticSitesStack (fun _ => "d111.cloudfront.net")
      {| appClientId := "client"; authServerUrl := "issuer" |}
      {| apiUrl := "https://api.example.com";
         saasAdminEmail := "admin@example.com";
         usingKubeCost := false;
         customBaseDomain := Some "example.com";
         hostedZoneId := Some "Z123" |} = Built stack
    /\ environment_of (siteConfig (landingSite stack)) = Some env
    /\ RegisterComponent.getTenantUrl env (Js.of_string "Acme Corp!")
       = Js.of_string "https://acmecorp.landing.example.com/".
Proof.
  eexists.
  destruct (tenant_url_on_landing_domain (fun _ => "d111.cloudfront.net")
              {| appClientId := "client"; authServerUrl := "issuer" |}
              {| apiUrl := "https://api.example.com";
                 saasAdminEmail := "admin@example.com";
                 usingKubeCost := false;
                 customBaseDomain := Some "example.com";
                 hostedZoneId := Some "Z123" |}
              _ (Js.of_string "Acme Corp!") eq_refl) as (env & He & Hu).
  exists env. split; [reflexivity|]. split; [exact He|]. exact Hu.
Defined.

(** The custom domain [ServicesStack] hands to the onboarding project is
    the domain [StaticSitesStack] gives the application site, when both
    stacks get the same base domain; without a base domain the onboarding
    project gets none. *)
Theorem onboarding_domain_is_app_site (distribution : string -> string)
    (resources : Cognito) (props : StaticSitesStackProps)
    (stack : StaticSitesStack) (sprops : Cdk.ServicesStackProps) :
  Cdk.customDomain sprops = customBaseDomain props ->
  new_StaticSitesStack distribution resources props = Built stack ->
  Cdk.appSiteCustomDomain (Cdk.onboardingSvc sprops)
  = if truthy (customBaseDomain props)
    then Some (siteDomain (applicationSite stack))
    else None.
Proof.
  intros Hd Hb.
  destruct (truthy (customBaseDomain props)
            && negb (truthy (hostedZoneId props))) eqn:Hok.
  - unfold new_StaticSitesStack in Hb. rewrite Hok in Hb. discriminate Hb.
  - rewrite (stack_sites distribution resources props Hok) in Hb.
    cbv zeta in Hb. injection Hb as <-.
    cbn [applicationSite siteDomain Cdk.onboardingSvc Cdk.appSiteCustomDomain].
    rewrite Hd. destruct (customBaseDomain props) as [d|]; [|reflexivity].
    cbn [truthy default]. destruct (String.eqb d ""); reflexivity.
Qed.

Lemma onboarding_domain_is_app_site_witness :
  Cdk.appSiteCustomDomain
    (Cdk.onboardingSvc
       {| Cdk.internalNLBApiDomain := "API.Example.com";
          Cdk.stack_eksClusterName := "eks-saas";
          Cdk.stack_eksClusterOIDCProviderArn := "oidc";
          Cdk.codebuildKubectlRoleArn := "role";
          Cdk.stack_appSiteDistributionId := "E123";
          Cdk.stack_appSiteCloudFrontDomain := "d333.cloudfront.net";
          Cdk.sharedServiceAccountName := "shared-service-account";
          Cdk.appHostedZoneId := Some "Z123";
          Cdk.customDomain := Some "example.com" |})
  = Some "app.example.com".
Proof.
  refine (onboarding_domain_is_app_site (fun _ => "d111.cloudfront.net")
            {| appClientId := "client"; authServerUrl := "issuer" |}
            {| apiUrl := "https://api.example.com";
               saasAdminEmail := "admin@example.com";
               usingKubeCost := false;
               customBaseDomain := Some "example.com";
               hostedZoneId := Some "Z123" |}
            _
            {| Cdk.internalNLBApiDomain := "API.Example.com";
               Cdk.stack_eksClusterName := "eks-saas";
               Cdk.stack_eksClusterOIDCProviderArn := "oidc";
               Cdk.codebuildKubectlRoleArn := "role";
               Cdk.stack_appSiteDistributionId := "E123";
               Cdk.stack_appSiteCloudFrontDomain := "d333.cloudfront.net";
               Cdk.sharedServiceAccountName := "shared-service-account";
               Cdk.appHostedZoneId := Some "Z123";
               Cdk.customDomain := Some "example.com" |}
            eq_refl eq_refl).
Defined.

End StaticSitesFacts.

(** ** Permissions *)

Module IamFacts.
Import Cdk Iam.

Lemma glob_star_eq (p s : string) :
  glob (String "*" p) s
  = glob p s
    || match s with
       | EmptyString => false
       | String _ s' => glob (String "*" p) s'
       end.
Proof. destruct s; reflexivity. Qed.

Lemma glob_star (s : string) : glob "*" s = true.
Proof.
  induction s as [|c s IH]; [reflexivity|].
  rewrite glob_star_eq. rewrite IH. apply orb_true_r.
Qed.

Lemma literal_cons (c : ascii) (s : string) :
  literal (String c s) = true ->
  (c =? "*")%char = false /\ (c =? "?")%char = false /\ literal s = true.
Proof.
  cbn [literal]. intros [[H1 H2]%andb_true_iff H3]%andb_true_iff.
  by rewrite negb_true_iff in H1, H2.
Qed.

Lemma literal_app (a b : string) :
  literal (a +:+ b) = literal a && literal b.
Proof.
  induction a as [|c a IH]; [reflexivity|].
  change (String c a +:+ b) with (String c (a +:+ b)).
  cbn [literal]. rewrite IH. by rewrite andb_assoc.
Qed.

(** A pattern without wildcards matches its own text only. *)
Lemma glob_literal (p s : string) :
  literal p = true -> glob p s = String.eqb p s.
Proof.
  revert s. induction p as [|c p IH]; intros s Hp.
  - by destruct s.
  - apply literal_cons in Hp as (H1 & H2 & Hp).
    cbn [glob String.eqb]. rewrite H1. destruct s as [|d s]; [reflexivity|].
    rewrite H2, (IH s Hp). cbn [orb].
    destruct (Ascii.eqb c d); reflexivity.
Qed.

(** A common prefix without wildcards can be dropped. *)
Lemma glob_literal_app (pre p s : string) :
  literal pre = true -> glob (pre +:+ p) (pre +:+ s) = glob p s.
Proof.
  induction pre as [|c pre IH]; intros Hp; [reflexivity|].
  apply literal_cons in Hp as (H1 & H2 & Hp).
  change (glob (String c (pre +:+ p)) (String c (pre +:+ s)) = glob p s).
  cbn [glob]. rewrite H1, H2, Ascii.eqb_refl. cbn [orb andb]. by apply IH.
Qed.

(** A literal text followed by [*] matches the texts that start with it. *)
Lemma glob_literal_star (p s : string) :
  literal p = true -> glob (p +:+ "*") s = String.prefix p s.
Proof.
  revert s. induction p as [|c p IH]; intros s Hp.
  - change ("" +:+ "*") with "*". rewrite glob_star. by destruct s.
  - apply literal_cons in Hp as (H1 & H2 & Hp).
    change (String c p +:+ "*") with (String c (p +:+ "*")).
    destruct s as [|d s]; cbn [glob String.prefix]; rewrite H1;
      [reflexivity|].
    rewrite H2, (IH s Hp). cbn [orb].
    destruct (ascii_dec c d) as [->|Hne].
    + by rewrite Ascii.eqb_refl.
    + apply Ascii.eqb_neq in Hne. by rewrite Hne.
Qed.

Lemma literal_arn (partition : string) (tk : tokens)
    (service resource : string) :
  literal partition = true -> literal (region tk) = true ->
  literal (account tk) = true -> literal service = true ->
  literal resource = true ->
  literal ("arn:" +:+ partition +:+ ":" +:+ service +:+ ":" +:+ region tk
           +:+ ":" +:+ account tk +:+ ":" +:+ resource +:+ "/") = true.
Proof.
  intros H1 H2 H3 H4 H5. rewrite !literal_app, H1, H2, H3, H4, H5. reflexivity.
Qed.

Lemma Arn_format_split (partition : string) (tk : tokens)
    (service resource resourceName : string) :
  Arn_format partition tk service resource resourceName
  = ("arn:" +:+ partition +:+ ":" +:+ service +:+ ":" +:+ region tk
     +:+ ":" +:+ account tk +:+ ":" +:+ resource +:+ "/") +:+ resourceName.
Proof. unfold Arn_format. by rewrite !BuildFacts.append_assoc. Qed.

(** Two resources of one service and kind match as their names do. *)
Lemma glob_arn (partition : string) (tk : tokens)
    (service resource pattern name : string) :
  literal partition = true -> literal (region tk) = true ->
  literal (account tk) = true -> literal service = true ->
  literal resource = true ->
  glob (Arn_format partition tk service resource pattern)
    (Arn_format partition tk service resource name)
  = glob pattern name.
Proof.
  intros H1 H2 H3 H4 H5. rewrite !Arn_format_split.
  apply glob_literal_app. by apply literal_arn.
Qed.

(** Replaces by [false] the action patterns that cannot match. *)
Ltac drop_actions a :=
  repeat match goal with
         | |- context [glob (Shell.tolower ?p) a] =>
             change (glob (Shell.tolower p) a) with false
         end.

(** Of the DynamoDB actions, the statements of the build role allow on the
    tenant table [PutItem] and [DeleteItem] and no other: the onboarding and
    deletion builds can write and delete a tenant's record but not read
    one. *)
Theorem build_role_on_tenant_table (partition : string) (tk : tokens)
    (clusterArn : string) (props : TenantOnboardingProps) (x : string) :
  literal partition = true -> literal (region tk) = true ->
  literal (account tk) = true ->
  allows (build_role partition tk clusterArn props) ("dynamodb:" +:+ x)
    (Arn_format partition tk "dynamodb" "table" "Tenant")
  = String.eqb "putitem" (Shell.tolower x)
    || String.eqb "deleteitem" (Shell.tolower x).
Proof.
  intros H1 H2 H3.
  unfold allows, build_role, codebuildKubectlRole,
    addTenantOnboardingPermissions.
  cbn [app existsb actions resources action_ok resource_ok].
  change (Shell.tolower ("dynamodb:" +:+ x))
    with ("dynamodb:" +:+ Shell.tolower x).
  generalize (Shell.tolower x). intros lx.
  drop_actions ("dynamodb:" +:+ lx).
  rewrite !(glob_literal _ ("dynamodb:" +:+ lx)) by reflexivity.
  change (String.eqb (Shell.tolower "dynamodb:PutItem") ("dynamodb:" +:+ lx))
    with (String.eqb "putitem" lx).
  change (String.eqb (Shell.tolower "dynamodb:DeleteItem") ("dynamodb:" +:+ lx))
    with (String.eqb "deleteitem" lx).
  rewrite !glob_arn by (assumption || reflexivity).
  change (glob "Tenant" "Tenant") with true.
  change (glob "Order-*" "Tenant") with false.
  cbn [orb andb]. rewrite !orb_false_r, !andb_false_r, !orb_false_r.
  by rewrite andb_true_r.
Qed.

Lemma build_role_on_tenant_table_witness :
  allows (build_role "aws" Scenario.tokens0
            "arn:aws:eks:us-east-1:111122223333:cluster/eks-saas"
            (onboardingSvc Scenario.props0))
    "dynamodb:GetItem"
    (Arn_format "aws" Scenario.tokens0 "dynamodb" "table" "Tenant")
  = false.
Proof.
  exact (build_role_on_tenant_table "aws" Scenario.tokens0
           "arn:aws:eks:us-east-1:111122223333:cluster/eks-saas"
           (onboardingSvc Scenario.props0) "GetItem"
           eq_refl eq_refl eq_refl).
Defined.

(** The build role may create and delete exactly the tables whose name
    starts with [Order-]: a table per tenant, but neither the tenant table
    nor another table. *)
Theorem build_role_on_tables (partition : string) (tk : tokens)
    (clusterArn : string) (props : TenantOnboardingProps) (t : string) :
  literal partition = true -> literal (region tk) = true ->
  literal (account tk) = true ->
  allows (build_role partition tk clusterArn props) "dynamodb:CreateTable"
    (Arn_format partition tk "dynamodb" "table" t)
  = String.prefix "Order-" t
  /\ allows (build_role partition tk clusterArn props) "dynamodb:DeleteTable"
       (Arn_format partition tk "dynamodb" "table" t)
     = String.prefix "Order-" t.
Proof.
  intros H1 H2 H3.
  assert (Ho : glob (Arn_format partition tk "dynamodb" "table" "Order-*")
                 (Arn_format partition tk "dynamodb" "table" t)
               = String.prefix "Order-" t).
  { rewrite glob_arn by (assumption || reflexivity).
    change "Order-*" with ("Order-" +:+ "*").
    by rewrite glob_literal_star. }
  split.
  - unfold allows, build_role, codebuildKubectlRole,
      addTenantOnboardingPermissions.
    cbn [app existsb actions resources action_ok resource_ok].
    rewrite Ho.
    drop_actions (Shell.tolower "dynamodb:CreateTable").
    change (glob (Shell.tolower "dynamodb:CreateTable")
              (Shell.tolower "dynamodb:CreateTable")) with true.
    cbn [orb andb]. by rewrite !orb_false_r.
  - unfold allows, build_role, codebuildKubectlRole,
      addTenantOnboardingPermissions.
    cbn [app existsb actions resources action_ok resource_ok].
    rewrite Ho.
    drop_actions (Shell.tolower "dynamodb:DeleteTable").
    change (glob (Shell.tolower "dynamodb:DeleteTable")
              (Shell.tolower "dynamodb:DeleteTable")) with true.
    cbn [orb andb]. by rewrite !orb_false_r.
Qed.

Lemma build_role_on_tables_witness :
  allows (build_role "aws" Scenario.tokens0
            "arn:aws:eks:us-east-1:111122223333:cluster/eks-saas"
            (onboardingSvc Scenario.props0))
    "dynamodb:CreateTable"
    (Arn_format "aws" Scenario.tokens0 "dynamodb" "table" "Order-acmecorp")
  = true
  /\ allows (build_role "aws" Scenario.tokens0
               "arn:aws:eks:us-east-1:111122223333:cluster/eks-saas"
               (onboardingSvc Scenario.props0))
       "dynamodb:DeleteTable"
       (Arn_format "aws" Scenario.tokens0 "dynamodb" "table" "Tenant")
     = false.
Proof.
  split.
  - exact (proj1 (build_role_on_tables "aws" Scenario.tokens0
                    "arn:aws:eks:us-east-1:111122223333:cluster/eks-saas"
                    (onboardingSvc Scenario.props0) "Order-acmecorp"
                    eq_refl eq_refl eq_refl)).
  - exact (proj2 (build_role_on_tables "aws" Scenario.tokens0
                    "arn:aws:eks:us-east-1:111122223333:cluster/eks-saas"
                    (onboardingSvc Scenario.props0) "Tenant"
                    eq_refl eq_refl eq_refl)).
Defined.

(** The service account of the shared services may start the onboarding
    and the deletion project and no other project, so no tenant-deploy or
    on-commit project; the build role may start any project, which is how
    the onboarding build reaches the tenant-deploy projects. *)
Theorem who_starts_builds (partition : string) (tk : tokens)
    (onboarding deletion clusterArn : string) (props : TenantOnboardingProps)
    (project : string) :
  literal partition = true -> literal (region tk) = true ->
  literal (account tk) = true ->
  literal onboarding = true -> literal deletion = true ->
  allows (addSharedServicesPermissions partition tk onboarding deletion)
    "codebuild:StartBuild"
    (Arn_format partition tk "codebuild" "project" project)
  = String.eqb onboarding project || String.eqb deletion project
  /\ allows (build_role partition tk clusterArn props) "codebuild:StartBuild"
       (Arn_format partition tk "codebuild" "project" project)
     = true.
Proof.
  intros H1 H2 H3 H4 H5. split.
  - unfold allows, addSharedServicesPermissions.
    cbn [existsb actions resources action_ok resource_ok].
    drop_actions (Shell.tolower "codebuild:StartBuild").
    change (glob (Shell.tolower "codebuild:StartBuild")
              (Shell.tolower "codebuild:StartBuild")) with true.
    cbn [orb andb].
    rewrite !glob_arn by (assumption || reflexivity).
    rewrite (glob_literal onboarding), (glob_literal deletion) by assumption.
    by rewrite !orb_false_r.
  - unfold allows, build_role, codebuildKubectlRole,
      addTenantOnboardingPermissions.
    cbn [app existsb actions resources action_ok resource_ok].
    drop_actions (Shell.tolower "codebuild:StartBuild").
    change (glob (Shell.tolower "codebuild:StartBuild")
              (Shell.tolower "codebuild:StartBuild")) with true.
    rewrite !glob_star. cbn [orb andb]. by rewrite ?orb_true_r.
Qed.

Lemma who_starts_builds_witness :
  allows (addSharedServicesPermissions "aws" Scenario.tokens0
            "TenantOnboardingProject" "TenantDeletionProject")
    "codebuild:StartBuild"
    (Arn_format "aws" Scenario.tokens0 "codebuild" "project"
       "ProductServiceTenantDeploy")
  = false
  /\ allows (build_role "aws" Scenario.tokens0
               "arn:aws:eks:us-east-1:111122223333:cluster/eks-saas"
               (onboardingSvc Scenario.props0))
       "codebuild:StartBuild"
       (Arn_format "aws" Scenario.tokens0 "codebuild" "project"
          "ProductServiceTenantDeploy")
     = true.
Proof.
  exact (who_starts_builds "aws" Scenario.tokens0 "TenantOnboardingProject"
           "TenantDeletionProject"
           "arn:aws:eks:us-east-1:111122223333:cluster/eks-saas"
           (onboardingSvc Scenario.props0) "ProductServiceTenantDeploy"
           eq_refl eq_refl eq_refl eq_refl eq_refl).
Defined.

End IamFacts.

(** ** Tenant deploys against the namespaces of the cluster *)

Module DeployFacts.
Import Shell CodeBuild Cdk OnCommit Kubectl.

Lemma label_alnum_not_ifs (c : ascii) :
  label_alnum c = true -> is_ifs c = false.
Proof.
  intros H. destruct (is_ifs c) eqn:E; [exfalso|reflexivity].
  unfold is_ifs in E.
  apply orb_true_iff in E as [E|E]; [apply orb_true_iff in E as [E|E]|];
    apply Ascii.eqb_eq in E; subst c; vm_compute in H; discriminate H.
Qed.

Lemma label_char_not_ifs (c : ascii) :
  label_alnum c || (c =? "-")%char = true -> is_ifs c = false.
Proof.
  intros [H|H]%orb_true_iff; [by apply label_alnum_not_ifs|].
  apply Ascii.eqb_eq in H. by subst c.
Qed.

Lemma label_rest_no_ifs (s : string) : label_rest s = true -> no_ifs s = true.
Proof.
  induction s as [|c s IH]; [reflexivity|].
  destruct s as [|d s].
  - cbn [label_rest no_ifs]. intros H.
    by rewrite (label_alnum_not_ifs c H).
  - intros [Hc Hr]%andb_true_iff.
    change (negb (is_ifs c) && no_ifs (String d s) = true).
    by rewrite (label_char_not_ifs c Hc), (IH Hr).
Qed.

(** A label is one word. *)
Lemma dns_label_single (t : string) :
  dns_label t = true -> single_field t = true.
Proof.
  destruct t as [|c t]; [discriminate|]. unfold dns_label.
  intros [[Hc Hr]%andb_true_iff _]%andb_true_iff.
  apply CommitFacts.single_field_cons.
  - by apply label_alnum_not_ifs.
  - by apply label_rest_no_ifs.
Qed.

Lemma dns_label_fields (t : string) : dns_label t = true -> fields t = [t].
Proof. intros H. by apply CommitFacts.fields_word, dns_label_single. Qed.

(** [kubectl apply] for a namespace the cluster has and for no word. *)
Lemma apply_k_label (k : kubectl) (t : string)
    (os : list (string * string * K8s.object)) (c : K8s.cluster) :
  dns_label t = true -> namespaces k t = true ->
  apply_k k (fields t) os c = Some (apply_all t os c).
Proof.
  intros Hl Hn. rewrite (dns_label_fields t Hl). unfold apply_k.
  by rewrite Hl, Hn.
Qed.

Lemma apply_k_refused (k : kubectl) (t : string)
    (os : list (string * string * K8s.object)) (c : K8s.cluster) :
  fields t = []
  \/ (single_field t = true /\ ordinary t = true
      /\ dns_label t && namespaces k t = false) ->
  apply_k k (fields t) os c = None.
Proof.
  intros [H|(Hs & Ho & Hn)].
  - by rewrite H.
  - rewrite (CommitFacts.fields_word t Hs). unfold apply_k.
    destruct (dns_label t); [|by rewrite Ho].
    cbn [andb] in Hn. by rewrite Hn.
Qed.

(** The [build] phase of a tenant-deploy project, from any state that has
    the variables and the working copy of a started build: everything
    before [kubectl apply] succeeds, and the phase ends as [kubectl apply]
    does. *)
Lemma tenant_build_phase_in (k : kubectl) (tk : tokens)
    (svc : ApplicationServiceProps) (a : assets) (s : state)
    (t u h p : string) (kus hp ppt sat : list string) :
  vars s !! "TENANT_ID" = Some t ->
  vars s !! "ECR_REPO_URI" = Some u ->
  vars s !! "API_HOST" = Some h ->
  vars s !! "SERVICE_URL_PREFIX" = Some p ->
  files s !! "kubernetes/kustomization.yaml" = Some kus ->
  files s !! "kubernetes/host-patch.yaml" = Some hp ->
  files s !! "kubernetes/path-patch-template.yaml" = Some ppt ->
  files s !! "kubernetes/svc-acc-patch-template.yaml" = Some sat ->
  let r :=
    apply_k k (fields t)
      [ ("Deployment", app a,
          K8s.Deployment (t +:+ "-service-account") (u +:+ ":latest")
            (containerPort a));
        ("Service", service_name a,
          K8s.Service (app a) (service_port a) (containerPort a));
        ("Ingress", ingress_name a,
          K8s.Ingress
            {| K8s.mergeable_ingress_type := K8s.minion;
               K8s.host := h;
               K8s.paths :=
                 [ {| K8s.path := "/" +:+ t +:+ "/" +:+ p;
                      K8s.backend_service := service_name a;
                      K8s.backend_port := service_port a |} ] |}) ]
      (cluster s) in
  exists s',
    run_phase_in k a (build (tenantDeployProject tk svc)) s
    = (bool_decide (is_Some r), s')
    /\ started s' = started s /\ cdk s' = cdk s
    /\ cluster s' = default (cluster s) r.
Proof.
  destruct s as [v f c st kc]. cbn [vars files cluster started cdk].
  intros Ht Hu Hh Hp Hkus Hhp Hppt Hsat.
  match goal with
  | |- context [apply_k k ?w ?os c] => set (r := apply_k k w os c)
  end.
  cbn [tenantDeployProject build].
  repeat (cbn [run_phase_in exec_in exec set_files set_cluster vars files
               cluster started cdk expand expand_part fold_right default
               mbind option_bind];
          rewrite ?Ht, ?Hu, ?Hh, ?Hp, ?BuildFacts.append_empty_r;
          rewrite ?lookup_insert_eq;
          rewrite ?lookup_insert_ne by done;
          rewrite ?Hkus, ?Hhp, ?Hppt, ?Hsat).
  unfold id. change (String.eqb "kubernetes/" "kubernetes/") with true.
  cbv iota.
  erewrite BuildFacts.kustomize_files;
    [ | BuildFacts.lookup_inserts; reflexivity ..
      | apply BuildFacts.yaml_field_snoc_hit; reflexivity
      | apply BuildFacts.yaml_field_snoc_hit; reflexivity
      | apply BuildFacts.yaml_field_snoc_hit; reflexivity
      | rewrite BuildFacts.yaml_field_snoc_miss by reflexivity;
        apply BuildFacts.yaml_field_snoc_hit; reflexivity
      | apply BuildFacts.yaml_field_snoc_hit; reflexivity ].
  cbn [mbind option_bind].
  match goal with
  | |- context [apply_k k ?w ?os c] => change (apply_k k w os c) with r
  end.
  clearbody r. destruct r as [c'|]; cbn [mbind option_bind run_phase_in default].
  - eexists. split; [reflexivity|].
    cbn [set_cluster set_files cluster started cdk]. auto.
  - eexists. split; [reflexivity|].
    cbn [set_cluster set_files cluster started cdk]. auto.
Qed.

(** A tenant-deploy build ends as its [kubectl apply] of the service's
    three objects does. *)
Lemma tenant_deploy_in_spec (k : kubectl) (tk : tokens)
    (svc : ApplicationServiceProps) (t : string) (c : K8s.cluster) :
  let r := apply_k k (fields t) (tenant_objects tk svc t) c in
  (tenant_deploy_in k tk svc t c).1 = bool_decide (is_Some r)
  /\ started (tenant_deploy_in k tk svc t c).2 = []
  /\ cdk (tenant_deploy_in k tk svc t c).2 = []
  /\ cluster (tenant_deploy_in k tk svc t c).2 = default c r.
Proof.
  unfold tenant_deploy_in, start_build_in, run_phases_in.
  cbn [tenantDeployProject install pre_build post_build environmentVariables
       install_kubectl run_phase_in exec_in exec negb].
  match goal with
  | |- context [run_phase_in k ?a (build ?p) ?s] =>
      destruct (tenant_build_phase_in k tk svc a s t
                  (repositoryUri tk (ecrImageName svc))
                  (tolower (internalApiDomain svc)) (serviceUrlPrefix svc)
                  (kustomization a) (host_patch a) (path_patch_template a)
                  (svc_acc_patch_template a))
        as (s' & Hrun & Hst & Hcdk & Hcl)
  end;
    try (cbn [set_vars vars files override fold_left fst snd]; unfold checkout;
         BuildFacts.lookup_inserts; reflexivity).
  rewrite Hrun. cbn [fst snd andb]. rewrite andb_true_r.
  repeat split; assumption.
Qed.

(** For a tenant id that names a namespace of the cluster the build
    succeeds and applies the three objects there. *)
Lemma tenant_deploy_in_label (k : kubectl) (tk : tokens)
    (svc : ApplicationServiceProps) (t : string) (c : K8s.cluster) :
  dns_label t = true -> namespaces k t = true ->
  (tenant_deploy_in k tk svc t c).1 = true
  /\ cluster (tenant_deploy_in k tk svc t c).2
     = apply_all t (tenant_objects tk svc t) c.
Proof.
  intros Hl Hn.
  destruct (tenant_deploy_in_spec k tk svc t c) as (Hok & _ & _ & Hc).
  cbv zeta in Hok, Hc. rewrite (apply_k_label k t _ c Hl Hn) in Hok, Hc.
  split; assumption.
Qed.

(** Where the cluster has the namespace, the build of [CodeBuild.exec] and
    the build here agree. *)
Lemma tenant_deploy_in_agrees (k : kubectl) (tk : tokens)
    (svc : ApplicationServiceProps) (t : string) (c : K8s.cluster) :
  dns_label t = true -> namespaces k t = true ->
  (tenant_deploy_in k tk svc t c).1 = (tenant_deploy tk svc t c).1
  /\ cluster (tenant_deploy_in k tk svc t c).2
     = cluster (tenant_deploy tk svc t c).2.
Proof.
  intros Hl Hn.
  destruct (tenant_deploy_in_label k tk svc t c Hl Hn) as [-> ->].
  destruct (BuildFacts.tenant_deploy_spec tk svc t c) as (-> & _ & _ & ->).
  by rewrite (dns_label_single t Hl).
Qed.

(** The fan-out of [ServicesStack]: the product build, then the order
    build. *)
Lemma fan_out_in_stack (k : kubectl) (tk : tokens) (po oo : overlay_files)
    (props : ServicesStackProps) (t cn e pl : string) (c : K8s.cluster) :
  fan_out_in k tk (onboardingSvc props) (applicationServices po oo props)
    t cn e pl c
  = cluster (tenant_deploy_in k tk (orderSvc oo props) t
               (cluster (tenant_deploy_in k tk (productSvc po props) t c).2)).2.
Proof.
  unfold fan_out_in.
  destruct (BuildFacts.onboarding_build_spec tk (onboardingSvc props) t cn e pl c)
    as (_ & Hc & _ & Hs).
  cbn zeta in Hc, Hs. rewrite Hc, Hs.
  cbn [onboardingSvc applicationServiceBuildProjectNames List.map].
  change ("ProductService" +:+ "TenantDeploy") with "ProductServiceTenantDeploy".
  change ("OrderService" +:+ "TenantDeploy") with "OrderServiceTenantDeploy".
  cbn [run_started_in].
  rewrite BuildFacts.find_product_deploy, BuildFacts.find_order_deploy.
  unfold tenant_deploy_in. reflexivity.
Qed.

Lemma deploy_refused (k : kubectl) (tk : tokens)
    (svc : ApplicationServiceProps) (t : string) (c : K8s.cluster) :
  apply_k k (fields t) (tenant_objects tk svc t) c = None ->
  (tenant_deploy_in k tk svc t c).1 = false
  /\ cluster (tenant_deploy_in k tk svc t c).2 = c.
Proof.
  intros H.
  destruct (tenant_deploy_in_spec k tk svc t c) as (Hok & _ & _ & Hc).
  cbv zeta in Hok, Hc. rewrite H in Hok, Hc. split; assumption.
Qed.

(** The objects of both services of [ServicesStack] after the fan-out. *)
Lemma fan_out_in_objects (k : kubectl) (tk : tokens) (po oo : overlay_files)
    (props : ServicesStackProps) (t cn e pl : string) (c : K8s.cluster)
    (svc : ApplicationServiceProps) :
  dns_label t = true -> namespaces k t = true ->
  In svc (applicationServices po oo props) ->
  let a := assetDirectory svc in
  let r := fan_out_in k tk (onboardingSvc props)
             (applicationServices po oo props) t cn e pl c in
  r !! (t, ("Ingress", ingress_name a))
  = Some (K8s.Ingress
            {| K8s.mergeable_ingress_type := K8s.minion;
               K8s.host := tolower (internalApiDomain svc);
               K8s.paths :=
                 [ {| K8s.path := "/" +:+ t +:+ "/" +:+ serviceUrlPrefix svc;
                      K8s.backend_service := service_name a;
                      K8s.backend_port := service_port a |} ] |})
  /\ r !! (t, ("Service", service_name a))
     = Some (K8s.Service (app a) (service_port a) (containerPort a))
  /\ r !! (t, ("Deployment", app a))
     = Some (K8s.Deployment (t +:+ "-service-account")
               (repositoryUri tk (ecrImageName svc) +:+ ":latest")
               (containerPort a)).
Proof.
  intros Hl Hn Hs a r. unfold r, a. rewrite fan_out_in_stack.
  destruct (tenant_deploy_in_label k tk (productSvc po props) t c Hl Hn)
    as [_ ->].
  destruct (tenant_deploy_in_label k tk (orderSvc oo props) t
              (apply_all t (tenant_objects tk (productSvc po props) t) c)
              Hl Hn) as [_ ->].
  destruct Hs as [<-|[<-|[]]].
  - rewrite !(BuildFacts.apply_all_other t
                (tenant_objects tk (orderSvc oo props) t))
      by (cbn; intros [E|[E|[E|[]]]]; discriminate E).
    apply (BuildFacts.apply_tenant_objects tk (productSvc po props) t).
  - apply (BuildFacts.apply_tenant_objects tk (orderSvc oo props) t).
Qed.

(** C3, as amended.  For a tenant id that names a namespace of the cluster
    (an RFC 1123 label, hence one shell word), the tenant-deploy build of a
    service with URL prefix [p] succeeds and leaves in the tenant's
    namespace the service's ingress with exactly one path, [/tenantId/p],
    on the lower-cased API host, backed by the service; every other ingress
    of the cluster is as before.  When the cluster has the namespace
    "acmecorp", the fan-out of the onboarding build over the product and
    order services of [ServicesStack] gives the paths [/acmecorp/products]
    and [/acmecorp/orders].  For a tenant id without a word (empty or
    blank), or of one word without pattern characters that names no
    namespace of the cluster, the build fails at [kubectl apply] and leaves
    the cluster as it was: no route is emitted. *)
Theorem tenant_deploy_emits_one_route :
  forall (k : kubectl) (tk : tokens) (svc : ApplicationServiceProps)
         (t : string) (c : K8s.cluster),
    dns_label t = true ->
    namespaces k t = true ->
    let a := assetDirectory svc in
    let c' := cluster (tenant_deploy_in k tk svc t c).2 in
    (tenant_deploy_in k tk svc t c).1 = true
    /\ c' !! (t, ("Ingress", ingress_name a))
       = Some (K8s.Ingress
                 {| K8s.mergeable_ingress_type := K8s.minion;
                    K8s.host := tolower (internalApiDomain svc);
                    K8s.paths :=
                      [ {| K8s.path := "/" +:+ t +:+ "/" +:+ serviceUrlPrefix svc;
                           K8s.backend_service := service_name a;
                           K8s.backend_port := service_port a |} ] |})
    /\ (forall ns name,
          (ns, name) <> (t, ingress_name a) ->
          c' !! (ns, ("Ingress", name)) = c !! (ns, ("Ingress", name)))
    /\ (namespaces k "acmecorp" = true ->
        forall po oo props cn e pl,
          let r := fan_out_in k tk (onboardingSvc props)
                     (applicationServices po oo props) "acmecorp" cn e pl c in
          r !! ("acmecorp", ("Ingress", "product-service-ingress"))
          = Some (K8s.Ingress
                    {| K8s.mergeable_ingress_type := K8s.minion;
                       K8s.host := tolower (internalNLBApiDomain props);
                       K8s.paths :=
                         [ {| K8s.path := "/acmecorp/products";
                              K8s.backend_service := "product-service";
                              K8s.backend_port := 80 |} ] |})
          /\ r !! ("acmecorp", ("Ingress", "order-service-ingress"))
             = Some (K8s.Ingress
                       {| K8s.mergeable_ingress_type := K8s.minion;
                          K8s.host := tolower (internalNLBApiDomain props);
                          K8s.paths :=
                            [ {| K8s.path := "/acmecorp/orders";
                                 K8s.backend_service := "order-service";
                                 K8s.backend_port := 80 |} ] |}))
    /\ (forall t',
          fields t' = []
          \/ (single_field t' = true /\ ordinary t' = true
              /\ dns_label t' && namespaces k t' = false) ->
          (tenant_deploy_in k tk svc t' c).1 = false
          /\ cluster (tenant_deploy_in k tk svc t' c).2 = c).
Proof.
  intros k tk svc t c Hl Hn a c'.
  destruct (tenant_deploy_in_label k tk svc t c Hl Hn) as [Hok Hc].
  fold c' in Hc. split; [exact Hok|]. split; [|split; [|split]].
  - rewrite Hc. apply BuildFacts.apply_tenant_objects.
  - intros ns name Hne. rewrite Hc. apply BuildFacts.apply_all_other.
    intros Hin. apply Hne.
    exact (BuildFacts.ingress_keys_of_tenant_objects tk svc t ns name Hin).
  - intros Ha po oo props cn e pl r. unfold r. split.
    + apply (fan_out_in_objects k tk po oo props "acmecorp" cn e pl c
               (productSvc po props) eq_refl Ha). by left.
    + apply (fan_out_in_objects k tk po oo props "acmecorp" cn e pl c
               (orderSvc oo props) eq_refl Ha). right. by left.
  - intros t' H. by apply deploy_refused, apply_k_refused.
Qed.

Lemma tenant_deploy_emits_one_route_witness :
  dns_label "acmecorp" = true
  /\ Kubectl.namespaces Scenario.kubectl0 "acmecorp" = true
  /\ (tenant_deploy_in Scenario.kubectl0 Scenario.tokens0
        (orderSvc Scenario.overlay0 Scenario.props0) "acmecorp"
        Scenario.cluster0).1 = true
  /\ cluster (tenant_deploy_in Scenario.kubectl0 Scenario.tokens0
                (orderSvc Scenario.overlay0 Scenario.props0) "acmecorp"
                Scenario.cluster0).2
     !! ("acmecorp", ("Ingress", "order-service-ingress"))
     = Some (K8s.Ingress
               {| K8s.mergeable_ingress_type := K8s.minion;
                  K8s.host := "api.example.com";
                  K8s.paths :=
                    [ {| K8s.path := "/acmecorp/orders";
                         K8s.backend_service := "order-service";
                         K8s.backend_port := 80 |} ] |}).
Proof.
  split; [reflexivity|]. split; [reflexivity|].
  pose proof (tenant_deploy_emits_one_route Scenario.kubectl0 Scenario.tokens0
                (orderSvc Scenario.overlay0 Scenario.props0) "acmecorp"
                Scenario.cluster0 eq_refl eq_refl) as (H1 & H2 & _).
  split; [exact H1 | exact H2].
Defined.

(** C3, the claim as worded fails: the company name "!!!" has the empty
    tenant id, and the tenant-deploy build for the empty id fails and
    leaves no ingress. *)
Lemma empty_tenant_id_gets_no_route :
  RegisterComponent.tenantId (Js.of_string "!!!") = []
  /\ fields "" = []
  /\ (tenant_deploy_in Scenario.kubectl0 Scenario.tokens0
        (productSvc Scenario.overlay0 Scenario.props0) ""
        Scenario.cluster0).1 = false
  /\ cluster (tenant_deploy_in Scenario.kubectl0 Scenario.tokens0
                (productSvc Scenario.overlay0 Scenario.props0) ""
                Scenario.cluster0).2
     !! ("", ("Ingress", "product-service-ingress")) = None.
Proof.
  split; [vm_compute; reflexivity|]. split; [reflexivity|].
  destruct (deploy_refused Scenario.kubectl0 Scenario.tokens0
              (productSvc Scenario.overlay0 Scenario.props0) ""
              Scenario.cluster0 eq_refl) as [-> ->].
  split; [reflexivity|].
  unfold Scenario.cluster0. rewrite lookup_insert_ne by done.
  apply lookup_empty.
Qed.

(** C5, as amended.  For every tenant id the onboarding build starts the
    tenant-deploy project of every service named in
    [applicationServiceBuildProjectNames], each with the single variable
    [TENANT_ID] set to the tenant id; in [ServicesStack] the names are those
    of the product and order services and each started project is that
    service's tenant-deploy project.  When the tenant id names a namespace
    of the cluster, a started build succeeds, leaves the service's
    Deployment, Service and Ingress in that namespace and changes nothing
    outside it, and after the fan-out of [ServicesStack] the objects of
    both services are there.  When the tenant id has no word (it is empty
    or blank), a started build fails and applies nothing. *)
Theorem onboarding_starts_every_tenant_deploy :
  forall (k : kubectl) (tk : tokens) (props : TenantOnboardingProps)
         (t cn e pl : string) (c : K8s.cluster),
    let b := onboarding_build tk props t cn e pl c in
    started b.2
    = List.map (fun x => (x +:+ "TenantDeploy", ("TENANT_ID", t)))
        (applicationServiceBuildProjectNames props)
    /\ (forall svc,
          projectName (tenantDeployProject tk svc) = name svc +:+ "TenantDeploy")
    /\ (forall po oo sprops,
          applicationServiceBuildProjectNames (onboardingSvc sprops)
          = List.map name (applicationServices po oo sprops)
          /\ forall svc,
               In svc (applicationServices po oo sprops) ->
               find_tenant_deploy tk (applicationServices po oo sprops)
                 (name svc +:+ "TenantDeploy") = Some svc)
    /\ (dns_label t = true -> namespaces k t = true ->
        forall svc (c0 : K8s.cluster),
          let a := assetDirectory svc in
          let d := tenant_deploy_in k tk svc t c0 in
          d.1 = true
          /\ cluster d.2 !! (t, ("Deployment", app a))
             = Some (K8s.Deployment (t +:+ "-service-account")
                       (repositoryUri tk (ecrImageName svc) +:+ ":latest")
                       (containerPort a))
          /\ cluster d.2 !! (t, ("Service", service_name a))
             = Some (K8s.Service (app a) (service_port a) (containerPort a))
          /\ cluster d.2 !! (t, ("Ingress", ingress_name a))
             = Some (K8s.Ingress
                       {| K8s.mergeable_ingress_type := K8s.minion;
                          K8s.host := tolower (internalApiDomain svc);
                          K8s.paths :=
                            [ {| K8s.path :=
                                   "/" +:+ t +:+ "/" +:+ serviceUrlPrefix svc;
                                 K8s.backend_service := service_name a;
                                 K8s.backend_port := service_port a |} ] |})
          /\ forall key : K8s.key,
               K8s.namespace_of key <> t -> cluster d.2 !! key = c0 !! key)
    /\ (dns_label t = true -> namespaces k t = true ->
        forall po oo sprops svc,
          In svc (applicationServices po oo sprops) ->
          let a := assetDirectory svc in
          let r := fan_out_in k tk (onboardingSvc sprops)
                     (applicationServices po oo sprops) t cn e pl c in
          r !! (t, ("Deployment", app a))
          = Some (K8s.Deployment (t +:+ "-service-account")
                    (repositoryUri tk (ecrImageName svc) +:+ ":latest")
                    (containerPort a))
          /\ r !! (t, ("Service", service_name a))
             = Some (K8s.Service (app a) (service_port a) (containerPort a))
          /\ r !! (t, ("Ingress", ingress_name a))
             = Some (K8s.Ingress
                       {| K8s.mergeable_ingress_type := K8s.minion;
                          K8s.host := tolower (internalApiDomain svc);
                          K8s.paths :=
                            [ {| K8s.path :=
                                   "/" +:+ t +:+ "/" +:+ serviceUrlPrefix svc;
                                 K8s.backend_service := service_name a;
                                 K8s.backend_port := service_port a |} ] |}))
    /\ (fields t = [] ->
        forall svc (c0 : K8s.cluster),
          (tenant_deploy_in k tk svc t c0).1 = false
          /\ cluster (tenant_deploy_in k tk svc t c0).2 = c0).
Proof.
  intros k tk props t cn e pl c b.
  split; [apply BuildFacts.onboarding_build_spec|].
  split; [reflexivity|].
  split; [|split; [|split]].
  - intros po oo sprops. split; [reflexivity|].
    intros svc [<-|[<-|[]]].
    + apply BuildFacts.find_product_deploy.
    + apply BuildFacts.find_order_deploy.
  - intros Hl Hn svc c0 a d.
    destruct (tenant_deploy_in_label k tk svc t c0 Hl Hn) as [Hok Hc].
    fold d in Hok, Hc. split; [exact Hok|]. rewrite Hc.
    destruct (BuildFacts.apply_tenant_objects tk svc t c0) as (Hi & Hs & Hd).
    split; [exact Hd|]. split; [exact Hs|]. split; [exact Hi|].
    intros key Hkey. by apply BuildFacts.apply_all_namespace.
  - intros Hl Hn po oo sprops svc Hs a r.
    destruct (fan_out_in_objects k tk po oo sprops t cn e pl c svc Hl Hn Hs)
      as (Hi & Hsv & Hd).
    split; [exact Hd|]. split; [exact Hsv | exact Hi].
  - intros Hf svc c0. apply deploy_refused, apply_k_refused. by left.
Qed.

Lemma onboarding_starts_every_tenant_deploy_witness :
  started (onboarding_build Scenario.tokens0 (onboardingSvc Scenario.props0)
             "acmecorp" "Acme Corp!" "a@acme.com" "pooled" Scenario.cluster0).2
  = [ ("ProductServiceTenantDeploy", ("TENANT_ID", "acmecorp"));
      ("OrderServiceTenantDeploy", ("TENANT_ID", "acmecorp")) ]
  /\ fan_out_in Scenario.kubectl0 Scenario.tokens0
       (onboardingSvc Scenario.props0)
       (applicationServices Scenario.overlay0 Scenario.overlay0 Scenario.props0)
       "acmecorp" "Acme Corp!" "a@acme.com" "pooled" Scenario.cluster0
     !! ("acmecorp", ("Deployment", "product"))
     = Some (K8s.Deployment "acmecorp-service-account"
               "111122223333.dkr.ecr.us-east-1.amazonaws.com/product-svc:latest"
               5000)
  /\ fan_out_in Scenario.kubectl0 Scenario.tokens0
       (onboardingSvc Scenario.props0)
       (applicationServices Scenario.overlay0 Scenario.overlay0 Scenario.props0)
       "acmecorp" "Acme Corp!" "a@acme.com" "pooled" Scenario.cluster0
     !! ("acmecorp", ("Ingress", "order-service-ingress"))
     = Some (K8s.Ingress
               {| K8s.mergeable_ingress_type := K8s.minion;
                  K8s.host := "api.example.com";
                  K8s.paths :=
                    [ {| K8s.path := "/acmecorp/orders";
                         K8s.backend_service := "order-service";
                         K8s.backend_port := 80 |} ] |}).
Proof.
  pose proof (onboarding_starts_every_tenant_deploy Scenario.kubectl0
                Scenario.tokens0 (onboardingSvc Scenario.props0) "acmecorp"
                "Acme Corp!" "a@acme.com" "pooled" Scenario.cluster0)
    as (H1 & _ & _ & _ & H5 & _).
  split; [exact H1|]. split.
  - exact (proj1 (H5 eq_refl eq_refl Scenario.overlay0 Scenario.overlay0
                    Scenario.props0
                    (productSvc Scenario.overlay0 Scenario.props0)
                    (or_introl eq_refl))).
  - exact (proj2 (proj2 (H5 eq_refl eq_refl Scenario.overlay0
                           Scenario.overlay0 Scenario.props0
                           (orderSvc Scenario.overlay0 Scenario.props0)
                           (or_intror (or_introl eq_refl))))).
Defined.

(** C5, the claim as worded fails: for the empty tenant id, the slug of the
    company name "!!!", the onboarding build starts both tenant-deploy
    projects with an empty [TENANT_ID], and the started builds apply no
    overlay: the cluster is as before. *)
Lemma empty_tenant_id_deploys_nothing :
  RegisterComponent.tenantId (Js.of_string "!!!") = []
  /\ started (onboarding_build Scenario.tokens0 (onboardingSvc Scenario.props0)
                "" "!!!" "a@acme.com" "pooled" Scenario.cluster0).2
     = [ ("ProductServiceTenantDeploy", ("TENANT_ID", ""));
         ("OrderServiceTenantDeploy", ("TENANT_ID", "")) ]
  /\ fan_out_in Scenario.kubectl0 Scenario.tokens0
       (onboardingSvc Scenario.props0)
       (applicationServices Scenario.overlay0 Scenario.overlay0 Scenario.props0)
       "" "!!!" "a@acme.com" "pooled" Scenario.cluster0
     = Scenario.cluster0.
Proof.
  split; [vm_compute; reflexivity|]. split.
  - apply (BuildFacts.onboarding_build_spec Scenario.tokens0
             (onboardingSvc Scenario.props0) "" "!!!" "a@acme.com" "pooled"
             Scenario.cluster0).
  - rewrite fan_out_in_stack.
    destruct (deploy_refused Scenario.kubectl0 Scenario.tokens0
                (productSvc Scenario.overlay0 Scenario.props0) ""
                Scenario.cluster0 eq_refl) as [_ ->].
    apply (deploy_refused Scenario.kubectl0 Scenario.tokens0
             (orderSvc Scenario.overlay0 Scenario.props0) ""
             Scenario.cluster0 eq_refl).
Qed.

(** *** Tenant ids that name no namespace *)

Lemma label_rest_chars (s : string) (c : ascii) :
  label_rest s = true -> In c (list_ascii_of_string s) ->
  label_alnum c || (c =? "-")%char = true.
Proof.
  induction s as [|d s IH]; [intros _ []|].
  destruct s as [|d' s].
  - cbn [label_rest list_ascii_of_string In]. intros H [<-|[]].
    by rewrite H.
  - intros [Hd Hr]%andb_true_iff.
    change (list_ascii_of_string (String d (String d' s)))
      with (d :: list_ascii_of_string (String d' s)).
    intros [<-|Hin]; [exact Hd | by apply IH].
Qed.

Lemma dns_label_chars (t : string) (c : ascii) :
  dns_label t = true -> In c (list_ascii_of_string t) ->
  label_alnum c || (c =? "-")%char = true.
Proof.
  destruct t as [|d t]; [discriminate|]. unfold dns_label.
  intros [[Hd Hr]%andb_true_iff _]%andb_true_iff.
  cbn [list_ascii_of_string In]. intros [<-|Hin].
  - by rewrite Hd.
  - by apply (label_rest_chars t).
Qed.

(** A tenant-deploy build whose [TENANT_ID] has no word (it is empty or
    blank) fails at [kubectl apply], where [-n] lacks its argument; so
    does, on every cluster, a build whose [TENANT_ID] is one word without
    pattern characters that holds an underscore, as the slug of a company
    name with an underscore does: no namespace has such a name.  The
    cluster is left as it was. *)
Theorem tenant_deploy_needs_a_namespace_name (k : kubectl) (tk : tokens)
    (svc : ApplicationServiceProps) (t : string) (c : K8s.cluster) :
  fields t = []
  \/ (single_field t = true /\ ordinary t = true
      /\ In "_"%char (list_ascii_of_string t)) ->
  (tenant_deploy_in k tk svc t c).1 = false
  /\ cluster (tenant_deploy_in k tk svc t c).2 = c.
Proof.
  intros H. apply deploy_refused, apply_k_refused.
  destruct H as [H|(Hs & Ho & Hu)]; [by left|]. right.
  split; [exact Hs|]. split; [exact Ho|].
  destruct (dns_label t) eqn:Hl; [|reflexivity].
  pose proof (dns_label_chars t "_" Hl Hu) as Hc. discriminate Hc.
Qed.

Lemma tenant_deploy_needs_a_namespace_name_witness :
  RegisterComponent.tenantId (Js.of_string "Acme_Corp")
  = Js.of_string "acme_corp"
  /\ (tenant_deploy_in Scenario.kubectl0 Scenario.tokens0
        (productSvc Scenario.overlay0 Scenario.props0) "acme_corp"
        Scenario.cluster0).1 = false
  /\ cluster (tenant_deploy_in Scenario.kubectl0 Scenario.tokens0
                (productSvc Scenario.overlay0 Scenario.props0) "acme_corp"
                Scenario.cluster0).2
     = Scenario.cluster0.
Proof.
  split; [vm_compute; reflexivity|].
  apply (tenant_deploy_needs_a_namespace_name Scenario.kubectl0
           Scenario.tokens0 (productSvc Scenario.overlay0 Scenario.props0)
           "acme_corp" Scenario.cluster0).
  right. split; [reflexivity|]. split; [reflexivity|].
  cbn. tauto.
Defined.

End DeployFacts.

(** ** Routes of different tenants and services *)

Module RouteFacts.
Import Shell CodeBuild Cdk.

Lemma list_of_append (a b : string) :
  list_ascii_of_string (a +:+ b)
  = list_ascii_of_string a ++ list_ascii_of_string b.
Proof.
  induction a as [|c a IH]; [reflexivity|].
  change (String c a +:+ b) with (String c (a +:+ b)).
  cbn [list_ascii_of_string app]. by rewrite IH.
Qed.

Lemma list_of_string_inj (a b : string) :
  list_ascii_of_string a = list_ascii_of_string b -> a = b.
Proof.
  intros E. rewrite <- (string_of_list_ascii_of_string a),
              <- (string_of_list_ascii_of_string b). by rewrite E.
Qed.

Lemma append_inv_tail (a b c : string) : a +:+ c = b +:+ c -> a = b.
Proof.
  intros E. apply list_of_string_inj.
  apply (f_equal list_ascii_of_string) in E. rewrite !list_of_append in E.
  by apply List.app_inv_tail in E.
Qed.

(** No text ends both in [/products] and in [/orders]. *)
Lemma products_is_not_orders (a b : string) :
  a +:+ "/products" <> b +:+ "/orders".
Proof.
  intros E. apply (f_equal list_ascii_of_string) in E.
  rewrite (list_of_append a), (list_of_append b) in E.
  change (list_ascii_of_string "/products")
    with ((list_ascii_of_string "/produc" ++ ["t"%char]) ++ ["s"%char]) in E.
  change (list_ascii_of_string "/orders")
    with ((list_ascii_of_string "/orde" ++ ["r"%char]) ++ ["s"%char]) in E.
  rewrite !app_assoc in E.
  apply List.app_inj_tail in E as [E _].
  apply List.app_inj_tail in E as [_ E]. discriminate E.
Qed.

(** The one path of the ingress that a tenant-deploy build leaves in the
    namespace of its tenant. *)
Lemma deployed_path (k : Kubectl.kubectl) (tk : tokens)
    (svc : ApplicationServiceProps) (t : string) (c : K8s.cluster)
    (i : K8s.ingress) (p : K8s.http_path) :
  Kubectl.dns_label t = true -> Kubectl.namespaces k t = true ->
  cluster (Kubectl.tenant_deploy_in k tk svc t c).2
  !! (t, ("Ingress", ingress_name (assetDirectory svc)))
  = Some (K8s.Ingress i) ->
  In p (K8s.paths i) ->
  K8s.path p = "/" +:+ t +:+ "/" +:+ serviceUrlPrefix svc.
Proof.
  intros Hl Hn Hi Hp.
  destruct (DeployFacts.tenant_deploy_in_label k tk svc t c Hl Hn) as [_ Hc].
  rewrite Hc in Hi.
  destruct (BuildFacts.apply_tenant_objects tk svc t c) as (Hi' & _).
  cbv zeta in Hi'. rewrite Hi' in Hi. injection Hi as <-.
  destruct Hp as [<-|[]]. reflexivity.
Qed.

(** In [ServicesStack] no two routes share a path: the ingress that the
    tenant-deploy build of a service leaves in the namespace of one tenant
    and the ingress that the build of a service leaves in the namespace of
    another tenant, or the build of the other service in the same
    namespace, carry different paths. *)
Theorem route_paths_distinct (k : Kubectl.kubectl) (tk : tokens)
    (po oo : overlay_files) (props : ServicesStackProps)
    (s1 s2 : ApplicationServiceProps) (t1 t2 : string)
    (c1 c2 : K8s.cluster) (i1 i2 : K8s.ingress) (p1 p2 : K8s.http_path) :
  In s1 (applicationServices po oo props) ->
  In s2 (applicationServices po oo props) ->
  Kubectl.dns_label t1 = true -> Kubectl.namespaces k t1 = true ->
  Kubectl.dns_label t2 = true -> Kubectl.namespaces k t2 = true ->
  cluster (Kubectl.tenant_deploy_in k tk s1 t1 c1).2
  !! (t1, ("Ingress", ingress_name (assetDirectory s1)))
  = Some (K8s.Ingress i1) ->
  cluster (Kubectl.tenant_deploy_in k tk s2 t2 c2).2
  !! (t2, ("Ingress", ingress_name (assetDirectory s2)))
  = Some (K8s.Ingress i2) ->
  In p1 (K8s.paths i1) -> In p2 (K8s.paths i2) ->
  t1 <> t2 \/ s1 <> s2 ->
  K8s.path p1 <> K8s.path p2.
Proof.
  intros Hs1 Hs2 Hl1 Hn1 Hl2 Hn2 Hi1 Hi2 Hp1 Hp2 Hd E.
  rewrite (deployed_path k tk s1 t1 c1 i1 p1 Hl1 Hn1 Hi1 Hp1) in E.
  rewrite (deployed_path k tk s2 t2 c2 i2 p2 Hl2 Hn2 Hi2 Hp2) in E.
  injection E as E.
  assert (Hsame : t1 = t2 /\ s1 = s2).
  { destruct Hs1 as [<-|[<-|[]]], Hs2 as [<-|[<-|[]]];
      cbn [serviceUrlPrefix productSvc orderSvc] in E.
    - split; [|reflexivity]. by apply (append_inv_tail t1 t2 "/products").
    - exfalso. by apply (products_is_not_orders t1 t2).
    - exfalso. by apply (products_is_not_orders t2 t1).
    - split; [|reflexivity]. by apply (append_inv_tail t1 t2 "/orders"). }
  destruct Hsame as [Et Es]. destruct Hd as [Hd|Hd]; contradiction.
Qed.

Lemma route_paths_distinct_witness :
  exists (i1 i2 : K8s.ingress) (p1 p2 : K8s.http_path),
    cluster (Kubectl.tenant_deploy_in Scenario.kubectl0 Scenario.tokens0
               (productSvc Scenario.overlay0 Scenario.props0) "acmecorp"
               Scenario.cluster0).2
    !! ("acmecorp", ("Ingress", "product-service-ingress"))
    = Some (K8s.Ingress i1)
    /\ cluster (Kubectl.tenant_deploy_in Scenario.kubectl0 Scenario.tokens0
                  (productSvc Scenario.overlay0 Scenario.props0) "globex"
                  Scenario.cluster0).2
       !! ("globex", ("Ingress", "product-service-ingress"))
       = Some (K8s.Ingress i2)
    /\ K8s.paths i1 = [p1] /\ K8s.paths i2 = [p2]
    /\ K8s.path p1 = "/acmecorp/products"
    /\ K8s.path p2 = "/globex/products"
    /\ K8s.path p1 <> K8s.path p2.
Proof.
  destruct (DeployFacts.tenant_deploy_in_label Scenario.kubectl0
              Scenario.tokens0 (productSvc Scenario.overlay0 Scenario.props0)
              "acmecorp" Scenario.cluster0 eq_refl eq_refl) as [_ H1].
  destruct (DeployFacts.tenant_deploy_in_label Scenario.kubectl0
              Scenario.tokens0 (productSvc Scenario.overlay0 Scenario.props0)
              "globex" Scenario.cluster0 eq_refl eq_refl) as [_ H2].
  pose proof (proj1 (BuildFacts.apply_tenant_objects Scenario.tokens0
                       (productSvc Scenario.overlay0 Scenario.props0)
                       "acmecorp" Scenario.cluster0)) as L1.
  pose proof (proj1 (BuildFacts.apply_tenant_objects Scenario.tokens0
                       (productSvc Scenario.overlay0 Scenario.props0)
                       "globex" Scenario.cluster0)) as L2.
  cbv zeta in L1, L2. rewrite <- H1 in L1. rewrite <- H2 in L2.
  eexists _, _, _, _.
  split; [exact L1|]. split; [exact L2|].
  split; [reflexivity|]. split; [reflexivity|].
  split; [reflexivity|]. split; [reflexivity|].
  assert (Hne : "acmecorp" <> "globex") by discriminate.
  exact (route_paths_distinct Scenario.kubectl0 Scenario.tokens0
           Scenario.overlay0 Scenario.overlay0 Scenario.props0
           (productSvc Scenario.overlay0 Scenario.props0)
           (productSvc Scenario.overlay0 Scenario.props0)
           "acmecorp" "globex" Scenario.cluster0 Scenario.cluster0 _ _ _ _
           (or_introl eq_refl) (or_introl eq_refl)
           eq_refl eq_refl eq_refl eq_refl L1 L2
           (or_introl eq_refl) (or_introl eq_refl) (or_introl Hne)).
Defined.



End RouteFacts.
